(** * openUKR key lifecycle engine: a shallow embedding and its properties

    The functions of the Go packages [pkg/crypto], [pkg/publish],
    [pkg/output], [pkg/rotation], [pkg/validation] and of the admission
    webhook are embedded as Rocq functions under their Go names.

    - Go maps are [gmap]s; Go integers, instants and durations are [Z].
    - A pointer is [option loc], nil being [None].  The key structs are never
      assigned to after creation and stand for the pointers to them; the
      [KeyPair] struct, the buffer behind [rawPrivateBytes] and the private
      [big.Int]s, which [Wipe] overwrites, live in a store ([Heap]).
    - A function with effects is a state transformer ([M]) over the store,
      the outside world and a trace of events; a nil dereference is the
      outcome [Panicked].
    - What [fmt.Errorf] and [fmt.Sprintf] build is kept as the format string
      with its arguments.
    - Calls that leave the repository (the Go standard library, the keystore
      library) are the fields of the classes [Encodings] and [Effects]; the
      collaborators behind the interfaces of [pkg/rotation] are the fields of
      [manager]. *)

From Stdlib Require Import ZArith String Ascii List Lia Bool.
From stdpp Require Import base option gmap strings list.

Open Scope string_scope.
Open Scope list_scope.
Open Scope Z_scope.

(** ** Go values shared by all packages *)

(** [time]: an instant is a number of nanoseconds counted from the zero
    instant of [time.Time] (January 1, year 1, 00:00 UTC); a [Duration] is a
    number of nanoseconds.  Instants are unbounded: the saturation of
    [Time.Add] at the ends of the library's range, some 292 billion years
    away from the zero instant, is not modelled. *)
Module time.

Definition Duration := Z.

Record Time := mkTime { instant : Z }.

Definition Nanosecond : Duration := 1.
Definition Second : Duration := 1000000000.
Definition Minute : Duration := 60 * Second.
Definition Hour : Duration := 60 * Minute.

(** [time.Time{}] *)
Definition zero : Time := mkTime 0.

Definition IsZero (t : Time) : bool := instant t =? 0.

Definition Add (t : Time) (d : Duration) : Time := mkTime (instant t + d).

(** [t.After(u)] *)
Definition After (t u : Time) : bool := instant u <? instant t.

Definition Equal (t u : Time) : bool := instant t =? instant u.

End time.

(** [*metav1.Time]: a pointer, [None] is nil.  [IsZero] has a pointer
    receiver and answers [true] on nil. *)
Module metav1.

Definition Time := option time.Time.

Definition IsZero (t : Time) : bool :=
  match t with
  | None => true
  | Some t => time.IsZero t
  end.

End metav1.

(** Errors.  [fmt.Errorf] and [fmt.Sprintf] are kept symbolic: the value
    records the format string and the arguments the code passes, in order;
    the verbs are not interpreted. *)
Inductive error : Type :=
| errors_New (msg : string)
| NumError (Func Num : string) (Err : error)
| Errorf (format : string) (args : list FmtArg)
with FmtArg : Type :=
| AInt (n : Z)
| AStr (s : string)
| ADuration (d : time.Duration)
| ATime (t : time.Time)
| AErr (e : error)
| AErrs (es : list error).

(** A Go string: a literal, or what [fmt.Sprintf] builds. *)
Inductive gostring : Type :=
| Lit (s : string)
| Sprintf (format : string) (args : list FmtArg).

(** The two results [(v, nil)] and [(zero, err)] of a fallible Go function. *)
Inductive Result (A : Type) : Type :=
| Ok (a : A)
| Err (e : error).
Arguments Ok {A} a.
Arguments Err {A} e.

Definition is_Ok {A} (r : Result A) : bool :=
  match r with Ok _ => true | Err _ => false end.

Definition is_Err {A} (r : Result A) : bool := negb (is_Ok r).

(** [m[k]] on a [map[K]bool]: the zero value [false] when the key is absent. *)
Definition lookup_bool `{Countable K} (m : gmap K bool) (k : K) : bool :=
  default false (m !! k).

(** ** [strconv.Atoi] *)
Module strconv.

Definition ErrSyntax : error := errors_New "invalid syntax".
Definition ErrRange : error := errors_New "value out of range".

Definition digit (c : ascii) : option Z :=
  let n := Z.of_N (N_of_ascii c) in
  if (48 <=? n) && (n <=? 57) then Some (n - 48) else None.

(** Base-10 value of a run of digits, or [None] at the first other byte. *)
Fixpoint digits (acc : Z) (s : string) : option Z :=
  match s with
  | EmptyString => Some acc
  | String c s' =>
      match digit c with
      | Some d => digits (acc * 10 + d) s'
      | None => None
      end
  end.

Definition maxInt : Z := 2 ^ 63 - 1.
Definition minInt : Z := - 2 ^ 63.

(** An optional sign, then at least one decimal digit and nothing else;
    the value must fit the 64-bit [int].  No underscores, no base prefix. *)
Definition Atoi (s : string) : Result Z :=
  let '(neg, body) :=
    match s with
    | String "-" r => (true, r)
    | String "+" r => (false, r)
    | _ => (false, s)
    end in
  match body with
  | EmptyString => Err (NumError "Atoi" s ErrSyntax)
  | _ =>
      match digits 0 body with
      | None => Err (NumError "Atoi" s ErrSyntax)
      | Some v =>
          let n := if neg then - v else v in
          if (minInt <=? n) && (n <=? maxInt) then Ok n
          else Err (NumError "Atoi" s ErrRange)
      end
  end.

End strconv.

(** ** Package [crypto]: key-spec validation *)

Definition AlgorithmEC := "EC".
Definition AlgorithmRSA := "RSA".

Definition CurveP256 := "P-256".
Definition CurveP384 := "P-384".
Definition CurveP521 := "P-521".

Definition RSAMinKeySize : Z := 2048.
Definition RSARecommendedMinKeySize : Z := 3072.

Definition validCurves : gmap string bool :=
  {[ CurveP256 := true; CurveP384 := true; CurveP521 := true ]}.

Definition validRSAKeySizes : gmap Z bool :=
  {[ 2048 := true; 3072 := true; 4096 := true ]}.

(** Go's [(warnings []string, err error)]. *)
Definition Validation : Type := list gostring * option error.

Definition validateEC (params : gmap string string) : Validation :=
  match params !! "curve" with
  | None => ([], Some (Errorf "EC algorithm requires 'curve' parameter" []))
  | Some curve =>
      if decide (curve = "") then
        ([], Some (Errorf "EC algorithm requires 'curve' parameter" []))
      else if negb (lookup_bool validCurves curve) then
        ([], Some (Errorf "unsupported EC curve %q, must be one of: P-256, P-384, P-521"
                     [AStr curve]))
      else ([], None)
  end.

Definition validateRSA (params : gmap string string) (allowLegacy : bool)
  : Validation :=
  match params !! "keySize" with
  | None => ([], Some (Errorf "RSA algorithm requires 'keySize' parameter" []))
  | Some keySizeStr =>
      if decide (keySizeStr = "") then
        ([], Some (Errorf "RSA algorithm requires 'keySize' parameter" []))
      else
        match strconv.Atoi keySizeStr with
        | Err err =>
            ([], Some (Errorf "invalid RSA keySize %q: %w" [AStr keySizeStr; AErr err]))
        | Ok keySize =>
            if negb (lookup_bool validRSAKeySizes keySize) then
              ([], Some (Errorf "unsupported RSA keySize %d, must be one of: 2048, 3072, 4096"
                           [AInt keySize]))
            else if keySize <? RSAMinKeySize then
              ([], Some (Errorf "RSA keySize %d is below absolute minimum %d"
                           [AInt keySize; AInt RSAMinKeySize]))
            else if keySize <? RSARecommendedMinKeySize then
              if negb allowLegacy then
                ([], Some (Errorf
                   "RSA keySize %d is deprecated per BSI TR-02102-1 (2025): set allowLegacyKeySize=true to override, or use >= %d"
                   [AInt keySize; AInt RSARecommendedMinKeySize]))
              else
                ([Sprintf
                    "RSA keySize %d is deprecated per BSI TR-02102-1 (2025). Migrate to >= %d or EC P-256."
                    [AInt keySize; AInt RSARecommendedMinKeySize]],
                 None)
            else ([], None)
        end
  end.

Definition ValidateKeySpec (algorithm : string) (params : gmap string string)
    (allowLegacy : bool) : Validation :=
  if decide (algorithm = AlgorithmEC) then validateEC params
  else if decide (algorithm = AlgorithmRSA) then validateRSA params allowLegacy
  else ([], Some (Errorf "unsupported algorithm %q, must be one of: EC, RSA"
                    [AStr algorithm])).

(** A spec is accepted when the returned error is nil. *)
Definition accepted (v : Validation) : bool :=
  match v.2 with None => true | Some _ => false end.

Definition warnings (v : Validation) : list gostring := v.1.



(** ** API types ([api/v1alpha1]) *)
Module v1alpha1.

Record ServiceAccountReference := {
  sa_Name : string;
  sa_Namespace : string }.

Record KeySpec := {
  Algorithm : string;
  Params : gmap string string;
  Encoding : string;
  AllowLegacyKeySize : bool }.

Record RotationPolicy := {
  Interval : time.Duration;
  GracePeriod : time.Duration;
  TriggerOnStartup : bool }.

Record OutputConfig := {
  SecretName : string;
  Format : string;
  Labels : gmap string string }.

Record TLSConfig := {
  CACertSecretRef : string;
  ClientCertSecretRef : string;
  InsecureSkipVerify : bool }.

Record PublishTarget := {
  Type_ : string;
  Config : gmap string string;
  TLS : option TLSConfig }.

Record KeyProfileSpec := {
  ServiceAccountRef : ServiceAccountReference;
  KeySpec_ : KeySpec;
  Rotation : RotationPolicy;
  Output : OutputConfig;
  Publish : list PublishTarget }.

Record KeyProfileStatus := {
  Phase : string;
  CurrentKeyID : string;
  PreviousKeyID : string;
  CurrentKeyFingerprint : string;
  PreviousKeyFingerprint : string;
  LastRotation : metav1.Time;
  NextRotation : metav1.Time }.

Record KeyProfile := {
  Name : string;
  Namespace : string;
  Spec : KeyProfileSpec;
  Status : KeyProfileStatus }.

End v1alpha1.

(** ** Key material and memory *)

(** Addresses of heap cells.  A Go pointer is [option loc]: [None] is nil. *)
Definition loc := positive.

Inductive Curve := P224 | P256 | P384 | P521.

(** [*big.Int].  The private numbers, which [Wipe] overwrites in place, are
    cells of the store; the public numbers are never written after creation
    and are modelled by their values. *)
Definition bigIntPtr := option loc.

Record ecdsa_PublicKey := {
  ec_Curve : Curve;
  ec_X : Z;
  ec_Y : Z }.

Record ecdsa_PrivateKey := {
  ec_PublicKey : ecdsa_PublicKey;
  ec_D : bigIntPtr }.

Record rsa_PublicKey := {
  rsa_N : Z;
  rsa_E : Z }.

Record rsa_PrivateKey := {
  rsa_PublicKey_ : rsa_PublicKey;
  rsa_D : bigIntPtr;
  rsa_Primes : list bigIntPtr }.

(** [crypto.PrivateKey] and [crypto.PublicKey] are [any]: an interface value
    is nil, or carries a dynamic type and a pointer of that type, which may
    itself be nil.  The key structs are never assigned to after creation, so
    the pointer is modelled by the struct it points to. *)
Inductive PrivateKey :=
| nilPrivateKey
| ecdsaPrivateKey (k : option ecdsa_PrivateKey)
| rsaPrivateKey (k : option rsa_PrivateKey)
| otherPrivateKey (dynamicType : string).

Inductive PublicKey :=
| nilPublicKey
| ecdsaPublicKey (k : option ecdsa_PublicKey)
| rsaPublicKey (k : option rsa_PublicKey)
| otherPublicKey (dynamicType : string).

(** [[]byte]: nil, or a window of [len] bytes at the start of a backing
    array. *)
Inductive byteSlice :=
| nilSlice
| sliceOf (array : loc) (len : nat).

Record KeyPair := {
  KeyID : string;
  PrivateKey_ : PrivateKey;
  PublicKey_ : PublicKey;
  Algorithm : string;
  CreatedAt : time.Time;
  rawPrivateBytes : byteSlice }.

Record GenerateOptions := {
  opt_Algorithm : string;
  opt_Params : gmap string string;
  opt_AllowLegacyKeySize : bool }.

(** The store: backing arrays of byte slices, [big.Int] values, and
    [KeyPair] structs, each by address.  Go has no dangling pointers: a
    read at an address the map does not hold yields the zero value. *)
Record Heap := mkHeap {
  byteArrays : gmap loc (list Byte.byte);
  bigInts : gmap loc Z;
  keyPairs : gmap loc KeyPair }.

Definition emptyHeap : Heap := mkHeap ∅ ∅ ∅.

Definition zeroKeyPair : KeyPair :=
  {| KeyID := ""; PrivateKey_ := nilPrivateKey; PublicKey_ := nilPublicKey;
     Algorithm := ""; CreatedAt := time.zero; rawPrivateBytes := nilSlice |}.

Definition readBytes (h : Heap) (a : loc) : list Byte.byte :=
  default [] (byteArrays h !! a).

Definition readBigInt (h : Heap) (a : loc) : Z :=
  default 0 (bigInts h !! a).

Definition readKeyPair (h : Heap) (a : loc) : KeyPair :=
  default zeroKeyPair (keyPairs h !! a).

Definition writeBytes (a : loc) (bs : list Byte.byte) (h : Heap) : Heap :=
  mkHeap (<[a := bs]> (byteArrays h)) (bigInts h) (keyPairs h).

Definition writeBigInt (a : loc) (z : Z) (h : Heap) : Heap :=
  mkHeap (byteArrays h) (<[a := z]> (bigInts h)) (keyPairs h).

Definition writeKeyPair (a : loc) (kp : KeyPair) (h : Heap) : Heap :=
  mkHeap (byteArrays h) (bigInts h) (<[a := kp]> (keyPairs h)).

(** Allocation picks an address the store does not hold yet. *)
Definition allocBytes (bs : list Byte.byte) (h : Heap) : loc * Heap :=
  let a := fresh (dom (byteArrays h)) in (a, writeBytes a bs h).

Definition allocBigInt (z : Z) (h : Heap) : loc * Heap :=
  let a := fresh (dom (bigInts h)) in (a, writeBigInt a z h).

Definition allocKeyPair (kp : KeyPair) (h : Heap) : loc * Heap :=
  let a := fresh (dom (keyPairs h)) in (a, writeKeyPair a kp h).

(** The bytes a slice shows. *)
Definition sliceBytes (h : Heap) (s : byteSlice) : list Byte.byte :=
  match s with
  | nilSlice => []
  | sliceOf a n => take n (readBytes h a)
  end.

(** ** Library records used by the renderer *)

(** The fields of [x509.Certificate] the renderer sets. *)
Record x509_Certificate := {
  SerialNumber : Z;
  Subject_CommonName : string;
  Subject_Organization : list string;
  NotBefore : time.Time;
  NotAfter : time.Time;
  KeyUsage : Z;
  ExtKeyUsage : list Z;
  BasicConstraintsValid : bool }.

Definition x509_KeyUsageDigitalSignature : Z := 1.
Definition x509_KeyUsageKeyEncipherment : Z := 4.
Definition x509_ExtKeyUsageServerAuth : Z := 1.

Record keystore_Certificate := {
  cert_Type : string;
  cert_Content : list Byte.byte }.

Record keystore_PrivateKeyEntry := {
  CreationTime : time.Time;
  entry_PrivateKey : list Byte.byte;
  CertificateChain : list keystore_Certificate }.

(** ** Effects: outcomes, events, state *)

(** A Go call returns, or panics (a nil pointer dereference). *)
Inductive Outcome (A : Type) : Type :=
| Returned (a : A)
| Panicked.
Arguments Returned {A} a.
Arguments Panicked {A}.

(** What a run does to the outside, in the order it does it: calls into
    libraries that consume randomness, calls through the collaborator
    interfaces with their results, metrics and log records. *)
Inductive Event :=
| EvECDSAGenerateKey (c : Curve)
| EvRSAGenerateKey (bits : Z)
| EvRandRead (n : nat)
| EvRandInt (limit : Z)
| EvCreateCertificate (template : x509_Certificate)
| EvSetPrivateKeyEntry (alias : string) (entry : keystore_PrivateKeyEntry)
    (password : string)
| EvKeystoreStore (password : string)
| EvPublish (i : Z) (target : v1alpha1.PublishTarget) (kp : option loc)
    (r : option error)
| EvGenerate (opts : GenerateOptions) (r : Result (option loc))
| EvPublishAll (targets : list v1alpha1.PublishTarget) (kp : option loc)
    (r : option error)
| EvWrite (profile : v1alpha1.KeyProfile) (kp : option loc) (r : option error)
| EvWipe (kp : option loc)
| EvObserveKeyGenerationDuration (algorithm : string) (d : time.Duration)
| EvRotationErrorsInc (stage namespace : string)
| EvRotationsInc (algorithm namespace : string)
| EvLogInfo (msg : string) (keysAndValues : list (string * gostring)).

Record State (W : Type) := mkState {
  heap : Heap;
  world : W;
  trace : list Event }.
Arguments mkState {W} heap world trace.
Arguments heap {W} s.
Arguments world {W} s.
Arguments trace {W} s.

Definition M (W A : Type) : Type := State W -> Outcome A * State W.

Definition ret {W A} (a : A) : M W A := fun s => (Returned a, s).

Definition bind {W A B} (m : M W A) (k : A -> M W B) : M W B :=
  fun s =>
    match m s with
    | (Returned a, s') => k a s'
    | (Panicked, s') => (Panicked, s')
    end.

Declare Scope go_scope.
Delimit Scope go_scope with go.
Notation "x <~ m ;; k" := (bind m (fun x => k))
  (at level 100, m at next level, right associativity) : go_scope.
Notation "m ;;; k" := (bind m (fun _ => k))
  (at level 100, right associativity) : go_scope.
Open Scope go_scope.

Definition panic {W A} : M W A := fun s => (Panicked, s).

Definition emit {W} (e : Event) : M W unit :=
  fun s => (Returned tt, mkState (heap s) (world s) (trace s ++ [e])).

Definition getHeap {W} : M W Heap := fun s => (Returned (heap s), s).

(** A step on the store alone. *)
Definition onHeap {W A} (f : Heap -> A * Heap) : M W A :=
  fun s => let '(a, h) := f (heap s) in
           (Returned a, mkState h (world s) (trace s)).

(** A step on the outside world alone. *)
Definition onWorld {W A} (f : W -> A * W) : M W A :=
  fun s => let '(a, w) := f (world s) in
           (Returned a, mkState (heap s) w (trace s)).

(** [defer f()] around a body: [f] runs when the body is left, whether it
    returned or panicked; a panic of [f] replaces the body's outcome. *)
Definition defer {W A} (f : M W unit) (body : M W A) : M W A :=
  fun s =>
    let '(r, s1) := body s in
    match f s1 with
    | (Returned _, s2) => (r, s2)
    | (Panicked, s2) => (Panicked, s2)
    end.

(** ** Primitives from outside the repository *)

(** Pure library functions: serialisation, hashing, formatting.  The ones
    that read [big.Int] cells take the store. *)
Class Encodings := {
  x509_MarshalPKIXPublicKey : PublicKey -> Result (list Byte.byte);
  x509_MarshalPKCS8PrivateKey : Heap -> PrivateKey -> Result (list Byte.byte);
  x509_MarshalECPrivateKey : Heap -> ecdsa_PrivateKey -> Result (list Byte.byte);
  x509_MarshalPKCS1PrivateKey : Heap -> rsa_PrivateKey -> list Byte.byte;
  pem_EncodeToMemory : string -> list Byte.byte -> list Byte.byte;
  sha256_Sum256 : list Byte.byte -> list Byte.byte;
  hex_EncodeToString : list Byte.byte -> string;
  time_Format : string -> time.Time -> string;
  (** The methods of [jwkEncoder]; no function embedded here selects the
      JWK encoder, and its body is not embedded. *)
  jwkEncoder_EncodePrivate : Heap -> PrivateKey -> Outcome (Result (list Byte.byte));
  jwkEncoder_EncodePublic : PublicKey -> Outcome (Result (list Byte.byte));
  (** [x509.MarshalPKIXPublicKey(nil)] is an error, "unsupported public key
      type". *)
  x509_MarshalPKIXPublicKey_nil :
    is_Err (x509_MarshalPKIXPublicKey nilPublicKey) = true }.

(** Library calls with an effect on the world [W]: the clock, the random
    source, key generation, certificate signing, the keystore. *)
Class Effects (W : Type) := {
  time_Now : W -> time.Time * W;
  ecdsa_GenerateKey : Curve -> W -> Result (Z * Z * Z) * W;
  rsa_GenerateKey : Z -> W -> Result (Z * Z * Z * list Z) * W;
  rand_Read : nat -> W -> Result (list Byte.byte) * W;
  rand_Int : Z -> W -> Result Z * W;
  x509_CreateCertificate :
    Heap -> x509_Certificate -> PublicKey -> PrivateKey -> W ->
    Result (list Byte.byte) * W;
  keystore_New : W -> W;
  keystore_SetPrivateKeyEntry :
    string -> keystore_PrivateKeyEntry -> string -> W -> option error * W;
  keystore_Store : string -> W -> Result (list Byte.byte) * W }.

(** ** Package [crypto]: fingerprint *)

Definition FingerprintPrefix := "SHA256:".

(** [base64.RawURLEncoding.EncodeToString]: the URL alphabet, no padding. *)
Definition base64url_alphabet :=
  "ABCDEFGHIJKLMNOPQRSTUVWXYZabcdefghijklmnopqrstuvwxyz0123456789-_".

Definition base64url_char (n : N) : ascii :=
  default "A"%char (String.get (N.to_nat n) base64url_alphabet).

Fixpoint base64_RawURLEncoding_EncodeToString (bs : list Byte.byte) : string :=
  match bs with
  | [] => ""
  | [a] =>
      let n := Byte.to_N a in
      String (base64url_char (n / 4))
        (String (base64url_char ((n mod 4) * 16)) "")
  | [a; b] =>
      let n := Byte.to_N a in
      let m := Byte.to_N b in
      String (base64url_char (n / 4))
        (String (base64url_char ((n mod 4) * 16 + m / 16))
           (String (base64url_char ((m mod 16) * 4)) ""))
  | a :: b :: c :: rest =>
      let n := Byte.to_N a in
      let m := Byte.to_N b in
      let k := Byte.to_N c in
      String (base64url_char (n / 4))
        (String (base64url_char ((n mod 4) * 16 + m / 16))
           (String (base64url_char ((m mod 16) * 4 + k / 64))
              (String (base64url_char (k mod 64))
                 (base64_RawURLEncoding_EncodeToString rest))))
  end%N.

Section Fingerprint.
Context `{!Encodings}.

Definition ComputeFingerprint (pubKey : PublicKey) : Result string :=
  match pubKey with
  | nilPublicKey =>
      Err (Errorf "cannot compute fingerprint: public key is nil" [])
  | _ =>
      match x509_MarshalPKIXPublicKey pubKey with
      | Err err => Err (Errorf "marshal public key to DER: %w" [AErr err])
      | Ok derBytes =>
          let hash := sha256_Sum256 derBytes in
          let encoded := base64_RawURLEncoding_EncodeToString hash in
          Ok (FingerprintPrefix +:+ encoded)
      end
  end.

End Fingerprint.

(** ** Package [crypto]: [KeyPair.Wipe] *)

(** [for i := range s { s[i] = 0 }] on the backing array of [s]. *)
Fixpoint zeroIndices (a : loc) (idx : list nat) (h : Heap) : Heap :=
  match idx with
  | [] => h
  | i :: idx' =>
      zeroIndices a idx' (writeBytes a (<[i := Byte.x00]> (readBytes h a)) h)
  end.

Definition zeroSlice (s : byteSlice) (h : Heap) : Heap :=
  match s with
  | nilSlice => h
  | sliceOf a n => zeroIndices a (seq 0 n) h
  end.

(** [if p != nil { p.SetInt64(0) }] *)
Definition zeroBigInt (p : bigIntPtr) (h : Heap) : Heap :=
  match p with
  | Some a => writeBigInt a 0 h
  | None => h
  end.

(** [for i := range ps { if ps[i] != nil { ps[i].SetInt64(0) } }] *)
Fixpoint zeroPrimes (ps : list bigIntPtr) (h : Heap) : Heap :=
  match ps with
  | [] => h
  | p :: ps' => zeroPrimes ps' (zeroBigInt p h)
  end.

(** The type switch of [Wipe].  In the [*rsa.PrivateKey] case the guard
    [k != nil] covers the exponent only; [k.Primes] is read next, whatever
    [k] is, and dereferences it. *)
Definition wipePrivateKey (key : PrivateKey) (h : Heap) : Outcome unit * Heap :=
  match key with
  | ecdsaPrivateKey k =>
      match k with
      | Some k => (Returned tt, zeroBigInt (ec_D k) h)
      | None => (Returned tt, h)
      end
  | rsaPrivateKey k =>
      let h1 := match k with
                | Some k => zeroBigInt (rsa_D k) h
                | None => h
                end in
      match k with
      | Some k => (Returned tt, zeroPrimes (rsa_Primes k) h1)
      | None => (Panicked, h1)
      end
  | nilPrivateKey | otherPrivateKey _ => (Returned tt, h)
  end.

Definition set_rawPrivateBytes (s : byteSlice) (kp : KeyPair) : KeyPair :=
  {| KeyID := KeyID kp; PrivateKey_ := PrivateKey_ kp;
     PublicKey_ := PublicKey_ kp; Algorithm := Algorithm kp;
     CreatedAt := CreatedAt kp; rawPrivateBytes := s |}.

Definition set_PrivateKey (k : PrivateKey) (kp : KeyPair) : KeyPair :=
  {| KeyID := KeyID kp; PrivateKey_ := k;
     PublicKey_ := PublicKey_ kp; Algorithm := Algorithm kp;
     CreatedAt := CreatedAt kp; rawPrivateBytes := rawPrivateBytes kp |}.

Definition set_PublicKey (k : PublicKey) (kp : KeyPair) : KeyPair :=
  {| KeyID := KeyID kp; PrivateKey_ := PrivateKey_ kp;
     PublicKey_ := k; Algorithm := Algorithm kp;
     CreatedAt := CreatedAt kp; rawPrivateBytes := rawPrivateBytes kp |}.

Definition Wipe (kp : option loc) (h : Heap) : Outcome unit * Heap :=
  match kp with
  | None => (Returned tt, h)
  | Some a =>
      let h1 := zeroSlice (rawPrivateBytes (readKeyPair h a)) h in
      let h2 := writeKeyPair a (set_rawPrivateBytes nilSlice (readKeyPair h1 a)) h1 in
      match wipePrivateKey (PrivateKey_ (readKeyPair h2 a)) h2 with
      | (Panicked, h3) => (Panicked, h3)
      | (Returned _, h3) =>
          let h4 := writeKeyPair a (set_PrivateKey nilPrivateKey (readKeyPair h3 a)) h3 in
          (Returned tt,
           writeKeyPair a (set_PublicKey nilPublicKey (readKeyPair h4 a)) h4)
      end
  end.

(** ** Package [crypto]: key generation *)

Section Keygen.
Context {W : Type} `{!Encodings} `{!Effects W}.

Definition parseCurve (name : string) : Result Curve :=
  if decide (name = CurveP256) then Ok P256
  else if decide (name = CurveP384) then Ok P384
  else if decide (name = CurveP521) then Ok P521
  else Err (Errorf "unsupported curve: %s" [AStr name]).

(** [fmt.Sprintf("%s-%s-%s-%s", ...)] on strings is concatenation. *)
Definition generateKeyID (alg param : string) : M W (Result string) :=
  emit (EvRandRead 3) ;;;
  r <~ onWorld (rand_Read 3) ;;
  match r with
  | Err err =>
      ret (Err (Errorf "generating random bytes for key ID: %w" [AErr err]))
  | Ok randomBytes =>
      now <~ onWorld time_Now ;;
      let date := time_Format "20060102" now in
      ret (Ok (alg +:+ "-" +:+ param +:+ "-" +:+ date +:+ "-" +:+
               hex_EncodeToString randomBytes))
  end.

(** [ecdsa.GenerateKey(curve, rand.Reader)]: the library draws the key;
    the private scalar becomes a fresh [big.Int] cell. *)
Definition call_ecdsa_GenerateKey (curve : Curve)
  : M W (Result ecdsa_PrivateKey) :=
  emit (EvECDSAGenerateKey curve) ;;;
  r <~ onWorld (ecdsa_GenerateKey curve) ;;
  match r with
  | Err err => ret (Err err)
  | Ok (x, y, d) =>
      a <~ onHeap (allocBigInt d) ;;
      ret (Ok {| ec_PublicKey := {| ec_Curve := curve; ec_X := x; ec_Y := y |};
                 ec_D := Some a |})
  end.

Fixpoint allocPrimes (ps : list Z) : M W (list bigIntPtr) :=
  match ps with
  | [] => ret []
  | p :: ps' =>
      a <~ onHeap (allocBigInt p) ;;
      rest <~ allocPrimes ps' ;;
      ret (Some a :: rest)
  end.

(** [rsa.GenerateKey(rand.Reader, bits)] *)
Definition call_rsa_GenerateKey (bits : Z) : M W (Result rsa_PrivateKey) :=
  emit (EvRSAGenerateKey bits) ;;;
  r <~ onWorld (rsa_GenerateKey bits) ;;
  match r with
  | Err err => ret (Err err)
  | Ok (n, e, d, ps) =>
      a <~ onHeap (allocBigInt d) ;;
      primes <~ allocPrimes ps ;;
      ret (Ok {| rsa_PublicKey_ := {| rsa_N := n; rsa_E := e |};
                 rsa_D := Some a; rsa_Primes := primes |})
  end.

Definition generateEC (opts : GenerateOptions) : M W (Result (option loc)) :=
  let curveName := default "" (opt_Params opts !! "curve") in
  match parseCurve curveName with
  | Err err => ret (Err (Errorf "EC key generation failed: %w" [AErr err]))
  | Ok curve =>
      r <~ call_ecdsa_GenerateKey curve ;;
      match r with
      | Err err => ret (Err (Errorf "ecdsa.GenerateKey failed: %w" [AErr err]))
      | Ok privateKey =>
          h <~ getHeap ;;
          match x509_MarshalECPrivateKey h privateKey with
          | Err err =>
              ret (Err (Errorf "marshal EC private key for wipe tracking: %w"
                          [AErr err]))
          | Ok der =>
              raw <~ onHeap (allocBytes der) ;;
              id <~ generateKeyID "ec" curveName ;;
              match id with
              | Err err =>
                  ret (Err (Errorf "key ID generation failed: %w" [AErr err]))
              | Ok keyID =>
                  now <~ onWorld time_Now ;;
                  kp <~ onHeap (allocKeyPair
                          {| KeyID := keyID;
                             PrivateKey_ := ecdsaPrivateKey (Some privateKey);
                             PublicKey_ := ecdsaPublicKey (Some (ec_PublicKey privateKey));
                             Algorithm := AlgorithmEC;
                             CreatedAt := now;
                             rawPrivateBytes := sliceOf raw (length der) |}) ;;
                  ret (Ok (Some kp))
              end
          end
      end
  end.

Definition generateRSA (opts : GenerateOptions) : M W (Result (option loc)) :=
  let keySizeStr := default "" (opt_Params opts !! "keySize") in
  match strconv.Atoi keySizeStr with
  | Err err =>
      ret (Err (Errorf "invalid RSA keySize %q: %w" [AStr keySizeStr; AErr err]))
  | Ok keySize =>
      r <~ call_rsa_GenerateKey keySize ;;
      match r with
      | Err err => ret (Err (Errorf "rsa.GenerateKey failed: %w" [AErr err]))
      | Ok privateKey =>
          h <~ getHeap ;;
          raw <~ onHeap (allocBytes (x509_MarshalPKCS1PrivateKey h privateKey)) ;;
          id <~ generateKeyID "rsa" keySizeStr ;;
          match id with
          | Err err =>
              ret (Err (Errorf "key ID generation failed: %w" [AErr err]))
          | Ok keyID =>
              now <~ onWorld time_Now ;;
              kp <~ onHeap (allocKeyPair
                      {| KeyID := keyID;
                         PrivateKey_ := rsaPrivateKey (Some privateKey);
                         PublicKey_ := rsaPublicKey (Some (rsa_PublicKey_ privateKey));
                         Algorithm := AlgorithmRSA;
                         CreatedAt := now;
                         rawPrivateBytes :=
                           sliceOf raw (length (x509_MarshalPKCS1PrivateKey h privateKey)) |}) ;;
              ret (Ok (Some kp))
          end
      end
  end.

(** [defaultGenerator.Generate] *)
Definition Generate (opts : GenerateOptions) : M W (Result (option loc)) :=
  match (ValidateKeySpec (opt_Algorithm opts) (opt_Params opts)
           (opt_AllowLegacyKeySize opts)).2 with
  | Some err =>
      ret (Err (Errorf "key generation validation failed: %w" [AErr err]))
  | None =>
      if decide (opt_Algorithm opts = AlgorithmEC) then generateEC opts
      else if decide (opt_Algorithm opts = AlgorithmRSA) then generateRSA opts
      else ret (Err (Errorf "unsupported algorithm: %s" [AStr (opt_Algorithm opts)]))
  end.

End Keygen.

(** ** Package [crypto]: encoders *)

Inductive KeyEncoder := pemEncoder | derEncoder | jwkEncoder.

Definition NewKeyEncoder (encoding : string) : Result KeyEncoder :=
  if decide (encoding = "PEM") then Ok pemEncoder
  else if decide (encoding = "DER") then Ok derEncoder
  else if decide (encoding = "JWK") then Ok jwkEncoder
  else Err (Errorf "unsupported encoding: %s" [AStr encoding]).

Section Encoders.
Context `{!Encodings}.

Definition EncodePrivate (e : KeyEncoder) (h : Heap) (key : PrivateKey)
  : Outcome (Result (list Byte.byte)) :=
  match e with
  | pemEncoder =>
      match x509_MarshalPKCS8PrivateKey h key with
      | Err err =>
          Returned (Err (Errorf "marshal private key to PKCS8: %w" [AErr err]))
      | Ok derBytes => Returned (Ok (pem_EncodeToMemory "PRIVATE KEY" derBytes))
      end
  | derEncoder =>
      match x509_MarshalPKCS8PrivateKey h key with
      | Err err =>
          Returned (Err (Errorf "marshal private key to PKCS8 DER: %w" [AErr err]))
      | Ok derBytes => Returned (Ok derBytes)
      end
  | jwkEncoder => jwkEncoder_EncodePrivate h key
  end.

Definition EncodePublic (e : KeyEncoder) (key : PublicKey)
  : Outcome (Result (list Byte.byte)) :=
  match e with
  | pemEncoder =>
      match x509_MarshalPKIXPublicKey key with
      | Err err =>
          Returned (Err (Errorf "marshal public key to PKIX: %w" [AErr err]))
      | Ok derBytes => Returned (Ok (pem_EncodeToMemory "PUBLIC KEY" derBytes))
      end
  | derEncoder =>
      match x509_MarshalPKIXPublicKey key with
      | Err err =>
          Returned (Err (Errorf "marshal public key to PKIX DER: %w" [AErr err]))
      | Ok derBytes => Returned (Ok derBytes)
      end
  | jwkEncoder => jwkEncoder_EncodePublic key
  end.

End Encoders.

(** ** Package [output]: the renderer *)

Definition FormatSplitPEM := "split-pem".
Definition FormatSinglePEM := "single-pem".
Definition FormatJKS := "jks".

Record RenderOptions := {
  Format : string;
  Password : string;
  Alias : string }.

Section Renderer.
Context {W : Type} `{!Encodings} `{!Effects W}.

Definition liftOutcome {A} (o : Outcome A) : M W A := fun s => (o, s).

(** [*kp]: a nil pointer dereference panics. *)
Definition deref (kp : option loc) : M W KeyPair :=
  match kp with
  | None => panic
  | Some a => h <~ getHeap ;; ret (readKeyPair h a)
  end.

Definition generateSelfSignedCert (kp : option loc)
  : M W (Result (list Byte.byte)) :=
  let serialNumberLimit := Z.shiftl 1 128 in
  emit (EvRandInt serialNumberLimit) ;;;
  r <~ onWorld (rand_Int serialNumberLimit) ;;
  match r with
  | Err err => ret (Err (Errorf "failed to generate serial number: %w" [AErr err]))
  | Ok serialNumber =>
      notBefore <~ onWorld time_Now ;;
      now <~ onWorld time_Now ;;
      let template :=
        {| SerialNumber := serialNumber;
           Subject_CommonName := "openUKR Generated Key";
           Subject_Organization := ["openUKR"];
           NotBefore := notBefore;
           NotAfter := time.Add now (100 * 365 * 24 * time.Hour);
           KeyUsage := Z.lor x509_KeyUsageKeyEncipherment x509_KeyUsageDigitalSignature;
           ExtKeyUsage := [x509_ExtKeyUsageServerAuth];
           BasicConstraintsValid := true |} in
      k <~ deref kp ;;
      h <~ getHeap ;;
      emit (EvCreateCertificate template) ;;;
      r <~ onWorld (x509_CreateCertificate h template (PublicKey_ k) (PrivateKey_ k)) ;;
      match r with
      | Err err => ret (Err (Errorf "failed to create certificate: %w" [AErr err]))
      | Ok certBytes => ret (Ok certBytes)
      end
  end.

Definition renderJKS (kp : option loc) (opts : RenderOptions)
  : M W (Result (gmap string (list Byte.byte))) :=
  if decide (Password opts = "") then
    ret (Err (Errorf "password is required for JKS format" []))
  else
    let alias := if decide (Alias opts = "") then "openukr-key" else Alias opts in
    r <~ generateSelfSignedCert kp ;;
    match r with
    | Err err =>
        ret (Err (Errorf "failed to generate self-signed cert for JKS: %w" [AErr err]))
    | Ok certBytes =>
        onWorld (fun w => (tt, keystore_New w)) ;;;
        k <~ deref kp ;;
        h <~ getHeap ;;
        match x509_MarshalPKCS8PrivateKey h (PrivateKey_ k) with
        | Err err =>
            ret (Err (Errorf "failed to marshal private key for JKS: %w" [AErr err]))
        | Ok privKeyData =>
            now <~ onWorld time_Now ;;
            let entry :=
              {| CreationTime := now;
                 entry_PrivateKey := privKeyData;
                 CertificateChain :=
                   [ {| cert_Type := "X.509"; cert_Content := certBytes |} ] |} in
            emit (EvSetPrivateKeyEntry alias entry (Password opts)) ;;;
            r <~ onWorld (keystore_SetPrivateKeyEntry alias entry (Password opts)) ;;
            match r with
            | Some err =>
                ret (Err (Errorf "failed to set private key entry in JKS: %w" [AErr err]))
            | None =>
                emit (EvKeystoreStore (Password opts)) ;;;
                r <~ onWorld (keystore_Store (Password opts)) ;;
                match r with
                | Err err => ret (Err (Errorf "failed to store JKS: %w" [AErr err]))
                | Ok buf => ret (Ok {[ "keystore.jks" := buf ]})
                end
            end
        end
    end.

Definition Render (kp : option loc) (opts : RenderOptions)
  : M W (Result (gmap string (list Byte.byte))) :=
  match kp with
  | None => ret (Err (Errorf "cannot render nil KeyPair" []))
  | Some a =>
      match NewKeyEncoder "PEM" with
      | Err err => ret (Err (Errorf "failed to create PEM encoder: %w" [AErr err]))
      | Ok encoder =>
          k <~ deref kp ;;
          h <~ getHeap ;;
          r <~ liftOutcome (EncodePrivate encoder h (PrivateKey_ k)) ;;
          match r with
          | Err err => ret (Err (Errorf "failed to encode private key: %w" [AErr err]))
          | Ok privPEM =>
              r <~ liftOutcome (EncodePublic encoder (PublicKey_ k)) ;;
              match r with
              | Err err =>
                  ret (Err (Errorf "failed to encode public key: %w" [AErr err]))
              | Ok pubPEM =>
                  if decide (Format opts = FormatSplitPEM) then
                    ret (Ok {[ "tls.key" := privPEM; "tls.crt" := pubPEM;
                               "public.pem" := pubPEM ]})
                  else if decide (Format opts = FormatSinglePEM) then
                    ret (Ok {[ "keypair.pem" := privPEM ++ pubPEM ]})
                  else if decide (Format opts = FormatJKS) then
                    renderJKS kp opts
                  else
                    ret (Err (Errorf "unsupported output format: %s"
                                [AStr (Format opts)]))
              end
          end
      end
  end.

End Renderer.

(** ** Package [publish]: the dispatcher *)

Section Publish.
Context {W : Type}.

(** The [Publisher] interface: an implementation reads the key pair and
    acts on the outside world; it returns nil or an error, or panics. *)
Definition Publisher : Type :=
  v1alpha1.PublishTarget -> option loc -> Heap -> W ->
  Outcome (option error) * W.

Record Manager := { publishers : gmap string Publisher }.

Definition NewManager (filesystem http : Publisher) : Manager :=
  {| publishers := {[ "filesystem" := filesystem; "http" := http ]} |}.

(** [pub.Publish(ctx, target, kp)], recorded with its result. *)
Definition callPublish (pub : Publisher) (i : Z)
    (target : v1alpha1.PublishTarget) (kp : option loc) : M W (option error) :=
  fun s =>
    let '(o, w) := pub target kp (heap s) (world s) in
    match o with
    | Returned r =>
        (Returned r,
         mkState (heap s) w (trace s ++ [EvPublish i target kp r]))
    | Panicked => (Panicked, mkState (heap s) w (trace s))
    end.

(** The body of [for i, target := range targets], from index [i] on, with
    the errors appended so far. *)
Fixpoint PublishAll_loop (m : Manager) (i : Z)
    (targets : list v1alpha1.PublishTarget) (kp : option loc)
    (errs : list error) : M W (list error) :=
  match targets with
  | [] => ret errs
  | target :: rest =>
      match publishers m !! v1alpha1.Type_ target with
      | None =>
          PublishAll_loop m (i + 1) rest kp
            (errs ++ [Errorf "target[%d]: unknown publisher type %q"
                        [AInt i; AStr (v1alpha1.Type_ target)]])
      | Some pub =>
          r <~ callPublish pub i target kp ;;
          match r with
          | Some err =>
              PublishAll_loop m (i + 1) rest kp
                (errs ++ [Errorf "target[%d] (%s) failed: %w"
                            [AInt i; AStr (v1alpha1.Type_ target); AErr err]])
          | None => PublishAll_loop m (i + 1) rest kp errs
          end
      end
  end.

Definition PublishAll (m : Manager) (targets : list v1alpha1.PublishTarget)
    (kp : option loc) : M W (option error) :=
  errs <~ PublishAll_loop m 0 targets kp [] ;;
  if (0 <? length errs)%nat then
    ret (Some (Errorf "publish errors: %v" [AErrs errs]))
  else ret None.

End Publish.
Arguments Publisher W : clear implicits.
Arguments Manager W : clear implicits.

(** ** Package [validation] *)
Module validation.

(** 64-bit two's complement wrap-around of [time.Duration] arithmetic. *)
Definition wrap64 (z : Z) : Z := (z + 2 ^ 63) mod 2 ^ 64 - 2 ^ 63.

Definition MinGracePeriod : time.Duration := 5 * time.Minute.
Definition MinIntervalToGraceRatio : Z := 3.

Definition ValidateNamespaceMatch (objectNamespace specNamespace : string)
  : option error :=
  if decide (objectNamespace <> specNamespace) then
    Some (Errorf "serviceAccountRef.namespace %q must match KeyProfile namespace %q"
            [AStr specNamespace; AStr objectNamespace])
  else None.

Definition ValidateRotationPolicy (interval gracePeriod : time.Duration)
  : option error :=
  if gracePeriod <? MinGracePeriod then
    Some (Errorf "gracePeriod %s is below minimum %s (NIST SP 800-57)"
            [ADuration gracePeriod; ADuration MinGracePeriod])
  else
    let minInterval := wrap64 (MinIntervalToGraceRatio * gracePeriod) in
    if interval <? minInterval then
      Some (Errorf "interval %s must be at least %d× gracePeriod (%s), minimum: %s"
              [ADuration interval; AInt MinIntervalToGraceRatio;
               ADuration gracePeriod; ADuration minInterval])
    else None.

End validation.

(** ** The admission webhook *)

(** [for i, pub := range kp.Spec.Publish], from index [i] on. *)
Fixpoint tlsWarnings (i : Z) (targets : list v1alpha1.PublishTarget)
  : list gostring :=
  match targets with
  | [] => []
  | pub :: rest =>
      let insecure :=
        match v1alpha1.TLS pub with
        | Some tls => v1alpha1.InsecureSkipVerify tls
        | None => false
        end in
      if bool_decide (v1alpha1.Type_ pub = "http") && insecure then
        Sprintf "publish[%d]: insecureSkipVerify=true disables TLS verification — not recommended for production"
          [AInt i] :: tlsWarnings (i + 1) rest
      else tlsWarnings (i + 1) rest
  end.

Definition validateKeyProfile (kp : v1alpha1.KeyProfile) : Validation :=
  match validation.ValidateNamespaceMatch (v1alpha1.Namespace kp)
          (v1alpha1.sa_Namespace (v1alpha1.ServiceAccountRef (v1alpha1.Spec kp))) with
  | Some err => ([], Some (Errorf "validation failed: %w" [AErr err]))
  | None =>
      match validation.ValidateRotationPolicy
              (v1alpha1.Interval (v1alpha1.Rotation (v1alpha1.Spec kp)))
              (v1alpha1.GracePeriod (v1alpha1.Rotation (v1alpha1.Spec kp))) with
      | Some err => ([], Some (Errorf "validation failed: %w" [AErr err]))
      | None =>
          let '(warnings, err) :=
            ValidateKeySpec
              (v1alpha1.Algorithm (v1alpha1.KeySpec_ (v1alpha1.Spec kp)))
              (v1alpha1.Params (v1alpha1.KeySpec_ (v1alpha1.Spec kp)))
              (v1alpha1.AllowLegacyKeySize (v1alpha1.KeySpec_ (v1alpha1.Spec kp))) in
          match err with
          | Some err => ([], Some (Errorf "validation failed: %w" [AErr err]))
          | None =>
              (warnings ++ tlsWarnings 0 (v1alpha1.Publish (v1alpha1.Spec kp)), None)
          end
      end
  end.

(** ** Package [rotation] *)
Module rotation.

Record RotationResult := {
  Rotated : bool;
  KeyID : string;
  RotationTime : time.Time;
  NextRotation : time.Time;
  Fingerprint : string }.

End rotation.

Section Rotation.
Context {W : Type} `{!Encodings} `{!Effects W}.

(** The collaborators behind the interfaces [crypto.KeyGenerator],
    [output.SecretWriter] and [Publisher].  A generator creates key
    material in the store; a publisher or a writer reads it and acts on the
    outside world. *)
Record manager := {
  keygen :
    GenerateOptions -> Heap -> W -> Outcome (Result (option loc)) * Heap * W;
  writer :
    v1alpha1.KeyProfile -> option loc -> Heap -> W -> Outcome (option error) * W;
  publisher :
    list v1alpha1.PublishTarget -> option loc -> Heap -> W ->
    Outcome (option error) * W }.

Definition calculateNextRotation (lastRot : time.Time) (interval : time.Duration)
  : time.Time :=
  if interval =? 0 then time.zero
  else time.Add lastRot interval.

(** [profile.Status.LastRotation.Time]: the pointer is dereferenced. *)
Definition derefTime (t : metav1.Time) : M W time.Time :=
  match t with
  | None => panic
  | Some t => ret t
  end.

Definition checkRotationNeeded (profile : v1alpha1.KeyProfile)
  : M W (bool * gostring) :=
  let status := v1alpha1.Status profile in
  if bool_decide (v1alpha1.CurrentKeyID status = "")
     || metav1.IsZero (v1alpha1.LastRotation status) then
    ret (true, Lit "initial key generation")
  else
    let interval := v1alpha1.Interval (v1alpha1.Rotation (v1alpha1.Spec profile)) in
    if interval =? 0 then ret (false, Lit "rotation disabled (interval=0)")
    else
      now <~ onWorld time_Now ;;
      lastRotation <~ derefTime (v1alpha1.LastRotation status) ;;
      let nextRotation := time.Add lastRotation interval in
      if time.After now nextRotation then
        ret (true, Sprintf "interval %s expired (due: %s)"
                     [ADuration interval; ATime nextRotation])
      else ret (false, Lit "").

Definition call_Generate (m : manager) (opts : GenerateOptions)
  : M W (Result (option loc)) :=
  fun s =>
    let '(o, h, w) := keygen m opts (heap s) (world s) in
    match o with
    | Returned r => (Returned r, mkState h w (trace s ++ [EvGenerate opts r]))
    | Panicked => (Panicked, mkState h w (trace s))
    end.

Definition call_PublishAll (m : manager)
    (targets : list v1alpha1.PublishTarget) (kp : option loc)
  : M W (option error) :=
  fun s =>
    let '(o, w) := publisher m targets kp (heap s) (world s) in
    match o with
    | Returned r =>
        (Returned r, mkState (heap s) w (trace s ++ [EvPublishAll targets kp r]))
    | Panicked => (Panicked, mkState (heap s) w (trace s))
    end.

Definition call_Write (m : manager) (profile : v1alpha1.KeyProfile)
    (kp : option loc) : M W (option error) :=
  fun s =>
    let '(o, w) := writer m profile kp (heap s) (world s) in
    match o with
    | Returned r =>
        (Returned r, mkState (heap s) w (trace s ++ [EvWrite profile kp r]))
    | Panicked => (Panicked, mkState (heap s) w (trace s))
    end.

(** [kp.Wipe()] as the deferred call. *)
Definition call_Wipe (kp : option loc) : M W unit :=
  fun s =>
    let '(o, h) := Wipe kp (heap s) in
    (o, mkState h (world s) (trace s ++ [EvWipe kp])).

Definition EnsureKey (m : manager) (profile : v1alpha1.KeyProfile)
  : M W (Result rotation.RotationResult) :=
  let status := v1alpha1.Status profile in
  let interval := v1alpha1.Interval (v1alpha1.Rotation (v1alpha1.Spec profile)) in
  let namespace := v1alpha1.Namespace profile in
  d <~ checkRotationNeeded profile ;;
  let '(needsRotation, reason) := d in
  if negb needsRotation then
    lastRotation <~ derefTime (v1alpha1.LastRotation status) ;;
    let nextRot := calculateNextRotation lastRotation interval in
    ret (Ok {| rotation.Rotated := false;
               rotation.KeyID := v1alpha1.CurrentKeyID status;
               rotation.RotationTime := lastRotation;
               rotation.NextRotation := nextRot;
               rotation.Fingerprint := v1alpha1.CurrentKeyFingerprint status |})
  else
    emit (EvLogInfo "Rotation needed" [("reason", reason)]) ;;;
    let opts :=
      {| opt_Algorithm := v1alpha1.Algorithm (v1alpha1.KeySpec_ (v1alpha1.Spec profile));
         opt_Params := v1alpha1.Params (v1alpha1.KeySpec_ (v1alpha1.Spec profile));
         opt_AllowLegacyKeySize :=
           v1alpha1.AllowLegacyKeySize (v1alpha1.KeySpec_ (v1alpha1.Spec profile)) |} in
    start <~ onWorld time_Now ;;
    r <~ call_Generate m opts ;;
    stop <~ onWorld time_Now ;;
    emit (EvObserveKeyGenerationDuration (opt_Algorithm opts)
            (time.instant stop - time.instant start)) ;;;
    match r with
    | Err err =>
        emit (EvRotationErrorsInc "keygen" namespace) ;;;
        ret (Err (Errorf "key generation failed: %w" [AErr err]))
    | Ok kp =>
        defer (call_Wipe kp)
          (k <~ deref kp ;;
           match ComputeFingerprint (PublicKey_ k) with
           | Err err =>
               ret (Err (Errorf "fingerprint computation failed: %w" [AErr err]))
           | Ok fingerprint =>
               r <~ call_PublishAll m (v1alpha1.Publish (v1alpha1.Spec profile)) kp ;;
               match r with
               | Some err =>
                   emit (EvRotationErrorsInc "publish" namespace) ;;;
                   ret (Err (Errorf "failed to publish public key: %w" [AErr err]))
               | None =>
                   r <~ call_Write m profile kp ;;
                   match r with
                   | Some err =>
                       emit (EvRotationErrorsInc "persist" namespace) ;;;
                       ret (Err (Errorf "failed to persist key material: %w" [AErr err]))
                   | None =>
                       now <~ onWorld time_Now ;;
                       let nextRot := calculateNextRotation now interval in
                       k <~ deref kp ;;
                       emit (EvRotationsInc (Algorithm k) namespace) ;;;
                       emit (EvLogInfo "Key rotated successfully"
                               [("keyID", Lit (KeyID k));
                                ("nextRotation", Sprintf "%v" [ATime nextRot])]) ;;;
                       ret (Ok {| rotation.Rotated := true;
                                  rotation.KeyID := KeyID k;
                                  rotation.RotationTime := now;
                                  rotation.NextRotation := nextRot;
                                  rotation.Fingerprint := fingerprint |})
                   end
               end
           end)
    end.

(** A [KeyGenerator] made of [defaultGenerator.Generate], and a
    [Publisher] made of [Manager.PublishAll]: the collaborators the
    operator wires in.  The library-level records of the inner run are not
    part of the orchestrator's trace. *)
Definition defaultKeygen (opts : GenerateOptions) (h : Heap) (w : W)
  : Outcome (Result (option loc)) * Heap * W :=
  let '(o, s) := Generate opts (mkState h w []) in (o, heap s, world s).

Definition managerPublisher (pm : Manager W)
    (targets : list v1alpha1.PublishTarget) (kp : option loc) (h : Heap) (w : W)
  : Outcome (option error) * W :=
  let '(o, s) := PublishAll pm targets kp (mkState h w []) in (o, world s).

End Rotation.
Arguments manager W : clear implicits.

(** ** A deterministic stand-in for the libraries

    The world is a counter: the clock shows it and advances it by one
    nanosecond per reading, the random source yields zero bytes, key
    generation yields small fixed numbers.  It is used to run the embedding
    on concrete inputs. *)
Module standin.

Definition marshalPublic (k : PublicKey) : Result (list Byte.byte) :=
  match k with
  | ecdsaPublicKey (Some _) => Ok [Byte.x30; Byte.x59]
  | rsaPublicKey (Some _) => Ok [Byte.x30; Byte.x82]
  | _ => Err (errors_New "x509: unsupported public key type")
  end.

Definition marshalPrivate (h : Heap) (k : PrivateKey) : Result (list Byte.byte) :=
  match k with
  | ecdsaPrivateKey (Some _) => Ok [Byte.x30; Byte.x81]
  | rsaPrivateKey (Some _) => Ok [Byte.x30; Byte.x82]
  | _ => Err (errors_New "x509: unknown key type while marshaling PKCS#8")
  end.

#[global] Instance encodings : Encodings := {|
  x509_MarshalPKIXPublicKey := marshalPublic;
  x509_MarshalPKCS8PrivateKey := marshalPrivate;
  x509_MarshalECPrivateKey := fun _ _ => Ok [Byte.x30; Byte.x77; Byte.x02];
  x509_MarshalPKCS1PrivateKey := fun _ _ => [Byte.x30; Byte.x82; Byte.x04; Byte.xa4];
  pem_EncodeToMemory := fun _ der => der;
  sha256_Sum256 := fun bs => bs;
  hex_EncodeToString := fun _ => "000000";
  time_Format := fun _ _ => "20260101";
  jwkEncoder_EncodePrivate := fun _ _ => Returned (Ok []);
  jwkEncoder_EncodePublic := fun _ => Returned (Ok []);
  x509_MarshalPKIXPublicKey_nil := eq_refl |}.

#[global] Instance effects : Effects Z := {|
  time_Now := fun w => (time.mkTime w, w + 1);
  ecdsa_GenerateKey := fun _ w => (Ok (5, 7, 11), w);
  rsa_GenerateKey := fun _ w => (Ok (15, 3, 3, [3; 5]), w);
  rand_Read := fun n w => (Ok (replicate n Byte.x00), w);
  rand_Int := fun _ w => (Ok 1, w);
  x509_CreateCertificate := fun _ _ _ _ w => (Ok [Byte.x30], w);
  keystore_New := fun w => w;
  keystore_SetPrivateKeyEntry := fun _ _ _ w => (None, w);
  keystore_Store := fun _ w => (Ok [Byte.xfe; Byte.xed], w) |}.

Definition state (clock : Z) : State Z := mkState emptyHeap clock [].

Definition rsaSpec (size : string) (legacy : bool) : v1alpha1.KeySpec :=
  {| v1alpha1.Algorithm := "RSA";
     v1alpha1.Params := {[ "keySize" := size ]};
     v1alpha1.Encoding := "PEM";
     v1alpha1.AllowLegacyKeySize := legacy |}.

Definition ecSpec (curve : string) : v1alpha1.KeySpec :=
  {| v1alpha1.Algorithm := "EC";
     v1alpha1.Params := {[ "curve" := curve ]};
     v1alpha1.Encoding := "PEM";
     v1alpha1.AllowLegacyKeySize := false |}.

Definition target (type : string) : v1alpha1.PublishTarget :=
  {| v1alpha1.Type_ := type; v1alpha1.Config := ∅; v1alpha1.TLS := None |}.

(** A profile in namespace "finance" with a 24 h interval and a 2 h grace
    period. *)
Definition profile (spec : v1alpha1.KeySpec) (keyID : string)
    (last : metav1.Time) (interval : time.Duration)
    (targets : list v1alpha1.PublishTarget) : v1alpha1.KeyProfile :=
  {| v1alpha1.Name := "billing";
     v1alpha1.Namespace := "finance";
     v1alpha1.Spec :=
       {| v1alpha1.ServiceAccountRef :=
            {| v1alpha1.sa_Name := "billing"; v1alpha1.sa_Namespace := "finance" |};
          v1alpha1.KeySpec_ := spec;
          v1alpha1.Rotation :=
            {| v1alpha1.Interval := interval;
               v1alpha1.GracePeriod := 2 * time.Hour;
               v1alpha1.TriggerOnStartup := false |};
          v1alpha1.Output :=
            {| v1alpha1.SecretName := "billing-key";
               v1alpha1.Format := "split-pem";
               v1alpha1.Labels := ∅ |};
          v1alpha1.Publish := targets |};
     v1alpha1.Status :=
       {| v1alpha1.Phase := "Active";
          v1alpha1.CurrentKeyID := keyID;
          v1alpha1.PreviousKeyID := "";
          v1alpha1.CurrentKeyFingerprint := "SHA256:MFk";
          v1alpha1.PreviousKeyFingerprint := "";
          v1alpha1.LastRotation := last;
          v1alpha1.NextRotation := None |} |}.

(** Collaborators: the repository's generator, a publisher and a writer
    that answer what they are told to. *)
Definition collaborators (publishResult writeResult : option error)
  : manager Z :=
  {| keygen := defaultKeygen;
     writer := fun _ _ _ w => (Returned writeResult, w);
     publisher := fun _ _ _ w => (Returned publishResult, w) |}.

End standin.

(** ** Vocabulary of the properties

    Definitions the statements below are written with; none of them is
    part of the program. *)

(** The list a backing array becomes when the indices [idx] are set to
    zero one after the other. *)
Definition zeroed (idx : list nat) (l : list Byte.byte) : list Byte.byte :=
  foldl (fun l i => <[i := Byte.x00]> l) l idx.

(** The key pair a wiped key pair leaves behind. *)
Definition wiped (k : KeyPair) : KeyPair :=
  {| KeyID := KeyID k; PrivateKey_ := nilPrivateKey; PublicKey_ := nilPublicKey;
     Algorithm := Algorithm k; CreatedAt := CreatedAt k;
     rawPrivateBytes := nilSlice |}.

Section TraceVocabulary.
Context {W : Type}.

(** Every run of [m] appends to the trace, and what it appends satisfies
    [P]. *)
Definition emits_only {A} (P : Event -> Prop) (m : M W A) : Prop :=
  forall s, exists evs, trace (m s).2 = trace s ++ evs /\ Forall P evs.

(** Every run of [m] appends [e] first. *)
Definition starts_with {A} (e : Event) (m : M W A) : Prop :=
  forall s, exists rest, trace (m s).2 = trace s ++ e :: rest.

End TraceVocabulary.

(** What became of one target: no publisher is registered for its type, or
    its publisher was called and returned [r]. *)
Inductive Attempt :=
| NoPublisher
| Published (r : option error).

(** The error the dispatcher records for target number [i], if any. *)
Definition failure_of (i : Z) (target : v1alpha1.PublishTarget) (a : Attempt)
  : option error :=
  match a with
  | NoPublisher =>
      Some (Errorf "target[%d]: unknown publisher type %q"
              [AInt i; AStr (v1alpha1.Type_ target)])
  | Published (Some err) =>
      Some (Errorf "target[%d] (%s) failed: %w"
              [AInt i; AStr (v1alpha1.Type_ target); AErr err])
  | Published None => None
  end.

Definition succeeded (a : Attempt) : bool :=
  match a with Published None => true | _ => false end.

(** The errors of the failing targets, in target order, from index [i]. *)
Fixpoint failures (i : Z) (targets : list v1alpha1.PublishTarget)
    (atts : list Attempt) : list error :=
  match targets, atts with
  | t :: ts, a :: atts' =>
      match failure_of i t a with
      | Some e => e :: failures (i + 1) ts atts'
      | None => failures (i + 1) ts atts'
      end
  | _, _ => []
  end.

(** The calls to publishers, in target order, from index [i]. *)
Fixpoint calls (i : Z) (targets : list v1alpha1.PublishTarget) (kp : option loc)
    (atts : list Attempt) : list Event :=
  match targets, atts with
  | t :: ts, a :: atts' =>
      match a with
      | Published r => EvPublish i t kp r :: calls (i + 1) ts kp atts'
      | NoPublisher => calls (i + 1) ts kp atts'
      end
  | _, _ => []
  end.

Section PublishVocabulary.
Context {W : Type}.

(** Each target is tried in the world its predecessors left, whatever they
    returned; [None] when a publisher panics. *)
Fixpoint attempts (m : Manager W) (targets : list v1alpha1.PublishTarget)
    (kp : option loc) (h : Heap) (w : W) : option (list Attempt * W) :=
  match targets with
  | [] => Some ([], w)
  | t :: rest =>
      match publishers m !! v1alpha1.Type_ t with
      | None =>
          match attempts m rest kp h w with
          | Some (atts, w') => Some (NoPublisher :: atts, w')
          | None => None
          end
      | Some pub =>
          match pub t kp h w with
          | (Returned r, w1) =>
              match attempts m rest kp h w1 with
              | Some (atts, w') => Some (Published r :: atts, w')
              | None => None
              end
          | (Panicked, _) => None
          end
      end
  end.

End PublishVocabulary.


Section RotationVocabulary.
Context {W : Type}.


End RotationVocabulary.

(** * More of the code *)

(** ** Package [crypto]: the JWK encoder *)

(** [encoding/json]: [json.Marshal] of the struct below. *)
Class Json := {
  json_Marshal_jwk :
    forall (Kty Use Kid : string) (N E D P Q Crv X Y : option string),
      Result (list Byte.byte) }.

(** [jwk]: the optional members are [*string], nil being [None]. *)
Record jwk := {
  jwk_Kty : string;
  jwk_Use : string;
  jwk_Kid : string;
  jwk_N : option string;
  jwk_E : option string;
  jwk_D : option string;
  jwk_P : option string;
  jwk_Q : option string;
  jwk_Crv : option string;
  jwk_X : option string;
  jwk_Y : option string }.

Section JsonMarshal.
Context `{!Json}.

Definition json_Marshal (j : jwk) : Result (list Byte.byte) :=
  json_Marshal_jwk (jwk_Kty j) (jwk_Use j) (jwk_Kid j) (jwk_N j) (jwk_E j)
    (jwk_D j) (jwk_P j) (jwk_Q j) (jwk_Crv j) (jwk_X j) (jwk_Y j).

End JsonMarshal.

(** [curve.Params().BitSize] *)
Definition elliptic_BitSize (curve : Curve) : Z :=
  match curve with
  | P224 => 224
  | P256 => 256
  | P384 => 384
  | P521 => 521
  end.

(** [Bytes] of [big.Int]: the absolute value, big-endian, without leading
    zeros; empty for zero.  [bytes_le fuel n] are the base-256 digits of [n],
    lowest first, at most [fuel] of them. *)
Fixpoint bytes_le (fuel : nat) (n : N) : list Byte.byte :=
  match fuel with
  | O => []
  | S fuel' =>
      if (n =? 0)%N then []
      else default Byte.x00 (Byte.of_N (n mod 256)%N) :: bytes_le fuel' (n / 256)%N
  end.

Definition big_Bytes (x : Z) : list Byte.byte :=
  rev (bytes_le (N.to_nat (N.size (Z.abs_N x))) (Z.abs_N x)).

Definition curveName (curve : Curve) : string :=
  match curve with
  | P256 => "P-256"
  | P384 => "P-384"
  | P521 => "P-521"
  | P224 => ""
  end.

Definition base64Url (data : list Byte.byte) : string :=
  base64_RawURLEncoding_EncodeToString data.

(** [make([]byte, size)] is [size] zero bytes; [copy(pad[size-len(data):],
    data)] overwrites its tail with [data]. *)
Definition padLeft (data : list Byte.byte) (size : Z) : list Byte.byte :=
  if size <=? Z.of_nat (length data) then data
  else
    let pad := replicate (Z.to_nat size) Byte.x00 in
    take (Z.to_nat size - length data) pad ++ data.

Section JWK.
Context `{!Json}.

Definition encodeECPublicJWK (pub : option ecdsa_PublicKey)
  : Outcome (Result (list Byte.byte)) :=
  match pub with
  | None => Panicked
  | Some pub =>
      let crv := curveName (ec_Curve pub) in
      if decide (crv = "") then
        Returned (Err (Errorf "unsupported EC curve for JWK" []))
      else
        let byteLen := (elliptic_BitSize (ec_Curve pub) + 7) / 8 in
        let x := base64Url (padLeft (big_Bytes (ec_X pub)) byteLen) in
        let y := base64Url (padLeft (big_Bytes (ec_Y pub)) byteLen) in
        Returned (json_Marshal
          {| jwk_Kty := "EC"; jwk_Use := "sig"; jwk_Kid := "";
             jwk_N := None; jwk_E := None; jwk_D := None; jwk_P := None;
             jwk_Q := None; jwk_Crv := Some crv; jwk_X := Some x; jwk_Y := Some y |})
  end.

Definition encodeECPrivateJWK (h : Heap) (priv : option ecdsa_PrivateKey)
  : Outcome (Result (list Byte.byte)) :=
  match priv with
  | None => Panicked
  | Some priv =>
      let crv := curveName (ec_Curve (ec_PublicKey priv)) in
      if decide (crv = "") then
        Returned (Err (Errorf "unsupported EC curve for JWK" []))
      else
        let byteLen := (elliptic_BitSize (ec_Curve (ec_PublicKey priv)) + 7) / 8 in
        let x := base64Url (padLeft (big_Bytes (ec_X (ec_PublicKey priv))) byteLen) in
        let y := base64Url (padLeft (big_Bytes (ec_Y (ec_PublicKey priv))) byteLen) in
        match ec_D priv with
        | None => Panicked
        | Some dcell =>
            let d := base64Url (padLeft (big_Bytes (readBigInt h dcell)) byteLen) in
            Returned (json_Marshal
              {| jwk_Kty := "EC"; jwk_Use := "sig"; jwk_Kid := "";
                 jwk_N := None; jwk_E := None; jwk_D := Some d; jwk_P := None;
                 jwk_Q := None; jwk_Crv := Some crv; jwk_X := Some x;
                 jwk_Y := Some y |})
        end
  end.

Definition encodeRSAPublicJWK (pub : option rsa_PublicKey)
  : Outcome (Result (list Byte.byte)) :=
  match pub with
  | None => Panicked
  | Some pub =>
      let n := base64Url (big_Bytes (rsa_N pub)) in
      let e := base64Url (big_Bytes (rsa_E pub)) in
      Returned (json_Marshal
        {| jwk_Kty := "RSA"; jwk_Use := "sig"; jwk_Kid := "";
           jwk_N := Some n; jwk_E := Some e; jwk_D := None; jwk_P := None;
           jwk_Q := None; jwk_Crv := None; jwk_X := None; jwk_Y := None |})
  end.

Definition encodeRSAPrivateJWK (h : Heap) (priv : option rsa_PrivateKey)
  : Outcome (Result (list Byte.byte)) :=
  match priv with
  | None => Panicked
  | Some priv =>
      let n := base64Url (big_Bytes (rsa_N (rsa_PublicKey_ priv))) in
      let e := base64Url (big_Bytes (rsa_E (rsa_PublicKey_ priv))) in
      match rsa_D priv with
      | None => Panicked
      | Some dcell =>
          let d := base64Url (big_Bytes (readBigInt h dcell)) in
          match rsa_Primes priv with
          | p0 :: p1 :: _ =>
              match p0, p1 with
              | Some pcell, Some qcell =>
                  let p := base64Url (big_Bytes (readBigInt h pcell)) in
                  let q := base64Url (big_Bytes (readBigInt h qcell)) in
                  Returned (json_Marshal
                    {| jwk_Kty := "RSA"; jwk_Use := "sig"; jwk_Kid := "";
                       jwk_N := Some n; jwk_E := Some e; jwk_D := Some d;
                       jwk_P := Some p; jwk_Q := Some q; jwk_Crv := None;
                       jwk_X := None; jwk_Y := None |})
              | _, _ => Panicked
              end
          | _ =>
              Returned (json_Marshal
                {| jwk_Kty := "RSA"; jwk_Use := "sig"; jwk_Kid := "";
                   jwk_N := Some n; jwk_E := Some e; jwk_D := Some d;
                   jwk_P := None; jwk_Q := None; jwk_Crv := None;
                   jwk_X := None; jwk_Y := None |})
          end
      end
  end.

(** [EncodePrivate] and [EncodePublic] of [jwkEncoder]: the bodies of the
    two methods that [Encodings] leaves open. *)
Definition jwk_EncodePrivate (h : Heap) (key : PrivateKey)
  : Outcome (Result (list Byte.byte)) :=
  match key with
  | ecdsaPrivateKey k => encodeECPrivateJWK h k
  | rsaPrivateKey k => encodeRSAPrivateJWK h k
  | nilPrivateKey =>
      Returned (Err (Errorf "unsupported key type for JWK: %T" [AStr "<nil>"]))
  | otherPrivateKey t =>
      Returned (Err (Errorf "unsupported key type for JWK: %T" [AStr t]))
  end.

Definition jwk_EncodePublic (key : PublicKey)
  : Outcome (Result (list Byte.byte)) :=
  match key with
  | ecdsaPublicKey k => encodeECPublicJWK k
  | rsaPublicKey k => encodeRSAPublicJWK k
  | nilPublicKey =>
      Returned (Err (Errorf "unsupported key type for JWK: %T" [AStr "<nil>"]))
  | otherPublicKey t =>
      Returned (Err (Errorf "unsupported key type for JWK: %T" [AStr t]))
  end.

End JWK.

(** ** Vocabulary of the further properties: decoders

    The program only encodes; the decoders below say what its encodings
    mean. *)

(** The number a big-endian byte string denotes. *)
Definition be_value (bs : list Byte.byte) : N :=
  fold_left (fun acc b => (acc * 256 + Byte.to_N b)%N) bs 0%N.

(** The position of a character in an alphabet, counted from [i]. *)
Fixpoint index_in (c : ascii) (alphabet : string) (i : N) : option N :=
  match alphabet with
  | EmptyString => None
  | String c' rest => if Ascii.eqb c c' then Some i else index_in c rest (i + 1)%N
  end.

Definition base64url_index (c : ascii) : option N :=
  index_in c base64url_alphabet 0%N.

Definition byte_of (n : N) : Byte.byte := default Byte.x00 (Byte.of_N n).

(** Unpadded base64url text back to bytes; [None] on a character outside the
    alphabet or on a dangling single character. *)
Fixpoint base64url_decode (s : string) : option (list Byte.byte) :=
  match s with
  | EmptyString => Some []
  | String _ EmptyString => None
  | String c1 (String c2 EmptyString) =>
      match base64url_index c1, base64url_index c2 with
      | Some n1, Some n2 => Some [byte_of (n1 * 4 + n2 / 16)%N]
      | _, _ => None
      end
  | String c1 (String c2 (String c3 EmptyString)) =>
      match base64url_index c1, base64url_index c2, base64url_index c3 with
      | Some n1, Some n2, Some n3 =>
          Some [byte_of (n1 * 4 + n2 / 16)%N;
                byte_of ((n2 mod 16) * 16 + n3 / 4)%N]
      | _, _, _ => None
      end
  | String c1 (String c2 (String c3 (String c4 rest))) =>
      match base64url_index c1, base64url_index c2, base64url_index c3,
            base64url_index c4, base64url_decode rest with
      | Some n1, Some n2, Some n3, Some n4, Some bs =>
          Some (byte_of (n1 * 4 + n2 / 16)%N ::
                byte_of ((n2 mod 16) * 16 + n3 / 4)%N ::
                byte_of ((n3 mod 4) * 64 + n4)%N :: bs)
      | _, _, _, _, _ => None
      end
  end.

(** ** Stand-ins for the JWK encoder

    A serialiser that writes the key type alone, a store with three
    [big.Int] cells, and an EC and an RSA key over them. *)
Module jwkstandin.

#[global] Instance json : Json := {|
  json_Marshal_jwk := fun Kty _ _ _ _ _ _ _ _ _ _ => Ok (list_byte_of_string Kty) |}.

Definition store : Heap :=
  writeBigInt 1%positive 11 (writeBigInt 2%positive 3 (writeBigInt 3%positive 5 emptyHeap)).

Definition ecPublic : ecdsa_PublicKey :=
  {| ec_Curve := P256; ec_X := 5; ec_Y := 7 |}.

Definition ecKey : ecdsa_PrivateKey :=
  {| ec_PublicKey := ecPublic; ec_D := Some 1%positive |}.

Definition rsaKey : rsa_PrivateKey :=
  {| rsa_PublicKey_ := {| rsa_N := 15; rsa_E := 3 |};
     rsa_D := Some 1%positive;
     rsa_Primes := [Some 2%positive; Some 3%positive] |}.

End jwkstandin.


(** ** The admission webhook: defaulting and the validator's methods *)

(** [runtime.Object] as the webhook receives it: nil, a [*KeyProfile], which
    may be a nil pointer, or an object of another type. *)
Inductive runtime_Object :=
| nilObject
| keyProfileObject (p : option v1alpha1.KeyProfile)
| otherObject (dynamicType : string).

Definition set_Encoding (e : string) (kp : v1alpha1.KeyProfile) : v1alpha1.KeyProfile :=
  let spec := v1alpha1.Spec kp in
  let ks := v1alpha1.KeySpec_ spec in
  {| v1alpha1.Name := v1alpha1.Name kp;
     v1alpha1.Namespace := v1alpha1.Namespace kp;
     v1alpha1.Spec :=
       {| v1alpha1.ServiceAccountRef := v1alpha1.ServiceAccountRef spec;
          v1alpha1.KeySpec_ :=
            {| v1alpha1.Algorithm := v1alpha1.Algorithm ks;
               v1alpha1.Params := v1alpha1.Params ks;
               v1alpha1.Encoding := e;
               v1alpha1.AllowLegacyKeySize := v1alpha1.AllowLegacyKeySize ks |};
          v1alpha1.Rotation := v1alpha1.Rotation spec;
          v1alpha1.Output := v1alpha1.Output spec;
          v1alpha1.Publish := v1alpha1.Publish spec |};
     v1alpha1.Status := v1alpha1.Status kp |}.

Definition set_Format (f : string) (kp : v1alpha1.KeyProfile) : v1alpha1.KeyProfile :=
  let spec := v1alpha1.Spec kp in
  let out := v1alpha1.Output spec in
  {| v1alpha1.Name := v1alpha1.Name kp;
     v1alpha1.Namespace := v1alpha1.Namespace kp;
     v1alpha1.Spec :=
       {| v1alpha1.ServiceAccountRef := v1alpha1.ServiceAccountRef spec;
          v1alpha1.KeySpec_ := v1alpha1.KeySpec_ spec;
          v1alpha1.Rotation := v1alpha1.Rotation spec;
          v1alpha1.Output :=
            {| v1alpha1.SecretName := v1alpha1.SecretName out;
               v1alpha1.Format := f;
               v1alpha1.Labels := v1alpha1.Labels out |};
          v1alpha1.Publish := v1alpha1.Publish spec |};
     v1alpha1.Status := v1alpha1.Status kp |}.

(** [%T] of an object that is not a [*KeyProfile]. *)
Definition typeName (obj : runtime_Object) : string :=
  match obj with
  | otherObject t => t
  | _ => "<nil>"
  end.



Definition ValidateUpdate (oldObj newObj : runtime_Object) : Outcome Validation :=
  match newObj with
  | keyProfileObject None => Panicked
  | keyProfileObject (Some keyprofile) => Returned (validateKeyProfile keyprofile)
  | _ =>
      Returned ([], Some (Errorf "webhook validator: expected KeyProfile but got %T"
                            [AStr (typeName newObj)]))
  end.

Definition ValidateDelete (obj : runtime_Object) : Outcome Validation :=
  Returned ([], None).

(** ** Calls that leave the process

    The publishers, the secret writer and the reconciler act on the file
    system, the network and the API server.  Their calls are recorded, in
    order, in a log that travels with the world. *)

(** [*http.Request] as [http.NewRequestWithContext] builds it and
    [Header.Set] fills it; header names are kept as the program writes
    them. *)
Record http_Request := {
  req_Method : string;
  req_URL : string;
  req_Body : list Byte.byte;
  req_Header : gmap string string }.

Definition Header_Set (key value : string) (req : http_Request) : http_Request :=
  {| req_Method := req_Method req; req_URL := req_URL req;
     req_Body := req_Body req;
     req_Header := <[key := value]> (req_Header req) |}.

(** The fields of [tls.Config] the publisher sets. *)
Record tls_Config := {
  MinVersion : Z;
  tls_InsecureSkipVerify : bool }.

Definition tls_VersionTLS12 : Z := 771.

(** [*http.Client]: the default transport when [Transport] is nil, or a
    transport with its TLS configuration. *)
Record http_Client := {
  Transport : option tls_Config;
  Timeout : time.Duration }.

Record http_Response := {
  StatusCode : Z;
  Status_ : string }.

(** [corev1.Secret]: the fields the writer touches.  A nil map is [None]. *)
Record Secret := {
  secret_Name : string;
  secret_Namespace : string;
  secret_OwnerReferences : list string;
  secret_Labels : option (gmap string string);
  secret_Annotations : option (gmap string string);
  secret_Data : gmap string (list Byte.byte);
  secret_Type : string }.

Definition corev1_SecretTypeOpaque := "Opaque".
Definition corev1_SecretTypeTLS := "kubernetes.io/tls".

Record NamespacedName := {
  nn_Namespace : string;
  nn_Name : string }.

Inductive Call :=
| CallDo (client : http_Client) (req : http_Request)
| CallCopyBody (limit : Z)
| CallCloseBody
| CallMkdirAll (path : string) (perm : Z)
| CallWriteFile (name : string) (data : list Byte.byte) (perm : Z)
| CallRename (oldpath newpath : string)
| CallRemove (name : string)
| CallCreateOrUpdate (obj : Secret)
| CallGet (key : NamespacedName)
| CallStatusUpdate (obj : v1alpha1.KeyProfile)
| CallLogError (err : error) (msg : string)
| CallLogInfo (level : Z) (msg : string).

Definition Logged (W : Type) : Type := (list Call * W)%type.

(** A call on the outside world, recorded. *)
Definition call {W A} (c : Call) (f : W -> A * W) : M (Logged W) A :=
  onWorld (fun lw : Logged W =>
             let '(a, w) := f lw.2 in (a, (lw.1 ++ [c], w))).

(** The libraries of [Effects] act on the world under the log. *)
Definition logged_effects {W} `{!Effects W} : Effects (Logged W) := {|
  time_Now := fun lw => let '(t, w) := time_Now lw.2 in (t, (lw.1, w));
  ecdsa_GenerateKey := fun c lw =>
    let '(r, w) := ecdsa_GenerateKey c lw.2 in (r, (lw.1, w));
  rsa_GenerateKey := fun bits lw =>
    let '(r, w) := rsa_GenerateKey bits lw.2 in (r, (lw.1, w));
  rand_Read := fun n lw => let '(r, w) := rand_Read n lw.2 in (r, (lw.1, w));
  rand_Int := fun limit lw => let '(r, w) := rand_Int limit lw.2 in (r, (lw.1, w));
  x509_CreateCertificate := fun h template pub priv lw =>
    let '(r, w) := x509_CreateCertificate h template pub priv lw.2 in (r, (lw.1, w));
  keystore_New := fun lw => (lw.1, keystore_New lw.2);
  keystore_SetPrivateKeyEntry := fun alias entry password lw =>
    let '(r, w) := keystore_SetPrivateKeyEntry alias entry password lw.2 in
    (r, (lw.1, w));
  keystore_Store := fun password lw =>
    let '(r, w) := keystore_Store password lw.2 in (r, (lw.1, w)) |}.

(** The network and the file system: [net/url], [net/http], [io],
    [path/filepath], [os]. *)
Class Outside (W : Type) := {
  url_Parse : string -> option error;
  http_Do : http_Client -> http_Request -> W -> Result http_Response * W;
  io_Copy_Discard : Z -> W -> W;
  Body_Close : W -> W;
  filepath_Clean : string -> string;
  filepath_IsAbs : string -> bool;
  filepath_Join : string -> string -> string;
  os_MkdirAll : string -> Z -> W -> option error * W;
  os_WriteFile : string -> list Byte.byte -> Z -> W -> option error * W;
  os_Rename : string -> string -> W -> option error * W;
  os_Remove : string -> W -> option error * W }.

(** The API server behind [client.Client], and [controllerutil],
    [ctrl.SetControllerReference], [apierrors]. *)
Class Cluster (W : Type) := {
  client_Get : NamespacedName -> W -> Result v1alpha1.KeyProfile * W;
  client_Status_Update : v1alpha1.KeyProfile -> W -> option error * W;
  client_IgnoreNotFound : error -> option error;
  ctrl_SetControllerReference :
    v1alpha1.KeyProfile -> Secret -> Result (list string);
  controllerutil_CreateOrUpdate :
    Secret -> (Secret -> Secret * option error) -> W -> option error * W }.

(** [strings.HasPrefix] and [strings.Contains] *)
Definition strings_HasPrefix (s prefix : string) : bool := String.prefix prefix s.

Fixpoint strings_Contains (s substr : string) : bool :=
  String.prefix substr s ||
  match s with
  | EmptyString => false
  | String _ rest => strings_Contains rest substr
  end.

(** ** Package [publish]: the HTTP and the file system publisher *)

Section Publishers.
Context {W : Type} `{!Encodings} `{!Outside W}.

(** [http.NewRequestWithContext(ctx, method, url, body)] *)
Definition http_NewRequestWithContext (method url : string) (body : list Byte.byte)
  : Result http_Request :=
  match url_Parse url with
  | Some err => Err err
  | None => Ok {| req_Method := method; req_URL := url; req_Body := body;
                  req_Header := ∅ |}
  end.

(** [NewHTTPPublisher]: the client of the publisher. *)
Definition NewHTTPPublisher_client : http_Client :=
  {| Transport := None; Timeout := 10 * time.Second |}.

Definition maxResponseBody : Z := Z.shiftl 1 20.

(** [HTTPPublisher.Publish] *)
Definition HTTPPublisher_Publish (p_client : http_Client)
    (target : v1alpha1.PublishTarget) (kp : option loc)
  : M (Logged W) (option error) :=
  let endpoint := default "" (v1alpha1.Config target !! "endpoint") in
  if decide (v1alpha1.Config target !! "endpoint" = None \/ endpoint = "") then
    ret (Some (Errorf "missing 'endpoint' in config" []))
  else
    let isInsecure :=
      match v1alpha1.TLS target with
      | Some tls => v1alpha1.InsecureSkipVerify tls
      | None => false
      end in
    if negb (strings_HasPrefix endpoint "https://") && negb isInsecure then
      ret (Some (Errorf "endpoint must use HTTPS (got %q); set insecureSkipVerify to allow HTTP"
                   [AStr endpoint]))
    else
      match NewKeyEncoder "PEM" with
      | Err err => ret (Some err)
      | Ok encoder =>
          k <~ deref kp ;;
          r <~ liftOutcome (EncodePublic encoder (PublicKey_ k)) ;;
          match r with
          | Err err => ret (Some (Errorf "failed to encode public key: %w" [AErr err]))
          | Ok pubPEM =>
              match http_NewRequestWithContext "POST" endpoint pubPEM with
              | Err err => ret (Some (Errorf "failed to create request: %w" [AErr err]))
              | Ok req =>
                  let req := Header_Set "Content-Type" "application/x-pem-file" req in
                  let req := Header_Set "X-Key-ID" (KeyID k) req in
                  let httpClient :=
                    match v1alpha1.TLS target with
                    | None => p_client
                    | Some tls =>
                        {| Transport :=
                             Some {| MinVersion := tls_VersionTLS12;
                                     tls_InsecureSkipVerify :=
                                       if v1alpha1.InsecureSkipVerify tls then true
                                       else false |};
                           Timeout := 10 * time.Second |}
                    end in
                  r <~ call (CallDo httpClient req) (http_Do httpClient req) ;;
                  match r with
                  | Err err =>
                      ret (Some (Errorf "request to %s failed: %w"
                                   [AStr endpoint; AErr err]))
                  | Ok resp =>
                      defer (call CallCloseBody (fun w => (tt, Body_Close w)))
                        (call (CallCopyBody maxResponseBody)
                           (fun w => (tt, io_Copy_Discard maxResponseBody w)) ;;;
                         if 400 <=? StatusCode resp then
                           ret (Some (Errorf "server returned error: %s"
                                        [AStr (Status_ resp)]))
                         else ret None)
                  end
              end
          end
      end.

(** [FilesystemPublisher.Publish]; 0750 is 488 and 0600 is 384. *)
Definition FilesystemPublisher_Publish
    (target : v1alpha1.PublishTarget) (kp : option loc)
  : M (Logged W) (option error) :=
  let path := default "" (v1alpha1.Config target !! "path") in
  if decide (v1alpha1.Config target !! "path" = None \/ path = "") then
    ret (Some (Errorf "missing 'path' in config" []))
  else
    let cleanPath := filepath_Clean path in
    if negb (filepath_IsAbs cleanPath) then
      ret (Some (Errorf "publish path must be absolute, got: %s" [AStr path]))
    else if strings_Contains cleanPath ".." then
      ret (Some (Errorf "publish path must not contain '..': %s" [AStr path]))
    else
      r <~ call (CallMkdirAll cleanPath 488) (os_MkdirAll cleanPath 488) ;;
      match r with
      | Some err =>
          ret (Some (Errorf "failed to ensure directory %s: %w"
                       [AStr cleanPath; AErr err]))
      | None =>
          match NewKeyEncoder "PEM" with
          | Err err => ret (Some err)
          | Ok encoder =>
              k <~ deref kp ;;
              r <~ liftOutcome (EncodePublic encoder (PublicKey_ k)) ;;
              match r with
              | Err err =>
                  ret (Some (Errorf "failed to encode public key: %w" [AErr err]))
              | Ok pubPEM =>
                  let filename := filepath_Join cleanPath (KeyID k +:+ ".pub") in
                  let tmpFile := filename +:+ ".tmp" in
                  r <~ call (CallWriteFile tmpFile pubPEM 384)
                         (os_WriteFile tmpFile pubPEM 384) ;;
                  match r with
                  | Some err =>
                      ret (Some (Errorf "failed to write temp file %s: %w"
                                   [AStr tmpFile; AErr err]))
                  | None =>
                      r <~ call (CallRename tmpFile filename)
                             (os_Rename tmpFile filename) ;;
                      match r with
                      | Some err =>
                          call (CallRemove tmpFile) (os_Remove tmpFile) ;;;
                          ret (Some (Errorf "failed to rename %s → %s: %w"
                                       [AStr tmpFile; AStr filename; AErr err]))
                      | None => ret None
                      end
                  end
              end
          end
      end.

(** A method run as a [Publisher]: it reads the store and acts on the
    world. *)
Definition asPublisher
    (publish : v1alpha1.PublishTarget -> option loc -> M (Logged W) (option error))
  : Publisher (Logged W) :=
  fun target kp h lw =>
    let '(o, s) := publish target kp (mkState h lw []) in (o, world s).

(** [publish.NewManager] with its two publishers. *)
Definition publish_NewManager : Manager (Logged W) :=
  NewManager (asPublisher FilesystemPublisher_Publish)
    (asPublisher (HTTPPublisher_Publish NewHTTPPublisher_client)).

End Publishers.

(** ** Package [output]: the secret writer *)

Definition time_RFC3339 := "2006-01-02T15:04:05Z07:00".

Section SecretWriter.
Context {W : Type} `{!Encodings} `{!Effects W} `{!Cluster W}.
#[local] Existing Instance logged_effects.

(** The function [Write] hands to [controllerutil.CreateOrUpdate]; it
    changes [secret] in place and returns an error or nil.  Assigning the
    labels of the profile one by one overrides what the secret has under the
    same names. *)
Definition Write_mutate (profile : v1alpha1.KeyProfile) (k : KeyPair)
    (data : gmap string (list Byte.byte)) (secret : Secret)
  : Secret * option error :=
  match ctrl_SetControllerReference profile secret with
  | Err err =>
      (secret, Some (Errorf "failed to set controller reference: %w" [AErr err]))
  | Ok refs =>
      let labels := default ∅ (secret_Labels secret) in
      let labels := v1alpha1.Labels (v1alpha1.Output (v1alpha1.Spec profile)) ∪ labels in
      let labels := <["app.kubernetes.io/managed-by" := "openukr"]> labels in
      let labels := <["openukr.io/key-profile" := v1alpha1.Name profile]> labels in
      let type :=
        if decide (v1alpha1.Format (v1alpha1.Output (v1alpha1.Spec profile)) =
                   FormatSplitPEM)
        then corev1_SecretTypeTLS else corev1_SecretTypeOpaque in
      let annotations := default ∅ (secret_Annotations secret) in
      let annotations :=
        <["openukr.io/last-rotation" := time_Format time_RFC3339 (CreatedAt k)]>
          annotations in
      let annotations := <["openukr.io/key-id" := KeyID k]> annotations in
      let annotations := <["openukr.io/algorithm" := Algorithm k]> annotations in
      ({| secret_Name := secret_Name secret;
          secret_Namespace := secret_Namespace secret;
          secret_OwnerReferences := refs;
          secret_Labels := Some labels;
          secret_Annotations := Some annotations;
          secret_Data := data;
          secret_Type := type |}, None)
  end.

(** [kubeSecretWriter.Write], with the renderer the writer was made with. *)
Definition Write
    (renderer : option loc -> RenderOptions ->
                M (Logged W) (Result (gmap string (list Byte.byte))))
    (profile : option v1alpha1.KeyProfile) (kp : option loc)
  : M (Logged W) (option error) :=
  match profile with
  | None => ret (Some (Errorf "profile cannot be nil" []))
  | Some profile =>
      match kp with
      | None => ret (Some (Errorf "keyPair cannot be nil" []))
      | Some _ =>
          let opts :=
            {| Format := v1alpha1.Format (v1alpha1.Output (v1alpha1.Spec profile));
               Password := ""; Alias := "" |} in
          r <~ renderer kp opts ;;
          match r with
          | Err err =>
              ret (Some (Errorf "failed to render key material: %w" [AErr err]))
          | Ok data =>
              let secret :=
                {| secret_Name :=
                     v1alpha1.SecretName (v1alpha1.Output (v1alpha1.Spec profile));
                   secret_Namespace := v1alpha1.Namespace profile;
                   secret_OwnerReferences := [];
                   secret_Labels := None;
                   secret_Annotations := None;
                   secret_Data := ∅;
                   secret_Type := "" |} in
              k <~ deref kp ;;
              r <~ call (CallCreateOrUpdate secret)
                     (controllerutil_CreateOrUpdate secret
                        (Write_mutate profile k data)) ;;
              match r with
              | Some err => ret (Some (Errorf "failed to apply secret: %w" [AErr err]))
              | None => ret None
              end
          end
      end
  end.

(** [NewSecretWriter(client, scheme, NewRenderer())] *)
Definition defaultWriter (profile : option v1alpha1.KeyProfile) (kp : option loc)
  : M (Logged W) (option error) :=
  Write Render profile kp.

End SecretWriter.

(** ** The controller *)

Record ctrl_Result := { RequeueAfter : time.Duration }.

(** [Time.Sub]: the difference, kept within the range of a duration. *)
Definition time_Sub (t u : time.Time) : time.Duration :=
  let d := time.instant t - time.instant u in
  if d <? - 2 ^ 63 then - 2 ^ 63
  else if 2 ^ 63 - 1 <? d then 2 ^ 63 - 1
  else d.

Definition needsStatusUpdate (profile : v1alpha1.KeyProfile)
    (res : rotation.RotationResult) : bool :=
  let status := v1alpha1.Status profile in
  if decide (v1alpha1.CurrentKeyID status <> rotation.KeyID res) then true
  else if decide (v1alpha1.CurrentKeyFingerprint status <> rotation.Fingerprint res)
  then true
  else if match v1alpha1.LastRotation status with
          | None => true
          | Some t => negb (time.Equal t (rotation.RotationTime res))
          end then true
  else if match v1alpha1.NextRotation status with
          | None => true
          | Some t => negb (time.Equal t (rotation.NextRotation res))
          end then true
  else if decide (v1alpha1.Phase status = "") then true
  else false.

(** The five assignments to [profile.Status] in [Reconcile]. *)
Definition set_Status (res : rotation.RotationResult) (profile : v1alpha1.KeyProfile)
  : v1alpha1.KeyProfile :=
  let status := v1alpha1.Status profile in
  {| v1alpha1.Name := v1alpha1.Name profile;
     v1alpha1.Namespace := v1alpha1.Namespace profile;
     v1alpha1.Spec := v1alpha1.Spec profile;
     v1alpha1.Status :=
       {| v1alpha1.Phase := "Active";
          v1alpha1.CurrentKeyID := rotation.KeyID res;
          v1alpha1.PreviousKeyID := v1alpha1.PreviousKeyID status;
          v1alpha1.CurrentKeyFingerprint := rotation.Fingerprint res;
          v1alpha1.PreviousKeyFingerprint := v1alpha1.PreviousKeyFingerprint status;
          v1alpha1.LastRotation := Some (rotation.RotationTime res);
          v1alpha1.NextRotation := Some (rotation.NextRotation res) |} |}.

Section Controller.
Context {W : Type} `{!Effects W} `{!Cluster W}.
#[local] Existing Instance logged_effects.

(** [time.Until] *)
Definition time_Until (t : time.Time) : M (Logged W) time.Duration :=
  now <~ onWorld time_Now ;;
  ret (time_Sub t now).

Definition logError (err : error) (msg : string) : M (Logged W) unit :=
  call (CallLogError err msg) (fun w => (tt, w)).

Definition logInfo (level : Z) (msg : string) : M (Logged W) unit :=
  call (CallLogInfo level msg) (fun w => (tt, w)).

(** Step 4 of [Reconcile]. *)
Definition scheduleRequeue (res : rotation.RotationResult)
  : M (Logged W) (ctrl_Result * option error) :=
  if negb (time.IsZero (rotation.NextRotation res)) then
    requeueAfter <~ time_Until (rotation.NextRotation res) ;;
    let requeueAfter := if requeueAfter <? 0 then 1 * time.Second else requeueAfter in
    logInfo 1 "Requeue scheduled" ;;;
    ret ({| RequeueAfter := requeueAfter |}, None)
  else ret ({| RequeueAfter := 0 |}, None).

(** [KeyProfileReconciler.Reconcile], with the rotation manager the
    reconciler holds. *)
Definition Reconcile
    (rotationManager : v1alpha1.KeyProfile ->
                       M (Logged W) (Result rotation.RotationResult))
    (req : NamespacedName) : M (Logged W) (ctrl_Result * option error) :=
  r <~ call (CallGet req) (client_Get req) ;;
  match r with
  | Err err => ret ({| RequeueAfter := 0 |}, client_IgnoreNotFound err)
  | Ok profile =>
      r <~ rotationManager profile ;;
      match r with
      | Err err =>
          logError err "Failed to ensure key" ;;;
          ret ({| RequeueAfter := 0 |}, Some err)
      | Ok res =>
          if needsStatusUpdate profile res then
            let profile := set_Status res profile in
            r <~ call (CallStatusUpdate profile) (client_Status_Update profile) ;;
            match r with
            | Some err =>
                logError err "Failed to update KeyProfile status" ;;;
                ret ({| RequeueAfter := 0 |}, Some err)
            | None => scheduleRequeue res
            end
          else scheduleRequeue res
      end
  end.

End Controller.

(** ** The writer behind the rotation manager *)

Section Wiring.
Context {W : Type}.


End Wiring.

(** ** Vocabulary of the further properties: calls *)

(** A call that writes a log record and nothing else. *)
Definition is_log (c : Call) : Prop :=
  match c with
  | CallLogError _ _ | CallLogInfo _ _ => True
  | _ => False
  end.

(** ** Stand-ins for the cluster

    An API server that holds one settled profile, billing in finance, and
    accepts every write. *)
Module clusterstandin.

Definition result : rotation.RotationResult :=
  {| rotation.Rotated := false;
     rotation.KeyID := "rsa-4096-20260101-000000";
     rotation.RotationTime := time.mkTime 500;
     rotation.NextRotation := time.mkTime (500 + 24 * time.Hour);
     rotation.Fingerprint := "SHA256:MFk" |}.

Definition settled : v1alpha1.KeyProfile :=
  set_Status result
    (standin.profile (standin.rsaSpec "4096" false) "rsa-4096-20260101-000000"
       (Some (time.mkTime 500)) (24 * time.Hour) [standin.target "http"]).

#[global] Instance cluster : Cluster Z := {|
  client_Get := fun key w =>
    if decide (nn_Name key = "billing") then (Ok settled, w)
    else (Err (errors_New "not found"), w);
  client_Status_Update := fun _ w => (None, w);
  client_IgnoreNotFound := fun err =>
    match err with
    | errors_New "not found" => None
    | _ => Some err
    end;
  ctrl_SetControllerReference := fun profile _ => Ok [v1alpha1.Name profile];
  controllerutil_CreateOrUpdate := fun secret mutate w => ((mutate secret).2, w) |}.

Definition state : State (Logged Z) := mkState emptyHeap ([], 0) [].

(** A rotation manager whose collaborators are never reached in the steady
    state. *)
Definition idle : manager (Logged Z) :=
  {| keygen := fun _ h w => (Returned (Err (errors_New "no generator")), h, w);
     writer := fun _ _ _ w => (Returned None, w);
     publisher := fun _ _ _ w => (Returned None, w) |}.

End clusterstandin.
(** * Properties *)

(** ** Runs on concrete inputs *)

Example Atoi_examples :
  strconv.Atoi "3072" = Ok 3072 /\ strconv.Atoi "+2048" = Ok 2048 /\
  strconv.Atoi "-7" = Ok (-7) /\ is_Err (strconv.Atoi "") = true /\
  is_Err (strconv.Atoi "20_48") = true /\ is_Err (strconv.Atoi "-") = true /\
  is_Err (strconv.Atoi "9223372036854775808") = true /\
  strconv.Atoi "-9223372036854775808" = Ok (- 2 ^ 63).
Proof. vm_compute. repeat split; reflexivity. Qed.

Example ValidateKeySpec_examples :
  accepted (ValidateKeySpec "RSA" {[ "keySize" := "3072" ]} false) = true /\
  accepted (ValidateKeySpec "RSA" {[ "keySize" := "2048" ]} false) = false /\
  accepted (ValidateKeySpec "RSA" {[ "keySize" := "2048" ]} true) = true /\
  accepted (ValidateKeySpec "EC" {[ "curve" := "P-384" ]} false) = true /\
  accepted (ValidateKeySpec "EC" {[ "curve" := "P-192" ]} false) = false /\
  accepted (ValidateKeySpec "DSA" ∅ true) = false.
Proof. vm_compute. repeat split; reflexivity. Qed.

Example base64url_examples :
  base64_RawURLEncoding_EncodeToString
    [Byte.x66; Byte.x6f; Byte.x6f; Byte.x62; Byte.x61] = "Zm9vYmE" /\
  base64_RawURLEncoding_EncodeToString
    [Byte.xff; Byte.xfe; Byte.xfd; Byte.xfc] = "__79_A".
Proof. split; reflexivity. Qed.

(** ** Key-spec validation *)

Lemma validRSAKeySizes_spec (n : Z) :
  lookup_bool validRSAKeySizes n = true <-> n = 2048 \/ n = 3072 \/ n = 4096.
Proof.
  unfold lookup_bool, validRSAKeySizes.
  destruct (decide (n = 2048)) as [->|H1]; [split; [tauto | reflexivity]|].
  destruct (decide (n = 3072)) as [->|H2]; [split; [tauto | reflexivity]|].
  destruct (decide (n = 4096)) as [->|H3]; [split; [tauto | reflexivity]|].
  rewrite !lookup_insert_ne, lookup_singleton_ne by congruence.
  simpl. split; [discriminate | tauto].
Qed.

Lemma validCurves_spec (c : string) :
  lookup_bool validCurves c = true <->
  c = CurveP256 \/ c = CurveP384 \/ c = CurveP521.
Proof.
  unfold lookup_bool, validCurves.
  destruct (decide (c = CurveP256)) as [->|H1]; [split; [tauto | reflexivity]|].
  destruct (decide (c = CurveP384)) as [->|H2]; [split; [tauto | reflexivity]|].
  destruct (decide (c = CurveP521)) as [->|H3]; [split; [tauto | reflexivity]|].
  rewrite !lookup_insert_ne, lookup_singleton_ne by congruence.
  simpl. split; [discriminate | tauto].
Qed.

(** What [validateRSA] answers once the key size has parsed to [n]. *)
Lemma validateRSA_parsed (params : gmap string string) (allowLegacy : bool)
    (s : string) (n : Z) :
  params !! "keySize" = Some s ->
  strconv.Atoi s = Ok n ->
  validateRSA params allowLegacy =
    if negb (lookup_bool validRSAKeySizes n) then
      ([], Some (Errorf "unsupported RSA keySize %d, must be one of: 2048, 3072, 4096"
                   [AInt n]))
    else if n <? 3072 then
      if allowLegacy then
        ([Sprintf
            "RSA keySize %d is deprecated per BSI TR-02102-1 (2025). Migrate to >= %d or EC P-256."
            [AInt n; AInt 3072]], None)
      else
        ([], Some (Errorf
           "RSA keySize %d is deprecated per BSI TR-02102-1 (2025): set allowLegacyKeySize=true to override, or use >= %d"
           [AInt n; AInt 3072]))
    else ([], None).
Proof.
  intros Hs Hn. unfold validateRSA. rewrite Hs.
  destruct (decide (s = "")) as [->|_]; [discriminate Hn|].
  rewrite Hn.
  destruct (lookup_bool validRSAKeySizes n) eqn:Hv; simpl; [|reflexivity].
  apply validRSAKeySizes_spec in Hv.
  unfold RSAMinKeySize, RSARecommendedMinKeySize.
  destruct Hv as [-> | [-> | ->]]; destruct allowLegacy; reflexivity.
Qed.

(** C4.  For an RSA spec whose keySize parses to the integer [n],
    [ValidateKeySpec] rejects every [n] outside {2048, 3072, 4096}; without
    the legacy flag it accepts an [n] of that set exactly when [n >= 3072];
    2048 is accepted exactly when the legacy flag is set, and then with at
    least one warning; for [n >= 3072] there is no warning. *)
Theorem C4_rsa_key_size_policy (params : gmap string string)
    (allowLegacy : bool) (s : string) (n : Z) :
  params !! "keySize" = Some s ->
  strconv.Atoi s = Ok n ->
  let v := ValidateKeySpec AlgorithmRSA params allowLegacy in
  (~ (n = 2048 \/ n = 3072 \/ n = 4096) -> accepted v = false) /\
  (n = 2048 \/ n = 3072 \/ n = 4096 -> allowLegacy = false ->
   (accepted v = true <-> 3072 <= n)) /\
  (n = 2048 ->
   (accepted v = true <-> allowLegacy = true) /\
   (allowLegacy = true -> (1 <= length (warnings v))%nat)) /\
  (3072 <= n -> warnings v = []).
Proof.
  intros Hs Hn v.
  assert (Hv : v = validateRSA params allowLegacy) by reflexivity.
  rewrite (validateRSA_parsed _ _ _ _ Hs Hn) in Hv.
  destruct (lookup_bool validRSAKeySizes n) eqn:Hvalid; simpl in Hv.
  - apply validRSAKeySizes_spec in Hvalid.
    repeat split.
    + intros Hout. contradiction.
    + intros Hacc. destruct (Z.ltb_spec n 3072); [|lia].
      subst allowLegacy. rewrite Hv in Hacc. discriminate Hacc.
    + intros Hge. destruct (Z.ltb_spec n 3072); [lia|]. rewrite Hv. reflexivity.
    + subst n. simpl in Hv. destruct allowLegacy; rewrite Hv in *; [reflexivity|discriminate].
    + intros ->. subst n. rewrite Hv. reflexivity.
    + intros ->. subst n. rewrite Hv. simpl. lia.
    + intros Hge. destruct (Z.ltb_spec n 3072); [lia|]. rewrite Hv. reflexivity.
  - assert (Hnot : ~ (n = 2048 \/ n = 3072 \/ n = 4096)).
    { intros H. apply validRSAKeySizes_spec in H. congruence. }
    repeat split; try (intros; subst; exfalso; apply Hnot; tauto);
      try (intros; rewrite Hv; reflexivity).
    all: intros; exfalso; apply Hnot; tauto.
Qed.

(** The RSA policy at the key size "2048" with the legacy flag set. *)
Lemma C4_rsa_key_size_policy_witness :
  let v := ValidateKeySpec AlgorithmRSA {[ "keySize" := "2048" ]} true in
  (~ (2048 = 2048 \/ 2048 = 3072 \/ 2048 = 4096) -> accepted v = false) /\
  (2048 = 2048 \/ 2048 = 3072 \/ 2048 = 4096 -> true = false ->
   (accepted v = true <-> 3072 <= 2048)) /\
  (2048 = 2048 ->
   (accepted v = true <-> true = true) /\
   (true = true -> (1 <= length (warnings v))%nat)) /\
  (3072 <= 2048 -> warnings v = []).
Proof.
  apply (C4_rsa_key_size_policy {[ "keySize" := "2048" ]} true "2048" 2048).
  - reflexivity.
  - reflexivity.
Defined.

(** ** The rotation decision *)

Section DecisionProperties.
Context {W : Type} `{!Effects W}.

Lemma IsZero_false_Some (t : metav1.Time) :
  metav1.IsZero t = false ->
  exists last, t = Some last /\ time.IsZero last = false.
Proof.
  destruct t as [last|]; simpl; [eauto | discriminate].
Qed.

(** Rule 1: no key ID, or no recorded last rotation. *)
Lemma checkRotationNeeded_initial (profile : v1alpha1.KeyProfile) (s : State W) :
  v1alpha1.CurrentKeyID (v1alpha1.Status profile) = "" \/
  metav1.IsZero (v1alpha1.LastRotation (v1alpha1.Status profile)) = true ->
  checkRotationNeeded profile s = (Returned (true, Lit "initial key generation"), s).
Proof.
  intros Hinit. unfold checkRotationNeeded.
  destruct Hinit as [Hid | Hzero].
  - rewrite Hid. reflexivity.
  - rewrite Hzero, orb_true_r. reflexivity.
Qed.

(** Rule 2: a key exists and rotation is disabled. *)
Lemma checkRotationNeeded_disabled (profile : v1alpha1.KeyProfile) (s : State W) :
  v1alpha1.CurrentKeyID (v1alpha1.Status profile) <> "" ->
  metav1.IsZero (v1alpha1.LastRotation (v1alpha1.Status profile)) = false ->
  v1alpha1.Interval (v1alpha1.Rotation (v1alpha1.Spec profile)) = 0 ->
  checkRotationNeeded profile s =
    (Returned (false, Lit "rotation disabled (interval=0)"), s).
Proof.
  intros Hid Hlast Hint. unfold checkRotationNeeded.
  rewrite bool_decide_eq_false_2 by exact Hid.
  rewrite Hlast, Hint. reflexivity.
Qed.

(** Rules 3 and 4: a key exists and the interval is not zero; the clock is
    read once and compared with the due time. *)
Lemma checkRotationNeeded_timed (profile : v1alpha1.KeyProfile) (s : State W)
    (last : time.Time) :
  v1alpha1.CurrentKeyID (v1alpha1.Status profile) <> "" ->
  v1alpha1.LastRotation (v1alpha1.Status profile) = Some last ->
  time.IsZero last = false ->
  v1alpha1.Interval (v1alpha1.Rotation (v1alpha1.Spec profile)) <> 0 ->
  let interval := v1alpha1.Interval (v1alpha1.Rotation (v1alpha1.Spec profile)) in
  let due := time.Add last interval in
  checkRotationNeeded profile s =
    (Returned
       (if time.After (time_Now (world s)).1 due
        then (true, Sprintf "interval %s expired (due: %s)"
                      [ADuration interval; ATime due])
        else (false, Lit "")),
     mkState (heap s) (time_Now (world s)).2 (trace s)).
Proof.
  intros Hid Hlast Hnz Hint interval due. unfold checkRotationNeeded.
  rewrite bool_decide_eq_false_2 by exact Hid.
  rewrite Hlast. simpl. rewrite Hnz.
  destruct (Z.eqb_spec (v1alpha1.Interval (v1alpha1.Rotation (v1alpha1.Spec profile))) 0)
    as [E|_]; [contradiction|].
  unfold bind, onWorld. destruct (time_Now (world s)) as [now w]. simpl.
  fold interval. fold due.
  destruct (time.After now due); reflexivity.
Qed.

(** C2 (amended).  The decision follows the ordered rules: without a
    current key ID or without a recorded last rotation it is "rotate" with
    the reason "initial key generation"; otherwise with a zero interval it
    is "do not rotate"; otherwise it is "rotate" exactly when the clock is
    strictly after last rotation + interval, and the reason then carries
    that due time.  With a last rotation at T and a 24 h interval, the
    clock at T + 25 h gives rotate, at T + 23 h it gives do not rotate. *)
Theorem C2_rotation_decision_rules (profile : v1alpha1.KeyProfile) (s : State W) :
  let status := v1alpha1.Status profile in
  let interval := v1alpha1.Interval (v1alpha1.Rotation (v1alpha1.Spec profile)) in
  let now := (time_Now (world s)).1 in
  let decision := (checkRotationNeeded profile s).1 in
  (v1alpha1.CurrentKeyID status = "" \/
   metav1.IsZero (v1alpha1.LastRotation status) = true ->
   decision = Returned (true, Lit "initial key generation")) /\
  (forall last,
      v1alpha1.CurrentKeyID status <> "" ->
      v1alpha1.LastRotation status = Some last ->
      time.IsZero last = false ->
      (interval = 0 ->
       decision = Returned (false, Lit "rotation disabled (interval=0)")) /\
      (interval <> 0 -> time.instant last + interval < time.instant now ->
       decision =
         Returned (true, Sprintf "interval %s expired (due: %s)"
                           [ADuration interval;
                            ATime (time.mkTime (time.instant last + interval))])) /\
      (interval <> 0 -> time.instant now <= time.instant last + interval ->
       decision = Returned (false, Lit ""))) /\
  (forall T,
      v1alpha1.CurrentKeyID status <> "" ->
      v1alpha1.LastRotation status = Some T ->
      time.IsZero T = false ->
      interval = 24 * time.Hour ->
      (time.instant now = time.instant T + 25 * time.Hour ->
       exists reason, decision = Returned (true, reason)) /\
      (time.instant now = time.instant T + 23 * time.Hour ->
       exists reason, decision = Returned (false, reason))).
Proof.
  intros status interval now decision.
  assert (Htimed : forall last,
    v1alpha1.CurrentKeyID status <> "" ->
    v1alpha1.LastRotation status = Some last ->
    time.IsZero last = false -> interval <> 0 ->
    decision =
      Returned
        (if time.instant last + interval <? time.instant now
         then (true, Sprintf "interval %s expired (due: %s)"
                       [ADuration interval;
                        ATime (time.mkTime (time.instant last + interval))])
         else (false, Lit ""))).
  { intros last Hid Hlast Hnz Hint. unfold decision.
    rewrite (checkRotationNeeded_timed profile s last Hid Hlast Hnz Hint).
    reflexivity. }
  split; [|split].
  - intros Hinit. unfold decision.
    rewrite (checkRotationNeeded_initial profile s Hinit). reflexivity.
  - intros last Hid Hlast Hnz. split; [|split].
    + intros Hint. unfold decision.
      rewrite (checkRotationNeeded_disabled profile s Hid); try assumption.
      * reflexivity.
      * unfold status in Hlast. rewrite Hlast. exact Hnz.
    + intros Hint Hafter. rewrite (Htimed last Hid Hlast Hnz Hint).
      destruct (Z.ltb_spec (time.instant last + interval) (time.instant now));
        [reflexivity | lia].
    + intros Hint Hnot. rewrite (Htimed last Hid Hlast Hnz Hint).
      destruct (Z.ltb_spec (time.instant last + interval) (time.instant now));
        [lia | reflexivity].
  - intros T Hid Hlast Hnz Hint.
    assert (Hne : interval <> 0) by (rewrite Hint; discriminate).
    rewrite (Htimed T Hid Hlast Hnz Hne), Hint. split; intros Hnow.
    + destruct (Z.ltb_spec (time.instant T + 24 * time.Hour) (time.instant now)) as [_|Hle].
      * eauto.
      * exfalso. rewrite Hnow in Hle. unfold time.Hour, time.Minute, time.Second in Hle. lia.
    + destruct (Z.ltb_spec (time.instant T + 24 * time.Hour) (time.instant now)) as [Hlt|_].
      * exfalso. rewrite Hnow in Hlt. unfold time.Hour, time.Minute, time.Second in Hlt. lia.
      * eauto.
Qed.

(** C8.  [calculateNextRotation] with a zero interval is the zero instant,
    and then the decision for a profile that has a key is never "rotate";
    with a positive interval it is last rotation + interval. *)
Theorem C8_next_rotation (lastRot : time.Time) (interval : time.Duration) :
  (interval = 0 ->
   calculateNextRotation lastRot interval = time.zero /\
   time.IsZero (calculateNextRotation lastRot interval) = true /\
   forall (profile : v1alpha1.KeyProfile) (s : State W),
     v1alpha1.Interval (v1alpha1.Rotation (v1alpha1.Spec profile)) = interval ->
     v1alpha1.CurrentKeyID (v1alpha1.Status profile) <> "" ->
     metav1.IsZero (v1alpha1.LastRotation (v1alpha1.Status profile)) = false ->
     exists reason, checkRotationNeeded profile s = (Returned (false, reason), s)) /\
  (0 < interval ->
   calculateNextRotation lastRot interval =
     time.mkTime (time.instant lastRot + interval)).
Proof.
  split.
  - intros ->. repeat split.
    intros profile s Hint Hid Hlast.
    rewrite (checkRotationNeeded_disabled profile s Hid Hlast Hint). eauto.
  - intros Hpos. unfold calculateNextRotation.
    destruct (Z.eqb_spec interval 0); [lia | reflexivity].
Qed.

End DecisionProperties.

(** The decision on the stand-in clock: a key rotated at instant 500, a 24 h
    interval, and the clock 25 h later. *)
Lemma C2_rotation_decision_rules_witness :
  exists reason,
    (checkRotationNeeded
       (standin.profile (standin.ecSpec "P-256") "ec-P-256-20260101-000000"
          (Some (time.mkTime 500)) (24 * time.Hour) [])
       (standin.state (500 + 25 * time.Hour))).1 = Returned (true, reason).
Proof.
  apply (proj1 (proj2 (proj2
    (C2_rotation_decision_rules
       (standin.profile (standin.ecSpec "P-256") "ec-P-256-20260101-000000"
          (Some (time.mkTime 500)) (24 * time.Hour) [])
       (standin.state (500 + 25 * time.Hour))))
    (time.mkTime 500) ltac:(discriminate) eq_refl eq_refl eq_refl) eq_refl).
Defined.

(** The reason the code gives for the first rule is not the text
    "initial generation". *)
Lemma C2_initial_reason_counterexample :
  let profile := standin.profile (standin.ecSpec "P-256") "" None (24 * time.Hour) [] in
  (checkRotationNeeded profile (standin.state 0)).1 =
    Returned (true, Lit "initial key generation") /\
  (checkRotationNeeded profile (standin.state 0)).1 <>
    Returned (true, Lit "initial generation").
Proof.
  split; [reflexivity | discriminate].
Qed.

(** A disabled schedule and a daily one, from a rotation at instant 500. *)
Lemma C8_next_rotation_witness :
  calculateNextRotation (time.mkTime 500) 0 = time.zero /\
  calculateNextRotation (time.mkTime 500) (24 * time.Hour) =
    time.mkTime (500 + 24 * time.Hour).
Proof.
  split.
  - apply (proj1 (@C8_next_rotation Z standin.effects (time.mkTime 500) 0) eq_refl).
  - apply (proj2 (@C8_next_rotation Z standin.effects (time.mkTime 500) (24 * time.Hour))).
    reflexivity.
Defined.

(** ** The fingerprint *)

Section FingerprintProperties.
Context `{!Encodings}.

Lemma ComputeFingerprint_marshalled (pubKey : PublicKey) (der : list Byte.byte) :
  x509_MarshalPKIXPublicKey pubKey = Ok der ->
  ComputeFingerprint pubKey =
    Ok ("SHA256:" +:+ base64_RawURLEncoding_EncodeToString (sha256_Sum256 der)).
Proof.
  intros Hder. unfold ComputeFingerprint.
  destruct pubKey; try (rewrite Hder; reflexivity).
  pose proof x509_MarshalPKIXPublicKey_nil as Hnil.
  rewrite Hder in Hnil. discriminate Hnil.
Qed.

Lemma ComputeFingerprint_error (pubKey : PublicKey) :
  is_Err (ComputeFingerprint pubKey) = true <->
  pubKey = nilPublicKey \/ is_Err (x509_MarshalPKIXPublicKey pubKey) = true.
Proof.
  unfold ComputeFingerprint.
  destruct pubKey; try (split; [left|]; reflexivity);
    destruct (x509_MarshalPKIXPublicKey _) eqn:Hm; simpl;
    (split; [intros He; try discriminate He; right; reflexivity
            | intros [He|He]; try discriminate He; reflexivity]).
Qed.

(** C5.  For a public key that serialises to DER, the fingerprint is
    "SHA256:" followed by the unpadded base64url text of the SHA-256 of that
    DER; equal keys give equal fingerprints; the result is an error exactly
    when the key is nil or does not serialise. *)
Theorem C5_fingerprint_format (pubKey : PublicKey) :
  (forall der,
      x509_MarshalPKIXPublicKey pubKey = Ok der ->
      ComputeFingerprint pubKey =
        Ok ("SHA256:" +:+
            base64_RawURLEncoding_EncodeToString (sha256_Sum256 der))) /\
  (forall other, other = pubKey ->
      ComputeFingerprint other = ComputeFingerprint pubKey) /\
  (is_Err (ComputeFingerprint pubKey) = true <->
   pubKey = nilPublicKey \/ is_Err (x509_MarshalPKIXPublicKey pubKey) = true).
Proof.
  split; [|split].
  - apply ComputeFingerprint_marshalled.
  - intros other ->. reflexivity.
  - apply ComputeFingerprint_error.
Qed.

End FingerprintProperties.

(** The fingerprint of a P-256 key under the stand-in serialiser, whose DER
    is the two bytes 30 59 and whose hash is the identity. *)
Lemma C5_fingerprint_format_witness :
  ComputeFingerprint
    (ecdsaPublicKey (Some {| ec_Curve := P256; ec_X := 5; ec_Y := 7 |})) =
  Ok "SHA256:MFk".
Proof.
  exact (proj1 (C5_fingerprint_format
    (ecdsaPublicKey (Some {| ec_Curve := P256; ec_X := 5; ec_Y := 7 |})))
    [Byte.x30; Byte.x59] eq_refl).
Defined.

(** ** Secure wipe *)

(** *** Reads after writes *)

Lemma readKeyPair_writeKeyPair (a : loc) (k : KeyPair) (h : Heap) :
  readKeyPair (writeKeyPair a k h) a = k.
Proof. unfold readKeyPair, writeKeyPair. simpl. rewrite lookup_insert_eq. reflexivity. Qed.

Lemma readKeyPair_writeKeyPair_ne (a b : loc) (k : KeyPair) (h : Heap) :
  a <> b -> readKeyPair (writeKeyPair a k h) b = readKeyPair h b.
Proof.
  intros Hne. unfold readKeyPair, writeKeyPair. simpl.
  rewrite lookup_insert_ne by exact Hne. reflexivity.
Qed.

Lemma readBytes_writeBytes (a : loc) (bs : list Byte.byte) (h : Heap) :
  readBytes (writeBytes a bs h) a = bs.
Proof. unfold readBytes, writeBytes. simpl. rewrite lookup_insert_eq. reflexivity. Qed.

Lemma readBytes_writeBytes_ne (a b : loc) (bs : list Byte.byte) (h : Heap) :
  a <> b -> readBytes (writeBytes a bs h) b = readBytes h b.
Proof.
  intros Hne. unfold readBytes, writeBytes. simpl.
  rewrite lookup_insert_ne by exact Hne. reflexivity.
Qed.

Lemma readBigInt_writeBigInt (a b : loc) (z : Z) (h : Heap) :
  readBigInt (writeBigInt a z h) b = if decide (a = b) then z else readBigInt h b.
Proof.
  unfold readBigInt, writeBigInt. simpl. rewrite lookup_insert.
  destruct (decide (a = b)); reflexivity.
Qed.

Lemma writeKeyPair_id (a : loc) (k : KeyPair) (h : Heap) :
  keyPairs h !! a = Some k -> writeKeyPair a k h = h.
Proof.
  intros Hk. destruct h as [bs ints kps]. unfold writeKeyPair. simpl in *.
  rewrite (insert_id kps a k Hk). reflexivity.
Qed.

(** *** Zeroing the buffer *)

Lemma zeroIndices_frame (a : loc) (idx : list nat) (h : Heap) :
  bigInts (zeroIndices a idx h) = bigInts h /\
  keyPairs (zeroIndices a idx h) = keyPairs h.
Proof.
  revert h. induction idx as [|i idx IH]; intros h; simpl; [split; reflexivity|].
  destruct (IH (writeBytes a (<[i:=Byte.x00]> (readBytes h a)) h)) as [H1 H2].
  rewrite H1, H2. split; reflexivity.
Qed.

Lemma readBytes_zeroIndices (a : loc) (idx : list nat) (h : Heap) :
  readBytes (zeroIndices a idx h) a = zeroed idx (readBytes h a).
Proof.
  revert h. induction idx as [|i idx IH]; intros h; simpl; [reflexivity|].
  rewrite IH, readBytes_writeBytes. reflexivity.
Qed.

Lemma readBytes_zeroIndices_ne (a b : loc) (idx : list nat) (h : Heap) :
  a <> b -> readBytes (zeroIndices a idx h) b = readBytes h b.
Proof.
  intros Hne. revert h. induction idx as [|i idx IH]; intros h; simpl; [reflexivity|].
  rewrite IH, readBytes_writeBytes_ne by exact Hne. reflexivity.
Qed.

Lemma length_zeroed (idx : list nat) (l : list Byte.byte) :
  length (zeroed idx l) = length l.
Proof.
  revert l. induction idx as [|i idx IH]; intros l; [reflexivity|].
  change (zeroed (i :: idx) l) with (zeroed idx (<[i:=Byte.x00]> l)).
  rewrite IH. apply length_insert.
Qed.

Lemma zeroed_lookup (idx : list nat) (l : list Byte.byte) (i : nat) :
  zeroed idx l !! i =
    if bool_decide (i ∈ idx) then (fun _ => Byte.x00) <$> (l !! i) else l !! i.
Proof.
  revert l. induction idx as [|j idx IH]; intros l.
  - case_bool_decide as Hin; [|reflexivity].
    exfalso. revert Hin. apply not_elem_of_nil.
  - change (zeroed (j :: idx) l) with (zeroed idx (<[j:=Byte.x00]> l)).
    rewrite IH. destruct (decide (j = i)) as [->|Hne].
    + rewrite (bool_decide_eq_true_2 (i ∈ i :: idx)) by apply list_elem_of_here.
      destruct (decide (i < length l)%nat) as [Hlt|Hge].
      * rewrite list_lookup_insert_eq by exact Hlt.
        destruct (lookup_lt_is_Some_2 l i Hlt) as [x Hx]. rewrite Hx.
        case_bool_decide; reflexivity.
      * rewrite list_insert_ge by lia.
        rewrite (proj2 (lookup_ge_None l i)) by lia.
        case_bool_decide; reflexivity.
    + rewrite list_lookup_insert_ne by exact Hne.
      assert (Hiff : i ∈ j :: idx <-> i ∈ idx).
      { rewrite elem_of_cons. split; [intros [->|Hin]|intros Hin]; [congruence | done | by right]. }
      repeat case_bool_decide; tauto || reflexivity.
Qed.

(** After the loop over a window of [n] bytes, the window shows zeros only. *)
Lemma take_zeroed_seq (n : nat) (l : list Byte.byte) :
  take n (zeroed (seq 0 n) l) = replicate (length (take n l)) Byte.x00.
Proof.
  apply list_eq. intros i.
  destruct (decide (i < n)%nat) as [Hlt|Hge].
  - rewrite lookup_take_lt by exact Hlt. rewrite zeroed_lookup.
    rewrite bool_decide_eq_true_2 by (apply elem_of_seq; lia).
    destruct (decide (i < length l)%nat) as [Hl|Hl].
    + destruct (lookup_lt_is_Some_2 l i Hl) as [x Hx]. rewrite Hx. simpl.
      symmetry. apply lookup_replicate_2. rewrite length_take. lia.
    + rewrite (proj2 (lookup_ge_None l i)) by lia. simpl.
      symmetry. apply lookup_replicate_None. rewrite length_take. lia.
  - rewrite lookup_take_ge by lia.
    symmetry. apply lookup_replicate_None. rewrite length_take. lia.
Qed.

(** *** Zeroing the private numbers *)

Lemma zeroBigInt_frame (p : bigIntPtr) (h : Heap) :
  byteArrays (zeroBigInt p h) = byteArrays h /\
  keyPairs (zeroBigInt p h) = keyPairs h.
Proof. destruct p; split; reflexivity. Qed.

Lemma zeroPrimes_frame (ps : list bigIntPtr) (h : Heap) :
  byteArrays (zeroPrimes ps h) = byteArrays h /\
  keyPairs (zeroPrimes ps h) = keyPairs h.
Proof.
  revert h. induction ps as [|p ps IH]; intros h; simpl; [split; reflexivity|].
  destruct (IH (zeroBigInt p h)) as [H1 H2].
  destruct (zeroBigInt_frame p h) as [H3 H4].
  rewrite H1, H2, H3, H4. split; reflexivity.
Qed.

Lemma readBigInt_zeroBigInt (p : bigIntPtr) (h : Heap) (d : loc) :
  readBigInt (zeroBigInt p h) d =
    if bool_decide (p = Some d) then 0 else readBigInt h d.
Proof.
  destruct p as [a|]; unfold zeroBigInt.
  - rewrite readBigInt_writeBigInt.
    case_bool_decide as Heq; destruct (decide (a = d)) as [Had|Had];
      congruence || reflexivity.
  - case_bool_decide as Heq; [discriminate Heq | reflexivity].
Qed.

Lemma readBigInt_zeroPrimes (ps : list bigIntPtr) (h : Heap) (d : loc) :
  readBigInt (zeroPrimes ps h) d =
    if bool_decide (Some d ∈ ps) then 0 else readBigInt h d.
Proof.
  revert h. induction ps as [|p ps IH]; intros h.
  - case_bool_decide as Hin; [|reflexivity].
    exfalso. revert Hin. apply not_elem_of_nil.
  - change (zeroPrimes (p :: ps) h) with (zeroPrimes ps (zeroBigInt p h)).
    rewrite IH, readBigInt_zeroBigInt.
    assert (Hiff : Some d ∈ p :: ps <-> p = Some d \/ Some d ∈ ps).
    { rewrite elem_of_cons. split; (intros [Heq|Hin]; [left; congruence | by right]). }
    repeat case_bool_decide; tauto || reflexivity.
Qed.

(** The type switch returns unless the key is a nil [*rsa.PrivateKey]; it
    writes to [big.Int] cells only. *)
Lemma wipePrivateKey_returns (key : PrivateKey) (h : Heap) :
  key <> rsaPrivateKey None -> (wipePrivateKey key h).1 = Returned tt.
Proof.
  intros Hkey. destruct key as [|[k|]|[k|]|]; try reflexivity. congruence.
Qed.

Lemma wipePrivateKey_frame (key : PrivateKey) (h : Heap) :
  byteArrays (wipePrivateKey key h).2 = byteArrays h /\
  keyPairs (wipePrivateKey key h).2 = keyPairs h.
Proof.
  destruct key as [|[k|]|[k|]|]; simpl; try (split; reflexivity).
  - apply zeroBigInt_frame.
  - destruct (zeroPrimes_frame (rsa_Primes k) (zeroBigInt (rsa_D k) h)) as [H1 H2].
    destruct (zeroBigInt_frame (rsa_D k) h) as [H3 H4].
    rewrite H1, H2, H3, H4. split; reflexivity.
Qed.

(** *** [Wipe] *)

Lemma zeroSlice_frame (sl : byteSlice) (h : Heap) :
  bigInts (zeroSlice sl h) = bigInts h /\ keyPairs (zeroSlice sl h) = keyPairs h.
Proof.
  destruct sl as [|b n]; simpl; [split; reflexivity|]. apply zeroIndices_frame.
Qed.

Lemma readKeyPair_frame (h h' : Heap) (a : loc) :
  keyPairs h' = keyPairs h -> readKeyPair h' a = readKeyPair h a.
Proof. intros Heq. unfold readKeyPair. rewrite Heq. reflexivity. Qed.

(** [Wipe] unfolded: the store after each of its steps. *)
Lemma Wipe_steps (a : loc) (h : Heap) :
  let k := readKeyPair h a in
  let h1 := zeroSlice (rawPrivateBytes k) h in
  let h2 := writeKeyPair a (set_rawPrivateBytes nilSlice k) h1 in
  let r := wipePrivateKey (PrivateKey_ k) h2 in
  Wipe (Some a) h =
    match r.1 with
    | Panicked => (Panicked, r.2)
    | Returned _ => (Returned tt, writeKeyPair a (wiped k) r.2)
    end.
Proof.
  intros k h1 h2 r. unfold Wipe. fold k. fold h1.
  assert (Hk1 : readKeyPair h1 a = k).
  { apply readKeyPair_frame. apply zeroSlice_frame. }
  rewrite Hk1. fold h2.
  assert (Hk2 : readKeyPair h2 a = set_rawPrivateBytes nilSlice k).
  { apply readKeyPair_writeKeyPair. }
  rewrite Hk2. simpl. fold r.
  destruct r as [[[]|] h3] eqn:Hr; simpl; [|reflexivity].
  assert (Hk3 : readKeyPair h3 a = set_rawPrivateBytes nilSlice k).
  { rewrite <- Hk2. apply readKeyPair_frame.
    pose proof (wipePrivateKey_frame (PrivateKey_ k) h2) as [_ Hf].
    fold r in Hf. rewrite Hr in Hf. exact Hf. }
  rewrite Hk3, readKeyPair_writeKeyPair.
  destruct h3 as [bs ints kps]. unfold writeKeyPair, wiped. simpl.
  rewrite insert_insert_eq. reflexivity.
Qed.

(** A nil receiver: nothing happens. *)
Lemma Wipe_nil (h : Heap) : Wipe None h = (Returned tt, h).
Proof. reflexivity. Qed.

(** [Wipe] returns on every key pair but one that holds a nil
    [*rsa.PrivateKey]. *)
Lemma Wipe_returns (a : loc) (h : Heap) :
  PrivateKey_ (readKeyPair h a) <> rsaPrivateKey None ->
  (Wipe (Some a) h).1 = Returned tt.
Proof.
  intros Hkey. rewrite Wipe_steps. cbv zeta.
  rewrite wipePrivateKey_returns by exact Hkey. reflexivity.
Qed.

Lemma Wipe_panics (a : loc) (h : Heap) :
  PrivateKey_ (readKeyPair h a) = rsaPrivateKey None ->
  (Wipe (Some a) h).1 = Panicked.
Proof.
  intros Hkey. rewrite Wipe_steps. cbv zeta. rewrite Hkey. reflexivity.
Qed.

(** After [Wipe] the struct holds no private key, no public key and no
    buffer; the other fields keep their values. *)
Lemma Wipe_clears (a : loc) (h h' : Heap) :
  Wipe (Some a) h = (Returned tt, h') ->
  keyPairs h' !! a = Some (wiped (readKeyPair h a)).
Proof.
  rewrite Wipe_steps. cbv zeta.
  destruct (wipePrivateKey _ _) as [[[]|] h3]; simpl; intros Heq; [|discriminate].
  injection Heq as <-. simpl. apply lookup_insert_eq.
Qed.

(** The bytes seen through the old slice are zero, as many as before. *)
Lemma Wipe_zeroes_buffer (a b : loc) (n : nat) (h h' : Heap) :
  Wipe (Some a) h = (Returned tt, h') ->
  rawPrivateBytes (readKeyPair h a) = sliceOf b n ->
  sliceBytes h' (sliceOf b n) =
    replicate (length (sliceBytes h (sliceOf b n))) Byte.x00.
Proof.
  rewrite Wipe_steps. cbv zeta. intros Heq Hraw. rewrite Hraw in Heq.
  pose proof (wipePrivateKey_frame (PrivateKey_ (readKeyPair h a))
    (writeKeyPair a (set_rawPrivateBytes nilSlice (readKeyPair h a))
       (zeroSlice (sliceOf b n) h))) as [Hbytes _].
  destruct (wipePrivateKey _ _) as [[[]|] h3]; simpl in *; [|discriminate].
  injection Heq as <-. unfold readBytes at 1. simpl. rewrite Hbytes.
  change (default [] (byteArrays (zeroIndices b (seq 0 n) h) !! b))
    with (readBytes (zeroIndices b (seq 0 n) h) b).
  rewrite readBytes_zeroIndices. apply take_zeroed_seq.
Qed.

(** The private scalar of an EC key, and the private exponent and the
    primes of an RSA key, read zero. *)
Lemma Wipe_zeroes_scalars (a : loc) (h h' : Heap) :
  Wipe (Some a) h = (Returned tt, h') ->
  match PrivateKey_ (readKeyPair h a) with
  | ecdsaPrivateKey (Some k) => forall d, ec_D k = Some d -> readBigInt h' d = 0
  | rsaPrivateKey (Some k) =>
      forall d, rsa_D k = Some d \/ Some d ∈ rsa_Primes k -> readBigInt h' d = 0
  | _ => True
  end.
Proof.
  rewrite Wipe_steps. cbv zeta.
  destruct (PrivateKey_ (readKeyPair h a)) as [|[k|]|[k|]|]; simpl; try (intros; exact I).
  - intros Heq d Hd. injection Heq as <-. rewrite Hd.
    unfold readBigInt. simpl. rewrite lookup_insert_eq. reflexivity.
  - intros Heq d Hd. injection Heq as <-.
    change (readBigInt (zeroPrimes (rsa_Primes k)
      (zeroBigInt (rsa_D k)
         (writeKeyPair a (set_rawPrivateBytes nilSlice (readKeyPair h a))
            (zeroSlice (rawPrivateBytes (readKeyPair h a)) h)))) d = 0).
    rewrite readBigInt_zeroPrimes, readBigInt_zeroBigInt.
    destruct Hd as [Hd|Hd].
    + rewrite (bool_decide_eq_true_2 (rsa_D k = Some d)) by exact Hd.
      case_bool_decide; reflexivity.
    + rewrite bool_decide_eq_true_2 by exact Hd. reflexivity.
Qed.

(** A key pair that is already wiped is left as it is. *)
Lemma Wipe_wiped (a : loc) (k : KeyPair) (h : Heap) :
  keyPairs h !! a = Some (wiped k) -> Wipe (Some a) h = (Returned tt, h).
Proof.
  intros Hk. rewrite Wipe_steps. cbv zeta.
  assert (Hread : readKeyPair h a = wiped k).
  { unfold readKeyPair. rewrite Hk. reflexivity. }
  rewrite Hread. simpl.
  change (set_rawPrivateBytes nilSlice (wiped k)) with (wiped k).
  change (wiped (wiped k)) with (wiped k).
  rewrite (writeKeyPair_id a (wiped k) h Hk).
  rewrite (writeKeyPair_id a (wiped k) h Hk). reflexivity.
Qed.

(** Calling [Wipe] twice leaves the store the first call left. *)
Lemma Wipe_idempotent (kp : option loc) (h h' : Heap) :
  Wipe kp h = (Returned tt, h') -> Wipe kp h' = (Returned tt, h').
Proof.
  destruct kp as [a|]; [|reflexivity].
  intros Hw. apply (Wipe_wiped a (readKeyPair h a)).
  apply Wipe_clears. exact Hw.
Qed.

(** C6 (the code at the failing input).  A key pair whose private key is an
    interface value holding a nil [*rsa.PrivateKey]: [Wipe] passes the guard
    on the exponent and panics on [k.Primes]. *)
Theorem C6_Wipe_panics_on_nil_rsa_pointer :
  let kp := {| KeyID := "rsa-4096-20260101-0a1b2c";
               PrivateKey_ := rsaPrivateKey None;
               PublicKey_ := nilPublicKey;
               Algorithm := "RSA";
               CreatedAt := time.mkTime 1000;
               rawPrivateBytes := nilSlice |} in
  let h := writeKeyPair 1%positive kp emptyHeap in
  (Wipe (Some 1%positive) h).1 = Panicked /\
  PrivateKey_ (readKeyPair (Wipe (Some 1%positive) h).2 1%positive) =
    rsaPrivateKey None.
Proof.
  split; reflexivity.
Qed.

(** ** What a run appends to the trace *)

Section Traces.
Context {W : Type}.

Lemma emits_only_ret {A} (P : Event -> Prop) (a : A) :
  emits_only P (ret (W := W) a).
Proof. intros s. exists []. rewrite app_nil_r. split; [reflexivity | constructor]. Qed.

Lemma emits_only_panic {A} (P : Event -> Prop) : emits_only P (@panic W A).
Proof. intros s. exists []. rewrite app_nil_r. split; [reflexivity | constructor]. Qed.

Lemma emits_only_getHeap (P : Event -> Prop) : emits_only P (@getHeap W).
Proof. intros s. exists []. rewrite app_nil_r. split; [reflexivity | constructor]. Qed.

Lemma emits_only_liftOutcome {A} (P : Event -> Prop) (o : Outcome A) :
  emits_only P (@liftOutcome W A o).
Proof. intros s. exists []. rewrite app_nil_r. split; [reflexivity | constructor]. Qed.

Lemma emits_only_emit (P : Event -> Prop) (e : Event) :
  P e -> emits_only P (@emit W e).
Proof. intros He s. exists [e]. split; [reflexivity | repeat constructor; exact He]. Qed.

Lemma emits_only_onHeap {A} (P : Event -> Prop) (f : Heap -> A * Heap) :
  emits_only P (@onHeap W A f).
Proof.
  intros s. exists []. rewrite app_nil_r. unfold onHeap.
  destruct (f (heap s)). split; [reflexivity | constructor].
Qed.

Lemma emits_only_onWorld {A} (P : Event -> Prop) (f : W -> A * W) :
  emits_only P (@onWorld W A f).
Proof.
  intros s. exists []. rewrite app_nil_r. unfold onWorld.
  destruct (f (world s)). split; [reflexivity | constructor].
Qed.

Lemma emits_only_bind {A B} (P : Event -> Prop) (m : M W A) (k : A -> M W B) :
  emits_only P m -> (forall a, emits_only P (k a)) -> emits_only P (bind m k).
Proof.
  intros Hm Hk s. unfold bind.
  destruct (Hm s) as [evs [Ht Hf]].
  destruct (m s) as [[a|] s1]; simpl in Ht.
  - destruct (Hk a s1) as [evs' [Ht' Hf']].
    exists (evs ++ evs'). rewrite Ht', Ht, app_assoc.
    split; [reflexivity | apply Forall_app; split; assumption].
  - exists evs. split; assumption.
Qed.

Lemma emits_only_defer {A} (P : Event -> Prop) (f : M W unit) (body : M W A) :
  emits_only P body -> emits_only P f -> emits_only P (defer f body).
Proof.
  intros Hb Hf s. unfold defer.
  destruct (Hb s) as [evs [Ht Hp]].
  destruct (body s) as [r s1]; simpl in Ht.
  destruct (Hf s1) as [evs' [Ht' Hp']].
  destruct (f s1) as [[u|] s2]; simpl in Ht'; exists (evs ++ evs'); simpl;
    rewrite Ht', Ht, app_assoc;
    (split; [reflexivity | apply Forall_app; split; assumption]).
Qed.

Lemma emits_only_weaken {A} (P Q : Event -> Prop) (m : M W A) :
  (forall e, P e -> Q e) -> emits_only P m -> emits_only Q m.
Proof.
  intros HPQ Hm s. destruct (Hm s) as [evs [Ht Hf]].
  exists evs. split; [exact Ht | eapply Forall_impl; eassumption].
Qed.

Lemma starts_with_emit (e : Event) {A} (k : M W A) (P : Event -> Prop) :
  emits_only P k -> starts_with e (emit e ;;; k).
Proof.
  intros Hk s. unfold bind, emit.
  destruct (Hk (mkState (heap s) (world s) (trace s ++ [e]))) as [evs [Ht _]].
  exists evs. rewrite Ht. simpl. rewrite <- app_assoc. reflexivity.
Qed.

Lemma starts_with_bind (e : Event) {A B} (m : M W A) (k : A -> M W B)
    (P : Event -> Prop) :
  starts_with e m -> (forall a, emits_only P (k a)) -> starts_with e (bind m k).
Proof.
  intros Hm Hk s. unfold bind.
  destruct (Hm s) as [rest Ht].
  destruct (m s) as [[a|] s1]; simpl in Ht.
  - destruct (Hk a s1) as [evs [Ht' _]].
    exists (rest ++ evs). rewrite Ht', Ht, <- app_assoc. reflexivity.
  - exists rest. exact Ht.
Qed.

End Traces.

(** Takes a goal [emits_only P m] apart along the structure of [m]; what is
    left are the side conditions [P e] of the events [m] emits. *)
Ltac emits_step :=
  match goal with
  | |- emits_only _ (ret _) => apply emits_only_ret
  | |- emits_only _ panic => apply emits_only_panic
  | |- emits_only _ getHeap => apply emits_only_getHeap
  | |- emits_only _ (liftOutcome _) => apply emits_only_liftOutcome
  | |- emits_only _ (onHeap _) => apply emits_only_onHeap
  | |- emits_only _ (onWorld _) => apply emits_only_onWorld
  | |- emits_only _ (emit _) => apply emits_only_emit
  | |- emits_only _ (bind _ _) => apply emits_only_bind; [|intros ?]
  | |- emits_only _ (defer _ _) => apply emits_only_defer
  | |- emits_only _ (match ?x with _ => _ end) => destruct x
  | |- emits_only _ (if ?x then _ else _) => destruct x
  end.

Ltac emits := repeat emits_step.

(** ** Generation and validation share one rule set *)

Lemma validateEC_accepted (params : gmap string string) :
  accepted (validateEC params) = true ->
  exists c, params !! "curve" = Some c /\
            (c = CurveP256 \/ c = CurveP384 \/ c = CurveP521).
Proof.
  unfold validateEC, accepted.
  destruct (params !! "curve") as [c|]; [|discriminate].
  destruct (decide (c = "")) as [Hempty|Hne]; [discriminate|].
  destruct (lookup_bool validCurves c) eqn:Hc; [|discriminate].
  intros _. exists c. split; [reflexivity | apply validCurves_spec; exact Hc].
Qed.

Lemma validateRSA_accepted (params : gmap string string) (allowLegacy : bool) :
  accepted (validateRSA params allowLegacy) = true ->
  exists s n, params !! "keySize" = Some s /\ strconv.Atoi s = Ok n /\
              (n = 2048 \/ n = 3072 \/ n = 4096).
Proof.
  unfold validateRSA, accepted.
  destruct (params !! "keySize") as [s|]; [|discriminate].
  destruct (decide (s = "")) as [Hempty|Hne]; [discriminate|].
  destruct (strconv.Atoi s) as [n|err] eqn:Hatoi; [|discriminate].
  destruct (lookup_bool validRSAKeySizes n) eqn:Hn; [|discriminate].
  intros _. exists s, n. split; [reflexivity|]. split; [exact Hatoi|].
  apply validRSAKeySizes_spec. exact Hn.
Qed.

Lemma parseCurve_valid (c : string) :
  c = CurveP256 \/ c = CurveP384 \/ c = CurveP521 ->
  exists curve, parseCurve c = Ok curve.
Proof.
  intros [-> | [-> | ->]]; eexists; reflexivity.
Qed.

Section GenerateProperties.
Context {W : Type} `{!Encodings} `{!Effects W}.

Lemma allocPrimes_emits (P : Event -> Prop) (ps : list Z) :
  emits_only P (allocPrimes (W := W) ps).
Proof.
  induction ps as [|p ps IH]; simpl.
  - apply emits_only_ret.
  - apply emits_only_bind; [apply emits_only_onHeap|]. intros a.
    apply emits_only_bind; [exact IH|]. intros rest. apply emits_only_ret.
Qed.

Lemma generateKeyID_emits (alg param : string) :
  emits_only (fun _ => True) (generateKeyID (W := W) alg param).
Proof. unfold generateKeyID. emits. exact I. Qed.

(** Past validation, the EC path asks the library for a key on the named
    curve before anything else. *)
Lemma generateEC_starts (opts : GenerateOptions) (c : string) (curve : Curve) :
  opt_Params opts !! "curve" = Some c ->
  parseCurve c = Ok curve ->
  starts_with (EvECDSAGenerateKey curve) (generateEC (W := W) opts).
Proof.
  intros Hc Hp. unfold generateEC. rewrite Hc. simpl. rewrite Hp.
  eapply starts_with_bind with (P := fun _ => True).
  - unfold call_ecdsa_GenerateKey.
    eapply starts_with_emit with (P := fun _ => True). emits.
  - intros r. emits; try exact I. apply generateKeyID_emits.
Qed.

(** Past validation, the RSA path asks the library for a key of the parsed
    size before anything else. *)
Lemma generateRSA_starts (opts : GenerateOptions) (sz : string) (n : Z) :
  opt_Params opts !! "keySize" = Some sz ->
  strconv.Atoi sz = Ok n ->
  starts_with (EvRSAGenerateKey n) (generateRSA (W := W) opts).
Proof.
  intros Hs Hn. unfold generateRSA. rewrite Hs. simpl. rewrite Hn.
  eapply starts_with_bind with (P := fun _ => True).
  - unfold call_rsa_GenerateKey.
    eapply starts_with_emit with (P := fun _ => True).
    emits; try exact I. apply allocPrimes_emits.
  - intros r. emits; try exact I. apply generateKeyID_emits.
Qed.

(** C3.  [Generate] validates with [ValidateKeySpec] on the same three
    arguments.  A spec it rejects makes [Generate] return the wrapped
    validation error with the state untouched: no key pair, no call to the
    random source.  A spec it accepts takes [Generate] into the generator of
    its algorithm, whose first act is the library's key generation.  The
    admission validator accepts a profile only if [ValidateKeySpec] accepts
    its key spec. *)
Theorem C3_generate_shares_validation (opts : GenerateOptions) (s : State W) :
  let v := ValidateKeySpec (opt_Algorithm opts) (opt_Params opts)
             (opt_AllowLegacyKeySize opts) in
  (forall err, v.2 = Some err ->
     Generate opts s =
       (Returned (Err (Errorf "key generation validation failed: %w" [AErr err])), s)) /\
  (accepted v = true ->
     (Generate opts s = generateEC opts s \/ Generate opts s = generateRSA opts s) /\
     exists e rest,
       trace (Generate opts s).2 = trace s ++ e :: rest /\
       ((exists curve, e = EvECDSAGenerateKey curve) \/
        (exists bits, e = EvRSAGenerateKey bits /\
                      (bits = 2048 \/ bits = 3072 \/ bits = 4096)))) /\
  (forall profile : v1alpha1.KeyProfile,
     let ks := v1alpha1.KeySpec_ (v1alpha1.Spec profile) in
     opt_Algorithm opts = v1alpha1.Algorithm ks ->
     opt_Params opts = v1alpha1.Params ks ->
     opt_AllowLegacyKeySize opts = v1alpha1.AllowLegacyKeySize ks ->
     accepted (validateKeyProfile profile) = true ->
     accepted v = true).
Proof.
  intros v. split; [|split].
  - intros err Herr. unfold Generate. fold v. rewrite Herr. reflexivity.
  - intros Hacc. unfold accepted in Hacc.
    destruct (v.2) as [err|] eqn:Hv; [discriminate|].
    assert (Hgen : Generate opts s =
      if decide (opt_Algorithm opts = AlgorithmEC) then generateEC opts s
      else if decide (opt_Algorithm opts = AlgorithmRSA) then generateRSA opts s
      else (Returned (Err (Errorf "unsupported algorithm: %s"
                             [AStr (opt_Algorithm opts)])), s)).
    { unfold Generate. fold v. rewrite Hv.
      repeat destruct (decide _); reflexivity. }
    rewrite Hgen. unfold v, ValidateKeySpec in Hv.
    destruct (decide (opt_Algorithm opts = AlgorithmEC)) as [Hec|Hnec].
    + split; [left; reflexivity|].
      destruct (validateEC_accepted (opt_Params opts)) as [c [Hc Hvalid]].
      { unfold accepted. rewrite Hv. reflexivity. }
      destruct (parseCurve_valid c Hvalid) as [curve Hcurve].
      destruct (generateEC_starts opts c curve Hc Hcurve s) as [rest Ht].
      exists (EvECDSAGenerateKey curve), rest. split; [exact Ht | left; eauto].
    + destruct (decide (opt_Algorithm opts = AlgorithmRSA)) as [Hrsa|Hnrsa];
        [|discriminate Hv].
      split; [right; reflexivity|].
      destruct (validateRSA_accepted (opt_Params opts) (opt_AllowLegacyKeySize opts))
        as [sz [n [Hs [Hn Hvalid]]]].
      { unfold accepted. rewrite Hv. reflexivity. }
      destruct (generateRSA_starts opts sz n Hs Hn s) as [rest Ht].
      exists (EvRSAGenerateKey n), rest. split; [exact Ht | right; eauto].
  - intros profile ks Ha Hp Hl. unfold v. rewrite Ha, Hp, Hl. fold ks.
    unfold validateKeyProfile.
    destruct (validation.ValidateNamespaceMatch _ _); [discriminate|].
    destruct (validation.ValidateRotationPolicy _ _); [discriminate|].
    fold ks.
    destruct (ValidateKeySpec (v1alpha1.Algorithm ks) (v1alpha1.Params ks)
                (v1alpha1.AllowLegacyKeySize ks)) as [ws [err|]];
      [discriminate | reflexivity].
Qed.

End GenerateProperties.

(** [Generate] on an RSA-2048 spec without the legacy flag, and on a P-384
    spec, under the stand-in libraries. *)
Lemma C3_generate_shares_validation_witness :
  (exists err,
     Generate {| opt_Algorithm := "RSA"; opt_Params := {[ "keySize" := "2048" ]};
                 opt_AllowLegacyKeySize := false |} (standin.state 0) =
     (Returned (Err (Errorf "key generation validation failed: %w" [AErr err])),
      standin.state 0)) /\
  (exists e rest,
     trace (Generate {| opt_Algorithm := "EC"; opt_Params := {[ "curve" := "P-384" ]};
                        opt_AllowLegacyKeySize := false |} (standin.state 0)).2 =
       trace (standin.state 0) ++ e :: rest /\
     ((exists curve, e = EvECDSAGenerateKey curve) \/
      (exists bits, e = EvRSAGenerateKey bits /\
                    (bits = 2048 \/ bits = 3072 \/ bits = 4096)))).
Proof.
  split.
  - eexists.
    apply (proj1 (C3_generate_shares_validation
      {| opt_Algorithm := "RSA"; opt_Params := {[ "keySize" := "2048" ]};
         opt_AllowLegacyKeySize := false |} (standin.state 0))).
    reflexivity.
  - apply (proj1 (proj2 (C3_generate_shares_validation
      {| opt_Algorithm := "EC"; opt_Params := {[ "curve" := "P-384" ]};
         opt_AllowLegacyKeySize := false |} (standin.state 0)))).
    reflexivity.
Defined.

(** ** The publisher dispatcher *)

Section PublishProperties.
Context {W : Type}.

(** The loop with its accumulator computes the attempts: it appends their
    failures to [errs] and their calls to the trace. *)
Lemma PublishAll_loop_attempts (m : Manager W)
    (targets : list v1alpha1.PublishTarget) (kp : option loc) :
  forall (i : Z) (errs : list error) (s : State W) (atts : list Attempt) (w' : W),
    attempts m targets kp (heap s) (world s) = Some (atts, w') ->
    PublishAll_loop m i targets kp errs s =
      (Returned (errs ++ failures i targets atts),
       mkState (heap s) w' (trace s ++ calls i targets kp atts)).
Proof.
  induction targets as [|t rest IH]; intros i errs s atts w' Hatt; simpl in Hatt.
  - injection Hatt as <- <-. simpl. rewrite !app_nil_r. destruct s; reflexivity.
  - simpl. destruct (publishers m !! v1alpha1.Type_ t) as [pub|] eqn:Hpub.
    + unfold bind, callPublish.
      destruct (pub t kp (heap s) (world s)) as [[r|] w1] eqn:Hcall; [|discriminate].
      destruct (attempts m rest kp (heap s) w1) as [[atts1 w2]|] eqn:Hrest;
        [|discriminate].
      injection Hatt as <- <-.
      destruct r as [err|].
      * rewrite (IH (i + 1) _ (mkState (heap s) w1
                   (trace s ++ [EvPublish i t kp (Some err)])) atts1 w2 Hrest).
        simpl. rewrite <- !app_assoc. reflexivity.
      * rewrite (IH (i + 1) _ (mkState (heap s) w1
                   (trace s ++ [EvPublish i t kp None])) atts1 w2 Hrest).
        simpl. rewrite <- !app_assoc. reflexivity.
    + destruct (attempts m rest kp (heap s) (world s)) as [[atts1 w2]|] eqn:Hrest;
        [|discriminate].
      injection Hatt as <- <-.
      rewrite (IH (i + 1) _ s atts1 w2 Hrest).
      simpl. rewrite <- !app_assoc. reflexivity.
Qed.

(** One attempt per target; a target without a registered publisher is
    [NoPublisher], every other target was called. *)
Lemma attempts_shape (m : Manager W) (targets : list v1alpha1.PublishTarget)
    (kp : option loc) (h : Heap) :
  forall (w : W) (atts : list Attempt) (w' : W),
    attempts m targets kp h w = Some (atts, w') ->
    length atts = length targets /\
    forall (i : nat) t, targets !! i = Some t ->
      (publishers m !! v1alpha1.Type_ t = None /\ atts !! i = Some NoPublisher) \/
      (exists pub r, publishers m !! v1alpha1.Type_ t = Some pub /\
                     atts !! i = Some (Published r)).
Proof.
  induction targets as [|t rest IH]; intros w atts w' Hatt; simpl in Hatt.
  - injection Hatt as <- <-. split; [reflexivity|]. intros i t Hi. discriminate Hi.
  - destruct (publishers m !! v1alpha1.Type_ t) as [pub|] eqn:Hpub.
    + destruct (pub t kp h w) as [[r|] w1]; [|discriminate].
      destruct (attempts m rest kp h w1) as [[atts1 w2]|] eqn:Hrest; [|discriminate].
      injection Hatt as <- <-.
      destruct (IH w1 atts1 w2 Hrest) as [Hlen Hall].
      split; [simpl; congruence|].
      intros [|i] t' Hi; simpl in Hi.
      * injection Hi as <-. right. exists pub, r. split; [exact Hpub | reflexivity].
      * apply (Hall i t' Hi).
    + destruct (attempts m rest kp h w) as [[atts1 w2]|] eqn:Hrest; [|discriminate].
      injection Hatt as <- <-.
      destruct (IH w atts1 w2 Hrest) as [Hlen Hall].
      split; [simpl; congruence|].
      intros [|i] t' Hi; simpl in Hi.
      * injection Hi as <-. left. split; [exact Hpub | reflexivity].
      * apply (Hall i t' Hi).
Qed.

End PublishProperties.

(** The recorded errors are those of the failing targets, none else. *)
Lemma failures_elem (targets : list v1alpha1.PublishTarget) :
  forall (k : Z) (atts : list Attempt) (e : error),
    e ∈ failures k targets atts <->
    exists (i : nat) t a,
      targets !! i = Some t /\ atts !! i = Some a /\
      failure_of (k + Z.of_nat i) t a = Some e.
Proof.
  induction targets as [|t rest IH]; intros k atts e.
  - simpl. split.
    + intros Hin. exfalso. revert Hin. apply not_elem_of_nil.
    + intros [i [t [a [Hi _]]]]. discriminate Hi.
  - destruct atts as [|a atts1].
    { simpl. split.
      + intros Hin. exfalso. revert Hin. apply not_elem_of_nil.
      + intros [i [t' [a [_ [Hi _]]]]]. discriminate Hi. }
    assert (Hshift : e ∈ failures (k + 1) rest atts1 <->
      exists (i : nat) t' a',
        (t :: rest) !! S i = Some t' /\ (a :: atts1) !! S i = Some a' /\
        failure_of (k + Z.of_nat (S i)) t' a' = Some e).
    { rewrite IH. split; intros [i [t' [a' [H1 [H2 H3]]]]]; exists i, t', a';
        (repeat split; [exact H1 | exact H2 |]).
      - replace (k + Z.of_nat (S i)) with (k + 1 + Z.of_nat i) by lia. exact H3.
      - replace (k + 1 + Z.of_nat i) with (k + Z.of_nat (S i)) by lia. exact H3. }
    simpl failures. destruct (failure_of k t a) as [e0|] eqn:Hf.
    + rewrite elem_of_cons, Hshift. split.
      * intros [-> | [i Hi]].
        -- exists 0%nat, t, a. repeat split. rewrite Z.add_0_r. exact Hf.
        -- exists (S i). exact Hi.
      * intros [[|i] [t' [a' [H1 [H2 H3]]]]].
        -- simpl in H1, H2. injection H1 as <-. injection H2 as <-.
           rewrite Z.add_0_r in H3. left. congruence.
        -- right. exists i, t', a'. auto.
    + rewrite Hshift. split.
      * intros [i Hi]. exists (S i). exact Hi.
      * intros [[|i] [t' [a' [H1 [H2 H3]]]]].
        -- simpl in H1, H2. injection H1 as <-. injection H2 as <-.
           rewrite Z.add_0_r in H3. congruence.
        -- exists i, t', a'. auto.
Qed.

(** A target that was called is in the list of calls, under its index. *)
Lemma calls_elem (targets : list v1alpha1.PublishTarget) (kp : option loc) :
  forall (k : Z) (atts : list Attempt) (i : nat) t r,
    targets !! i = Some t -> atts !! i = Some (Published r) ->
    EvPublish (k + Z.of_nat i) t kp r ∈ calls k targets kp atts.
Proof.
  induction targets as [|t0 rest IH]; intros k atts i t r Ht Ha; [discriminate Ht|].
  destruct atts as [|a0 atts1]; [discriminate Ha|].
  destruct i as [|i]; simpl in Ht, Ha.
  - injection Ht as <-. injection Ha as ->. simpl. rewrite Z.add_0_r.
    apply list_elem_of_here.
  - assert (Hin : EvPublish (k + 1 + Z.of_nat i) t kp r ∈ calls (k + 1) rest kp atts1)
      by (apply IH; assumption).
    replace (k + Z.of_nat (S i)) with (k + 1 + Z.of_nat i) by lia.
    simpl. destruct a0; [exact Hin | apply list_elem_of_further; exact Hin].
Qed.

Lemma failures_nil_iff (targets : list v1alpha1.PublishTarget) :
  forall (k : Z) (atts : list Attempt),
    length atts = length targets ->
    (failures k targets atts = [] <-> forallb succeeded atts = true).
Proof.
  induction targets as [|t rest IH]; intros k [|a atts1] Hlen; simpl in Hlen;
    try discriminate Hlen.
  - simpl. tauto.
  - injection Hlen as Hlen. simpl.
    destruct a as [|[err|]]; simpl.
    + split; discriminate.
    + split; discriminate.
    + apply IH. exact Hlen.
Qed.

Section PublishAllTheorem.
Context {W : Type}.

Lemma PublishAll_attempts (m : Manager W) (targets : list v1alpha1.PublishTarget)
    (kp : option loc) (s : State W) (atts : list Attempt) (w' : W) :
  attempts m targets kp (heap s) (world s) = Some (atts, w') ->
  PublishAll m targets kp s =
    (if forallb succeeded atts then Returned None
     else Returned (Some (Errorf "publish errors: %v"
                            [AErrs (failures 0 targets atts)])),
     mkState (heap s) w' (trace s ++ calls 0 targets kp atts)).
Proof.
  intros Hatt. unfold PublishAll, bind.
  rewrite (PublishAll_loop_attempts m targets kp 0 [] s atts w' Hatt).
  destruct (attempts_shape m targets kp (heap s) (world s) atts w' Hatt) as [Hlen _].
  pose proof (failures_nil_iff targets 0 atts Hlen) as Hnil.
  simpl. destruct (failures 0 targets atts) as [|e es] eqn:Hf.
  - rewrite (proj1 Hnil eq_refl). reflexivity.
  - destruct (forallb succeeded atts); [|reflexivity].
    destruct Hnil as [_ Hnil]. discriminate (Hnil eq_refl).
Qed.

(** C7.  When no publisher panics, [PublishAll] makes one attempt per
    target, in order, each in the world its predecessors left: a target with
    a registered publisher is called whatever the earlier ones returned.  It
    returns nil exactly when every attempt succeeded; otherwise it returns
    one error that carries, in target order, the error of each failing
    target and of no other, each with the target's index and type.  With two
    targets, the first failing and the second succeeding, both are called
    and the error carries the first target's failure alone. *)
Theorem C7_PublishAll_collects_failures (m : Manager W)
    (targets : list v1alpha1.PublishTarget) (kp : option loc) (s : State W)
    (atts : list Attempt) (w' : W) :
  attempts m targets kp (heap s) (world s) = Some (atts, w') ->
  let run := PublishAll m targets kp s in
  length atts = length targets /\
  (forall (i : nat) t, targets !! i = Some t ->
     (publishers m !! v1alpha1.Type_ t = None /\ atts !! i = Some NoPublisher) \/
     (exists r, atts !! i = Some (Published r) /\
                EvPublish (Z.of_nat i) t kp r ∈ calls 0 targets kp atts)) /\
  run.2 = mkState (heap s) w' (trace s ++ calls 0 targets kp atts) /\
  (run.1 = Returned None <-> forallb succeeded atts = true) /\
  (forallb succeeded atts = false ->
   run.1 = Returned (Some (Errorf "publish errors: %v"
                             [AErrs (failures 0 targets atts)]))) /\
  (forall e, e ∈ failures 0 targets atts <->
     exists (i : nat) t a,
       targets !! i = Some t /\ atts !! i = Some a /\
       failure_of (Z.of_nat i) t a = Some e) /\
  (forall t0 t1 pub0 pub1 e0 w1,
     targets = [t0; t1] ->
     publishers m !! v1alpha1.Type_ t0 = Some pub0 ->
     publishers m !! v1alpha1.Type_ t1 = Some pub1 ->
     pub0 t0 kp (heap s) (world s) = (Returned (Some e0), w1) ->
     pub1 t1 kp (heap s) w1 = (Returned None, w') ->
     run =
       (Returned (Some (Errorf "publish errors: %v"
          [AErrs [Errorf "target[%d] (%s) failed: %w"
                    [AInt 0; AStr (v1alpha1.Type_ t0); AErr e0]]])),
        mkState (heap s) w'
          (trace s ++ [EvPublish 0 t0 kp (Some e0); EvPublish 1 t1 kp None]))).
Proof.
  intros Hatt run.
  pose proof (PublishAll_attempts m targets kp s atts w' Hatt) as Hrun.
  fold run in Hrun.
  destruct (attempts_shape m targets kp (heap s) (world s) atts w' Hatt)
    as [Hlen Hshape].
  split; [exact Hlen|]. split; [|split; [|split; [|split; [|split]]]].
  - intros i t Hi. destruct (Hshape i t Hi) as [Hno | [pub [r [Hpub Ha]]]].
    + left. exact Hno.
    + right. exists r. split; [exact Ha|].
      apply (calls_elem targets kp 0 atts i t r Hi Ha).
  - rewrite Hrun. reflexivity.
  - rewrite Hrun. simpl. destruct (forallb succeeded atts);
      split; intros Heq; reflexivity || discriminate Heq.
  - intros Hfail. rewrite Hrun, Hfail. reflexivity.
  - intros e. rewrite (failures_elem targets 0 atts e).
    split; intros [i [t [a Hi]]]; exists i, t, a; exact Hi.
  - intros t0 t1 pub0 pub1 e0 w1 -> Hp0 Hp1 Hc0 Hc1.
    simpl in Hatt. rewrite Hp0, Hc0, Hp1, Hc1 in Hatt.
    injection Hatt as <-. rewrite Hrun. reflexivity.
Qed.

End PublishAllTheorem.

(** A dispatcher whose "http" publisher fails and whose "filesystem"
    publisher succeeds, on the targets http, filesystem: both are called and
    the error names target 0 only. *)
Lemma C7_PublishAll_collects_failures_witness :
  let m : Manager Z :=
    NewManager (fun _ _ _ w => (Returned None, w + 1))
               (fun _ _ _ w => (Returned (Some (errors_New "503")), w + 1)) in
  PublishAll m [standin.target "http"; standin.target "filesystem"] None
    (standin.state 0) =
  (Returned (Some (Errorf "publish errors: %v"
     [AErrs [Errorf "target[%d] (%s) failed: %w"
               [AInt 0; AStr "http"; AErr (errors_New "503")]]])),
   mkState emptyHeap 2
     [EvPublish 0 (standin.target "http") None (Some (errors_New "503"));
      EvPublish 1 (standin.target "filesystem") None None]).
Proof.
  intros m.
  exact (proj2 (proj2 (proj2 (proj2 (proj2 (proj2
    (C7_PublishAll_collects_failures m
       [standin.target "http"; standin.target "filesystem"] None (standin.state 0)
       [Published (Some (errors_New "503")); Published None] 2 eq_refl))))))
    (standin.target "http") (standin.target "filesystem")
    (fun _ _ _ w => (Returned (Some (errors_New "503")), w + 1))
    (fun _ _ _ w => (Returned None, w + 1))
    (errors_New "503") 1 eq_refl eq_refl eq_refl eq_refl eq_refl).
Defined.

(** ** The renderer *)

(** Case analysis on a scrutinee of the goal that has no [match] inside. *)
Ltac case_scrutinee :=
  match goal with
  | |- context [match ?scrut with _ => _ end] =>
      tryif (match scrut with context [match _ with _ => _ end] => idtac end)
      then fail
      else destruct scrut eqn:?
  end.

(** Unfolds the monad and follows every path of a run. *)
Ltac run_paths :=
  unfold bind, ret, emit, onWorld, onHeap, getHeap, panic, liftOutcome, deref;
  simpl;
  repeat (case_scrutinee; simpl).

Section RenderProperties.
Context {W : Type} `{!Encodings} `{!Effects W}.






End RenderProperties.


(** ** The orchestrator *)

Section EnsureKeyProperties.
Context {W : Type} `{!Encodings} `{!Effects W}.

(** The decision reads the clock at most; it returns, and leaves the store
    and the trace as they were. *)
Lemma checkRotationNeeded_frame (profile : v1alpha1.KeyProfile) (s : State W) :
  heap (checkRotationNeeded profile s).2 = heap s /\
  trace (checkRotationNeeded profile s).2 = trace s /\
  exists d, (checkRotationNeeded profile s).1 = Returned d.
Proof.
  unfold checkRotationNeeded.
  destruct (bool_decide _ || metav1.IsZero _) eqn:Hinit; [simpl; eauto|].
  destruct (_ =? 0); [simpl; eauto|].
  apply orb_false_elim in Hinit. destruct Hinit as [_ Hzero].
  destruct (IsZero_false_Some _ Hzero) as [last [Hlast _]]. rewrite Hlast.
  unfold bind, onWorld, derefTime, ret.
  destruct (time_Now (world s)) as [now w]. simpl.
  destruct (time.After _ _); simpl; eauto.
Qed.

(** A decision "do not rotate" means: a key ID, a recorded last rotation,
    and a disabled or unexpired interval. *)
Lemma checkRotationNeeded_false (profile : v1alpha1.KeyProfile) (s : State W)
    (reason : gostring) :
  (checkRotationNeeded profile s).1 = Returned (false, reason) ->
  exists last,
    v1alpha1.CurrentKeyID (v1alpha1.Status profile) <> "" /\
    v1alpha1.LastRotation (v1alpha1.Status profile) = Some last /\
    time.IsZero last = false /\
    (v1alpha1.Interval (v1alpha1.Rotation (v1alpha1.Spec profile)) = 0 \/
     time.instant (time_Now (world s)).1 <=
       time.instant last +
       v1alpha1.Interval (v1alpha1.Rotation (v1alpha1.Spec profile))).
Proof.
  intros Hdec.
  destruct (decide (v1alpha1.CurrentKeyID (v1alpha1.Status profile) = "")) as [Hid|Hid].
  { rewrite (checkRotationNeeded_initial profile s (or_introl Hid)) in Hdec.
    discriminate Hdec. }
  destruct (metav1.IsZero (v1alpha1.LastRotation (v1alpha1.Status profile))) eqn:Hz.
  { rewrite (checkRotationNeeded_initial profile s (or_intror Hz)) in Hdec.
    discriminate Hdec. }
  destruct (IsZero_false_Some _ Hz) as [last [Hlast Hnz]].
  exists last. repeat split; try assumption.
  destruct (decide (v1alpha1.Interval (v1alpha1.Rotation (v1alpha1.Spec profile)) = 0))
    as [Hint|Hint]; [left; exact Hint | right].
  rewrite (checkRotationNeeded_timed profile s last Hid Hlast Hnz Hint) in Hdec.
  simpl in Hdec. unfold time.After, time.Add in Hdec. simpl in Hdec.
  destruct (Z.ltb_spec
    (time.instant last + v1alpha1.Interval (v1alpha1.Rotation (v1alpha1.Spec profile)))
    (time.instant (time_Now (world s)).1)) as [Hlt|Hge];
    [discriminate Hdec | exact Hge].
Qed.

(** C10.  When the decision is "do not rotate", [EnsureKey] stops after the
    decision: it returns Rotated=false with the key ID, the fingerprint and
    the rotation time of the profile's status and the next rotation computed
    from the stored last rotation and the interval; the store and the trace
    are as before, so nothing was generated, published or persisted. *)
Theorem C10_no_rotation_leaves_everything (m : manager W)
    (profile : v1alpha1.KeyProfile) (s : State W) (reason : gostring) :
  (checkRotationNeeded profile s).1 = Returned (false, reason) ->
  let status := v1alpha1.Status profile in
  let interval := v1alpha1.Interval (v1alpha1.Rotation (v1alpha1.Spec profile)) in
  exists last,
    v1alpha1.CurrentKeyID status <> "" /\
    v1alpha1.LastRotation status = Some last /\
    (interval = 0 \/
     time.instant (time_Now (world s)).1 <= time.instant last + interval) /\
    EnsureKey m profile s =
      (Returned (Ok {| rotation.Rotated := false;
                       rotation.KeyID := v1alpha1.CurrentKeyID status;
                       rotation.RotationTime := last;
                       rotation.NextRotation := calculateNextRotation last interval;
                       rotation.Fingerprint := v1alpha1.CurrentKeyFingerprint status |}),
       (checkRotationNeeded profile s).2) /\
    heap (EnsureKey m profile s).2 = heap s /\
    trace (EnsureKey m profile s).2 = trace s.
Proof.
  intros Hdec status interval.
  destruct (checkRotationNeeded_false profile s reason Hdec)
    as [last [Hid [Hlast [Hnz Hdue]]]].
  destruct (checkRotationNeeded_frame profile s) as [Hheap [Htrace _]].
  assert (Hrun : EnsureKey m profile s =
    (Returned (Ok {| rotation.Rotated := false;
                     rotation.KeyID := v1alpha1.CurrentKeyID status;
                     rotation.RotationTime := last;
                     rotation.NextRotation := calculateNextRotation last interval;
                     rotation.Fingerprint := v1alpha1.CurrentKeyFingerprint status |}),
     (checkRotationNeeded profile s).2)).
  { unfold EnsureKey, bind at 1.
    destruct (checkRotationNeeded profile s) as [o s1]. simpl in Hdec. subst o.
    simpl. rewrite Hlast. reflexivity. }
  exists last. repeat split; try assumption.
  - rewrite Hrun. exact Hheap.
  - rewrite Hrun. exact Htrace.
Qed.

End EnsureKeyProperties.

(** A key rotated at instant 500 with a 24 h interval, the clock at 1000:
    nothing to do. *)
Lemma C10_no_rotation_leaves_everything_witness :
  let profile :=
    standin.profile (standin.rsaSpec "4096" false) "rsa-4096-20260101-000000"
      (Some (time.mkTime 500)) (24 * time.Hour) [standin.target "http"] in
  exists last,
    v1alpha1.CurrentKeyID (v1alpha1.Status profile) <> "" /\
    v1alpha1.LastRotation (v1alpha1.Status profile) = Some last /\
    (24 * time.Hour = 0 \/ 1000 <= time.instant last + 24 * time.Hour) /\
    EnsureKey (standin.collaborators None None) profile (standin.state 1000) =
      (Returned (Ok {| rotation.Rotated := false;
                       rotation.KeyID := "rsa-4096-20260101-000000";
                       rotation.RotationTime := last;
                       rotation.NextRotation :=
                         calculateNextRotation last (24 * time.Hour);
                       rotation.Fingerprint := "SHA256:MFk" |}),
       (checkRotationNeeded profile (standin.state 1000)).2) /\
    heap (EnsureKey (standin.collaborators None None) profile (standin.state 1000)).2 =
      emptyHeap /\
    trace (EnsureKey (standin.collaborators None None) profile (standin.state 1000)).2 = [].
Proof.
  intros profile.
  exact (C10_no_rotation_leaves_everything (standin.collaborators None None)
           profile (standin.state 1000) (Lit "") eq_refl).
Defined.

(** ** Publish before persist *)

Section PublishBeforePersist.
Context {W : Type} `{!Encodings} `{!Effects W}.

#[local] Arguments Wipe : simpl never.
#[local] Arguments ComputeFingerprint : simpl never.
#[local] Arguments calculateNextRotation : simpl never.




End PublishBeforePersist.


(** * Further properties *)

(** ** The base64url text of the fingerprint and of the JWK members *)

Lemma base64url_index_char (n : N) :
  (n < 64)%N -> base64url_index (base64url_char n) = Some n.
Proof.
  intros Hn.
  assert (Hall : forallb
    (fun k => match base64url_index (base64url_char (N.of_nat k)) with
              | Some m => (m =? N.of_nat k)%N
              | None => false
              end) (seq 0 64) = true) by (vm_compute; reflexivity).
  rewrite forallb_forall in Hall.
  specialize (Hall (N.to_nat n)). rewrite N2Nat.id in Hall.
  assert (Hin : In (N.to_nat n) (seq 0 64)) by (apply in_seq; lia).
  specialize (Hall Hin).
  destruct (base64url_index (base64url_char n)) as [m|]; [|discriminate Hall].
  apply N.eqb_eq in Hall. congruence.
Qed.

Lemma byte_of_to_N (a : Byte.byte) (n : N) : n = Byte.to_N a -> byte_of n = a.
Proof. intros ->. unfold byte_of. rewrite Byte.of_to_N. reflexivity. Qed.

Lemma to_N_lt_256 (a : Byte.byte) : (Byte.to_N a < 256)%N.
Proof. pose proof (Byte.to_N_bounded a). lia. Qed.

(** The arithmetic below is about quotients and remainders by constants. *)
Ltac Zify.zify_post_hook ::= Z.to_euclidean_division_equations.

(** Decoding undoes encoding. *)
Lemma base64url_decode_encode_bounded (k : nat) :
  forall bs : list Byte.byte,
    (length bs <= k)%nat ->
    base64url_decode (base64_RawURLEncoding_EncodeToString bs) = Some bs.
Proof.
  induction k as [|k IH]; intros bs Hlen.
  - destruct bs; [reflexivity | simpl in Hlen; lia].
  - destruct bs as [|a [|b [|c rest]]].
    + reflexivity.
    + pose proof (to_N_lt_256 a) as Ha.
      cbn [base64_RawURLEncoding_EncodeToString base64url_decode].
      rewrite !base64url_index_char by lia.
      f_equal. f_equal. apply byte_of_to_N. lia.
    + pose proof (to_N_lt_256 a) as Ha. pose proof (to_N_lt_256 b) as Hb.
      cbn [base64_RawURLEncoding_EncodeToString base64url_decode].
      rewrite !base64url_index_char by lia.
      f_equal. f_equal; [apply byte_of_to_N; lia|].
      f_equal. apply byte_of_to_N. lia.
    + pose proof (to_N_lt_256 a) as Ha. pose proof (to_N_lt_256 b) as Hb.
      pose proof (to_N_lt_256 c) as Hc.
      cbn [base64_RawURLEncoding_EncodeToString base64url_decode].
      rewrite !base64url_index_char by lia.
      rewrite (IH rest) by (simpl in Hlen; lia).
      f_equal. f_equal; [apply byte_of_to_N; lia|].
      f_equal; [apply byte_of_to_N; lia|].
      f_equal. apply byte_of_to_N. lia.
Qed.

Lemma base64url_decode_encode (bs : list Byte.byte) :
  base64url_decode (base64_RawURLEncoding_EncodeToString bs) = Some bs.
Proof. apply (base64url_decode_encode_bounded (length bs)). lia. Qed.

Ltac Zify.zify_post_hook ::= idtac.

Section FingerprintRoundTrip.
Context `{!Encodings}.

(** X1.  The text after "SHA256:" decodes to the SHA-256 of the key's DER,
    so two keys have the same fingerprint exactly when those hashes agree. *)
Theorem fingerprint_decodes_to_hash (pk1 pk2 : PublicKey)
    (der1 der2 : list Byte.byte) :
  x509_MarshalPKIXPublicKey pk1 = Ok der1 ->
  x509_MarshalPKIXPublicKey pk2 = Ok der2 ->
  (exists text,
     ComputeFingerprint pk1 = Ok (FingerprintPrefix +:+ text) /\
     base64url_decode text = Some (sha256_Sum256 der1)) /\
  (ComputeFingerprint pk1 = ComputeFingerprint pk2 <->
   sha256_Sum256 der1 = sha256_Sum256 der2).
Proof.
  intros H1 H2.
  rewrite (ComputeFingerprint_marshalled pk1 der1 H1).
  rewrite (ComputeFingerprint_marshalled pk2 der2 H2).
  split.
  - eexists. split; [reflexivity | apply base64url_decode_encode].
  - split.
    + intros Heq. injection Heq as Heq.
      change (base64_RawURLEncoding_EncodeToString (sha256_Sum256 der1) =
              base64_RawURLEncoding_EncodeToString (sha256_Sum256 der2)) in Heq.
      assert (Hdec : base64url_decode
                       (base64_RawURLEncoding_EncodeToString (sha256_Sum256 der1)) =
                     base64url_decode
                       (base64_RawURLEncoding_EncodeToString (sha256_Sum256 der2)))
        by (rewrite Heq; reflexivity).
      rewrite !base64url_decode_encode in Hdec. congruence.
    + intros ->. reflexivity.
Qed.

End FingerprintRoundTrip.

(** A P-256 key under the stand-in serialiser, whose DER is 30 59 and whose
    hash is the identity: the text "MFk" decodes to those two bytes. *)
Lemma fingerprint_decodes_to_hash_witness :
  exists text,
    ComputeFingerprint
      (ecdsaPublicKey (Some {| ec_Curve := P256; ec_X := 5; ec_Y := 7 |})) =
      Ok (FingerprintPrefix +:+ text) /\
    base64url_decode text = Some [Byte.x30; Byte.x59].
Proof.
  exact (proj1 (@fingerprint_decodes_to_hash standin.encodings
    (ecdsaPublicKey (Some {| ec_Curve := P256; ec_X := 5; ec_Y := 7 |}))
    (ecdsaPublicKey (Some {| ec_Curve := P256; ec_X := 5; ec_Y := 7 |}))
    [Byte.x30; Byte.x59] [Byte.x30; Byte.x59] eq_refl eq_refl)).
Defined.

(** ** Padding and big-endian numbers *)

Lemma be_value_app (l1 l2 : list Byte.byte) :
  be_value (l1 ++ l2) =
  fold_left (fun acc b => (acc * 256 + Byte.to_N b)%N) l2 (be_value l1).
Proof. unfold be_value. apply fold_left_app. Qed.

Lemma be_value_snoc (l : list Byte.byte) (b : Byte.byte) :
  be_value (l ++ [b]) = (be_value l * 256 + Byte.to_N b)%N.
Proof. rewrite be_value_app. reflexivity. Qed.

Lemma be_value_zeros (k : nat) (l : list Byte.byte) :
  be_value (replicate k Byte.x00 ++ l) = be_value l.
Proof.
  induction k as [|k IH]; [reflexivity|].
  rewrite <- IH. unfold be_value. reflexivity.
Qed.

(** [padLeft] puts max(size - len(data), 0) zero bytes before [data]. *)
Lemma padLeft_zeros (data : list Byte.byte) (size : Z) :
  padLeft data size = replicate (Z.to_nat size - length data) Byte.x00 ++ data.
Proof.
  unfold padLeft. destruct (Z.leb_spec size (Z.of_nat (length data))) as [Hle|Hgt].
  - replace (Z.to_nat size - length data)%nat with 0%nat by lia. reflexivity.
  - rewrite take_replicate. f_equal. f_equal. lia.
Qed.

(** X2.  [padLeft] returns [data] itself when it is long enough and puts
    zero bytes before it otherwise: the result has max(len(data), size)
    bytes, ends in [data], and denotes the same big-endian number. *)
Theorem padLeft_pads_without_changing_the_number (data : list Byte.byte) (size : Z) :
  length (padLeft data size) = Nat.max (length data) (Z.to_nat size) /\
  (exists zeros, padLeft data size = zeros ++ data /\
                 Forall (fun b => b = Byte.x00) zeros) /\
  (size <= Z.of_nat (length data) -> padLeft data size = data) /\
  be_value (padLeft data size) = be_value data.
Proof.
  rewrite padLeft_zeros. split; [|split; [|split]].
  - rewrite length_app, length_replicate. lia.
  - eexists. split; [reflexivity|]. apply Forall_replicate. reflexivity.
  - intros Hle. replace (Z.to_nat size - length data)%nat with 0%nat by lia.
    reflexivity.
  - apply be_value_zeros.
Qed.

(** The digits [bytes_le] produces denote [n] when the fuel covers the bits
    of [n]. *)
Lemma to_N_byte_of (m : N) : (m < 256)%N -> Byte.to_N (byte_of m) = m.
Proof.
  intros Hm. unfold byte_of.
  destruct (Byte.of_N m) as [b|] eqn:Hb.
  - simpl. apply Byte.to_of_N. exact Hb.
  - apply Byte.of_N_None_iff in Hb. lia.
Qed.

Ltac Zify.zify_post_hook ::= Z.to_euclidean_division_equations.

Lemma be_value_rev_bytes_le (fuel : nat) :
  forall n : N, (n < 2 ^ N.of_nat fuel)%N ->
    be_value (rev (bytes_le fuel n)) = n.
Proof.
  induction fuel as [|fuel IH]; intros n Hn.
  - simpl in *. change (2 ^ 0)%N with 1%N in Hn.
    assert (n = 0%N) by lia. subst n. reflexivity.
  - cbn [bytes_le]. destruct (N.eqb_spec n 0) as [->|Hnz]; [reflexivity|].
    cbn [rev]. rewrite be_value_snoc.
    change (default Byte.x00 (Byte.of_N (n mod 256))) with (byte_of (n mod 256)).
    rewrite to_N_byte_of by lia.
    rewrite IH; [lia|].
    rewrite Nat2N.inj_succ, N.pow_succ_r' in Hn. lia.
Qed.

Lemma length_bytes_le (fuel : nat) :
  forall (n : N) (k : nat), (n < 256 ^ N.of_nat k)%N ->
    (length (bytes_le fuel n) <= k)%nat.
Proof.
  induction fuel as [|fuel IH]; intros n k Hn; [simpl; lia|].
  cbn [bytes_le]. destruct (N.eqb_spec n 0) as [->|Hnz]; [simpl; lia|].
  destruct k as [|k].
  - change (256 ^ N.of_nat 0)%N with 1%N in Hn. lia.
  - cbn [length]. apply le_n_S. apply IH.
    rewrite Nat2N.inj_succ, N.pow_succ_r' in Hn. lia.
Qed.

Ltac Zify.zify_post_hook ::= idtac.

(** [Bytes] of a number that is not negative denotes that number, in no
    more bytes than the number needs. *)
Lemma big_Bytes_value (x : Z) : 0 <= x -> be_value (big_Bytes x) = Z.to_N x.
Proof.
  intros Hx. unfold big_Bytes. rewrite be_value_rev_bytes_le.
  - destruct x; try reflexivity. lia.
  - rewrite N2Nat.id. apply N.size_gt.
Qed.

Lemma big_Bytes_length (x : Z) (k : nat) :
  Z.abs x < 256 ^ Z.of_nat k -> (length (big_Bytes x) <= k)%nat.
Proof.
  intros Hx. unfold big_Bytes. rewrite length_rev. apply length_bytes_le.
  apply N2Z.inj_lt. rewrite N2Z.inj_abs_N, N2Z.inj_pow, nat_N_Z. exact Hx.
Qed.

(** ** The JWK encoder *)

(** A number below 2^bits, written as the encoder writes a coordinate: the
    text decodes to exactly ceil(bits/8) bytes that denote the number. *)
Lemma coordinate_text (curve : Curve) (v : Z) :
  curve <> P224 ->
  0 <= v < 2 ^ elliptic_BitSize curve ->
  exists bytes,
    base64url_decode
      (base64Url (padLeft (big_Bytes v) ((elliptic_BitSize curve + 7) / 8))) =
      Some bytes /\
    Z.of_nat (length bytes) = (elliptic_BitSize curve + 7) / 8 /\
    be_value bytes = Z.to_N v.
Proof.
  intros Hcurve Hv.
  exists (padLeft (big_Bytes v) ((elliptic_BitSize curve + 7) / 8)).
  split; [apply base64url_decode_encode|].
  rewrite padLeft_zeros, be_value_zeros, length_app, length_replicate.
  split; [|apply big_Bytes_value; lia].
  assert (Hk : exists k : nat,
             (elliptic_BitSize curve + 7) / 8 = Z.of_nat k /\
             2 ^ elliptic_BitSize curve <= 256 ^ Z.of_nat k).
  { destruct curve; [contradiction| exists 32%nat | exists 48%nat | exists 66%nat];
      (split; [reflexivity | vm_compute; discriminate]). }
  destruct Hk as [k [Hk Hpow]]. rewrite Hk.
  assert (Hl : (length (big_Bytes v) <= k)%nat) by (apply big_Bytes_length; lia).
  lia.
Qed.

Section JWKProperties.
Context `{!Json}.

(** X3.  The public JWK of an EC key on P-256, P-384 or P-521 whose
    coordinates are below 2^BitSize: kty "EC", the curve's name, and x and y
    as texts that decode to exactly ceil(BitSize/8) bytes denoting the
    coordinates; no other member is set. *)
Theorem ec_public_jwk_round_trip (pub : ecdsa_PublicKey) :
  ec_Curve pub <> P224 ->
  0 <= ec_X pub < 2 ^ elliptic_BitSize (ec_Curve pub) ->
  0 <= ec_Y pub < 2 ^ elliptic_BitSize (ec_Curve pub) ->
  exists xt yt xb yb,
    jwk_EncodePublic (ecdsaPublicKey (Some pub)) =
      Returned (json_Marshal
        {| jwk_Kty := "EC"; jwk_Use := "sig"; jwk_Kid := "";
           jwk_N := None; jwk_E := None; jwk_D := None; jwk_P := None;
           jwk_Q := None; jwk_Crv := Some (curveName (ec_Curve pub));
           jwk_X := Some xt; jwk_Y := Some yt |}) /\
    validCurves !! curveName (ec_Curve pub) = Some true /\
    base64url_decode xt = Some xb /\ base64url_decode yt = Some yb /\
    Z.of_nat (length xb) = (elliptic_BitSize (ec_Curve pub) + 7) / 8 /\
    Z.of_nat (length yb) = (elliptic_BitSize (ec_Curve pub) + 7) / 8 /\
    be_value xb = Z.to_N (ec_X pub) /\ be_value yb = Z.to_N (ec_Y pub).
Proof.
  intros Hcurve Hx Hy.
  destruct (coordinate_text (ec_Curve pub) (ec_X pub) Hcurve Hx) as [xb [Hxd [Hxl Hxv]]].
  destruct (coordinate_text (ec_Curve pub) (ec_Y pub) Hcurve Hy) as [yb [Hyd [Hyl Hyv]]].
  eexists _, _, xb, yb.
  split; [|split; [|repeat split; eassumption]].
  - unfold jwk_EncodePublic, encodeECPublicJWK.
    destruct (decide (curveName (ec_Curve pub) = "")) as [Hname|_]; [|reflexivity].
    destruct (ec_Curve pub); [contradiction | discriminate..].
  - destruct (ec_Curve pub); [contradiction | reflexivity..].
Qed.

(** X4.  The private JWK of such a key adds d, the private scalar read from
    its cell, in the same fixed width; a nil key pointer or a nil scalar
    makes the encoder panic. *)
Theorem ec_private_jwk_round_trip (h : Heap) (priv : ecdsa_PrivateKey) :
  let pub := ec_PublicKey priv in
  ec_Curve pub <> P224 ->
  0 <= ec_X pub < 2 ^ elliptic_BitSize (ec_Curve pub) ->
  0 <= ec_Y pub < 2 ^ elliptic_BitSize (ec_Curve pub) ->
  (forall dcell,
     ec_D priv = Some dcell ->
     0 <= readBigInt h dcell < 2 ^ elliptic_BitSize (ec_Curve pub) ->
     exists xt yt dt db,
       jwk_EncodePrivate h (ecdsaPrivateKey (Some priv)) =
         Returned (json_Marshal
           {| jwk_Kty := "EC"; jwk_Use := "sig"; jwk_Kid := "";
              jwk_N := None; jwk_E := None; jwk_D := Some dt; jwk_P := None;
              jwk_Q := None; jwk_Crv := Some (curveName (ec_Curve pub));
              jwk_X := Some xt; jwk_Y := Some yt |}) /\
       base64url_decode dt = Some db /\
       Z.of_nat (length db) = (elliptic_BitSize (ec_Curve pub) + 7) / 8 /\
       be_value db = Z.to_N (readBigInt h dcell)) /\
  (ec_D priv = None ->
   jwk_EncodePrivate h (ecdsaPrivateKey (Some priv)) = Panicked) /\
  jwk_EncodePrivate h (ecdsaPrivateKey None) = Panicked.
Proof.
  intros pub Hcurve Hx Hy.
  assert (Hname : curveName (ec_Curve pub) <> "").
  { destruct (ec_Curve pub); [contradiction | discriminate..]. }
  split; [|split; [|reflexivity]].
  - intros dcell Hd Hrange.
    destruct (coordinate_text (ec_Curve pub) (readBigInt h dcell) Hcurve Hrange)
      as [db [Hdd [Hdl Hdv]]].
    eexists _, _, _, db. split; [|repeat split; eassumption].
    unfold jwk_EncodePrivate, encodeECPrivateJWK. fold pub.
    destruct (decide (curveName (ec_Curve pub) = "")); [contradiction|].
    rewrite Hd. reflexivity.
  - intros Hd. unfold jwk_EncodePrivate, encodeECPrivateJWK. fold pub.
    destruct (decide (curveName (ec_Curve pub) = "")); [contradiction|].
    rewrite Hd. reflexivity.
Qed.


(** A number that is not negative, written as the encoder writes an RSA
    member: the text decodes to bytes that denote the number. *)
Lemma member_text (v : Z) :
  0 <= v ->
  exists bytes,
    base64url_decode (base64Url (big_Bytes v)) = Some bytes /\
    be_value bytes = Z.to_N v.
Proof.
  intros Hv. exists (big_Bytes v).
  split; [apply base64url_decode_encode | apply big_Bytes_value; exact Hv].
Qed.

(** X6.  The private JWK of an RSA key: n, e and d are texts that decode to
    the modulus, the public exponent and the private exponent read from its
    cell; p and q are set, from the first two primes, exactly when the key
    has at least two primes. *)
Theorem rsa_private_jwk_round_trip (h : Heap) (priv : rsa_PrivateKey) (dcell : loc) :
  rsa_D priv = Some dcell ->
  0 <= rsa_N (rsa_PublicKey_ priv) ->
  0 <= rsa_E (rsa_PublicKey_ priv) ->
  0 <= readBigInt h dcell ->
  (forall c, Some c ∈ rsa_Primes priv -> 0 <= readBigInt h c) ->
  (forall p0 p1 rest, rsa_Primes priv = p0 :: p1 :: rest -> p0 <> None /\ p1 <> None) ->
  exists j nb eb db,
    jwk_EncodePrivate h (rsaPrivateKey (Some priv)) = Returned (json_Marshal j) /\
    jwk_Kty j = "RSA" /\
    (jwk_N j ≫= base64url_decode) = Some nb /\
    (jwk_E j ≫= base64url_decode) = Some eb /\
    (jwk_D j ≫= base64url_decode) = Some db /\
    be_value nb = Z.to_N (rsa_N (rsa_PublicKey_ priv)) /\
    be_value eb = Z.to_N (rsa_E (rsa_PublicKey_ priv)) /\
    be_value db = Z.to_N (readBigInt h dcell) /\
    match rsa_Primes priv with
    | Some pc :: Some qc :: _ =>
        exists pb qb,
          (jwk_P j ≫= base64url_decode) = Some pb /\
          (jwk_Q j ≫= base64url_decode) = Some qb /\
          be_value pb = Z.to_N (readBigInt h pc) /\
          be_value qb = Z.to_N (readBigInt h qc)
    | _ => jwk_P j = None /\ jwk_Q j = None
    end.
Proof.
  intros Hd Hn He Hdv Hprimes Hnonnil.
  destruct (member_text _ Hn) as [nb [Hnd Hnv]].
  destruct (member_text _ He) as [eb [Hed Hev]].
  destruct (member_text _ Hdv) as [db [Hdd Hdv']].
  unfold jwk_EncodePrivate, encodeRSAPrivateJWK. rewrite Hd.
  destruct (rsa_Primes priv) as [|p0 [|p1 rest]] eqn:Hps.
  - eexists _, nb, eb, db. split; [reflexivity|]. simpl. repeat split; assumption.
  - eexists _, nb, eb, db. split; [reflexivity|]. simpl.
    destruct p0; repeat split; assumption.
  - destruct (Hnonnil p0 p1 rest eq_refl) as [H0 H1].
    destruct p0 as [pc|]; [|contradiction]. destruct p1 as [qc|]; [|contradiction].
    assert (Hpv : 0 <= readBigInt h pc).
    { apply Hprimes. apply list_elem_of_here. }
    assert (Hqv : 0 <= readBigInt h qc).
    { apply Hprimes. apply list_elem_of_further, list_elem_of_here. }
    destruct (member_text _ Hpv) as [pb [Hpd Hpv']].
    destruct (member_text _ Hqv) as [qb [Hqd Hqv']].
    eexists _, nb, eb, db. split; [reflexivity|]. simpl.
    repeat split; try assumption. exists pb, qb. repeat split; assumption.
Qed.

End JWKProperties.

(** The P-256 key (5, 7) with scalar 11: x, y and d are 32 bytes each. *)
Lemma ec_public_jwk_round_trip_witness :
  exists xt yt xb yb,
    jwk_EncodePublic (ecdsaPublicKey (Some jwkstandin.ecPublic)) =
      Returned (json_Marshal
        {| jwk_Kty := "EC"; jwk_Use := "sig"; jwk_Kid := "";
           jwk_N := None; jwk_E := None; jwk_D := None; jwk_P := None;
           jwk_Q := None; jwk_Crv := Some "P-256";
           jwk_X := Some xt; jwk_Y := Some yt |}) /\
    validCurves !! "P-256" = Some true /\
    base64url_decode xt = Some xb /\ base64url_decode yt = Some yb /\
    Z.of_nat (length xb) = 32 /\ Z.of_nat (length yb) = 32 /\
    be_value xb = 5%N /\ be_value yb = 7%N.
Proof.
  apply (@ec_public_jwk_round_trip jwkstandin.json jwkstandin.ecPublic);
    simpl; [discriminate | lia | lia].
Defined.

Lemma ec_private_jwk_round_trip_witness :
  (forall dcell,
     Some 1%positive = Some dcell ->
     0 <= readBigInt jwkstandin.store dcell < 2 ^ 256 ->
     exists xt yt dt db,
       jwk_EncodePrivate jwkstandin.store (ecdsaPrivateKey (Some jwkstandin.ecKey)) =
         Returned (json_Marshal
           {| jwk_Kty := "EC"; jwk_Use := "sig"; jwk_Kid := "";
              jwk_N := None; jwk_E := None; jwk_D := Some dt; jwk_P := None;
              jwk_Q := None; jwk_Crv := Some "P-256";
              jwk_X := Some xt; jwk_Y := Some yt |}) /\
       base64url_decode dt = Some db /\
       Z.of_nat (length db) = 32 /\
       be_value db = Z.to_N (readBigInt jwkstandin.store dcell)) /\
  (Some 1%positive = None ->
   jwk_EncodePrivate jwkstandin.store (ecdsaPrivateKey (Some jwkstandin.ecKey)) = Panicked) /\
  jwk_EncodePrivate jwkstandin.store (ecdsaPrivateKey None) = Panicked.
Proof.
  apply (@ec_private_jwk_round_trip jwkstandin.json jwkstandin.store jwkstandin.ecKey);
    simpl; [discriminate | lia | lia].
Defined.

(** The RSA key with modulus 15, exponents 3 and 11, primes 3 and 5. *)
Lemma rsa_private_jwk_round_trip_witness :
  exists j nb eb db,
    jwk_EncodePrivate jwkstandin.store (rsaPrivateKey (Some jwkstandin.rsaKey)) =
      Returned (json_Marshal j) /\
    jwk_Kty j = "RSA" /\
    (jwk_N j ≫= base64url_decode) = Some nb /\
    (jwk_E j ≫= base64url_decode) = Some eb /\
    (jwk_D j ≫= base64url_decode) = Some db /\
    be_value nb = 15%N /\ be_value eb = 3%N /\ be_value db = 11%N /\
    exists pb qb,
      (jwk_P j ≫= base64url_decode) = Some pb /\
      (jwk_Q j ≫= base64url_decode) = Some qb /\
      be_value pb = 3%N /\ be_value qb = 5%N.
Proof.
  apply (@rsa_private_jwk_round_trip jwkstandin.json jwkstandin.store
           jwkstandin.rsaKey 1%positive).
  - reflexivity.
  - simpl; lia.
  - simpl; lia.
  - vm_compute; discriminate.
  - intros c Hc. simpl in Hc.
    apply elem_of_cons in Hc as [Hc|Hc]; [injection Hc as ->; vm_compute; discriminate|].
    apply elem_of_cons in Hc as [Hc|Hc]; [injection Hc as ->; vm_compute; discriminate|].
    apply not_elem_of_nil in Hc. destruct Hc.
  - intros p0 p1 rest Hps. injection Hps as <- <- _. split; discriminate.
Defined.


(** ** Rotation policy *)

Ltac Zify.zify_post_hook ::= Z.to_euclidean_division_equations.

Lemma wrap64_small (z : Z) : - 2 ^ 63 <= z < 2 ^ 63 -> validation.wrap64 z = z.
Proof. unfold validation.wrap64. lia. Qed.

Lemma wrap64_once (z : Z) :
  2 ^ 63 <= z < 3 * 2 ^ 63 -> validation.wrap64 z = z - 2 ^ 64.
Proof. unfold validation.wrap64. lia. Qed.

Ltac Zify.zify_post_hook ::= idtac.

(** X7.  When three grace periods fit into 64 bits, a rotation policy is
    accepted exactly when the grace period is at least five minutes and the
    interval at least three grace periods; an accepted interval is then at
    least fifteen minutes, so never zero. *)
Theorem ValidateRotationPolicy_without_overflow (interval gracePeriod : time.Duration) :
  3 * gracePeriod < 2 ^ 63 ->
  (validation.ValidateRotationPolicy interval gracePeriod = None <->
   5 * time.Minute <= gracePeriod /\ 3 * gracePeriod <= interval) /\
  (validation.ValidateRotationPolicy interval gracePeriod = None ->
   15 * time.Minute <= interval).
Proof.
  intros Hfit.
  assert (Hiff : validation.ValidateRotationPolicy interval gracePeriod = None <->
                 5 * time.Minute <= gracePeriod /\ 3 * gracePeriod <= interval).
  { unfold validation.ValidateRotationPolicy, validation.MinGracePeriod,
      validation.MinIntervalToGraceRatio.
    destruct (Z.ltb_spec gracePeriod (5 * time.Minute)) as [Hlow|Hok].
    - split; [discriminate | lia].
    - rewrite wrap64_small.
      + destruct (Z.ltb_spec interval (3 * gracePeriod)); split;
          try discriminate; try reflexivity; lia.
      + unfold time.Minute, time.Second in Hok. lia. }
  split; [exact Hiff|].
  intros Hacc. apply Hiff in Hacc. lia.
Qed.

(** X8.  A grace period whose triple no longer fits into 64 bits wraps
    around: the minimum enforced on the interval is three grace periods
    minus 2^64, which is less than one grace period and negative for grace
    periods below 2^64/3 nanoseconds. *)
Theorem ValidateRotationPolicy_wraps_around (interval gracePeriod : time.Duration) :
  gracePeriod < 2 ^ 63 ->
  2 ^ 63 <= 3 * gracePeriod ->
  (validation.ValidateRotationPolicy interval gracePeriod = None <->
   3 * gracePeriod - 2 ^ 64 <= interval) /\
  3 * gracePeriod - 2 ^ 64 < gracePeriod /\
  (3 * gracePeriod < 2 ^ 64 -> 0 <= interval ->
   validation.ValidateRotationPolicy interval gracePeriod = None).
Proof.
  intros Hrange Hbig.
  assert (Hiff : validation.ValidateRotationPolicy interval gracePeriod = None <->
                 3 * gracePeriod - 2 ^ 64 <= interval).
  { unfold validation.ValidateRotationPolicy, validation.MinGracePeriod,
      validation.MinIntervalToGraceRatio.
    destruct (Z.ltb_spec gracePeriod (5 * time.Minute)) as [Hlow|Hok].
    - unfold time.Minute, time.Second in Hlow. lia.
    - rewrite wrap64_once by lia.
      destruct (Z.ltb_spec interval (3 * gracePeriod - 2 ^ 64)); split;
        try discriminate; try reflexivity; lia. }
  split; [exact Hiff|]. split; [lia|].
  intros Hneg Hpos. apply Hiff. lia.
Qed.

(** A day's interval with a two-hour grace period. *)
Lemma ValidateRotationPolicy_without_overflow_witness :
  (validation.ValidateRotationPolicy (24 * time.Hour) (2 * time.Hour) = None <->
   5 * time.Minute <= 2 * time.Hour /\ 3 * (2 * time.Hour) <= 24 * time.Hour) /\
  (validation.ValidateRotationPolicy (24 * time.Hour) (2 * time.Hour) = None ->
   15 * time.Minute <= 24 * time.Hour).
Proof.
  apply (ValidateRotationPolicy_without_overflow (24 * time.Hour) (2 * time.Hour)).
  vm_compute. reflexivity.
Defined.

(** A grace period of a million hours with an interval of one second. *)
Lemma ValidateRotationPolicy_wraps_around_witness :
  validation.ValidateRotationPolicy time.Second (1000000 * time.Hour) = None.
Proof.
  apply (ValidateRotationPolicy_wraps_around time.Second (1000000 * time.Hour));
    vm_compute; try reflexivity; discriminate.
Defined.

(** ** The admission webhook *)

(** The warnings for the targets from index [i] on are those of the
    insecure HTTP targets, each with its own index. *)
Lemma tlsWarnings_elem (targets : list v1alpha1.PublishTarget) :
  forall (i : Z) (w : gostring),
    w ∈ tlsWarnings i targets <->
    exists (k : nat) (t : v1alpha1.PublishTarget) (tls : v1alpha1.TLSConfig),
      targets !! k = Some t /\ v1alpha1.Type_ t = "http" /\
      v1alpha1.TLS t = Some tls /\ v1alpha1.InsecureSkipVerify tls = true /\
      w = Sprintf "publish[%d]: insecureSkipVerify=true disables TLS verification — not recommended for production"
            [AInt (i + Z.of_nat k)].
Proof.
  induction targets as [|t rest IH]; intros i w; simpl.
  - split; [intros Hin; apply not_elem_of_nil in Hin; destruct Hin|].
    intros [k [t [tls [Hk _]]]]. discriminate Hk.
  - assert (Hrest :
      w ∈ tlsWarnings (i + 1) rest <->
      exists (k : nat) (t' : v1alpha1.PublishTarget) (tls : v1alpha1.TLSConfig),
        (t :: rest) !! S k = Some t' /\ v1alpha1.Type_ t' = "http" /\
        v1alpha1.TLS t' = Some tls /\ v1alpha1.InsecureSkipVerify tls = true /\
        w = Sprintf "publish[%d]: insecureSkipVerify=true disables TLS verification — not recommended for production"
              [AInt (i + Z.of_nat (S k))]).
    { rewrite IH. split; intros [k [t' [tls [Hk [Hty [Htls [Hins Hw]]]]]]];
        exists k, t', tls; repeat split; try assumption;
        (rewrite Hw; do 3 f_equal; lia). }
    case_bool_decide as Hty; simpl.
    + destruct (v1alpha1.TLS t) as [tls|] eqn:Htls;
        [destruct (v1alpha1.InsecureSkipVerify tls) eqn:Hins|].
      * rewrite elem_of_cons, Hrest. split.
        -- intros [-> | [k Hk]]; [|exists (S k); exact Hk].
           exists 0%nat, t, tls. repeat split; try assumption.
           do 3 f_equal. lia.
        -- intros [[|k] [t' [tls' [Hk [Hty' [Htls' [Hins' Hw]]]]]]].
           ++ left. rewrite Hw. do 3 f_equal. lia.
           ++ right. exists k, t', tls'. repeat split; assumption.
      * rewrite Hrest. split.
        -- intros [k Hk]. exists (S k). exact Hk.
        -- intros [[|k] [t' [tls' [Hk [Hty' [Htls' [Hins' Hw]]]]]]].
           ++ injection Hk as <-. congruence.
           ++ exists k, t', tls'. repeat split; assumption.
      * rewrite Hrest. split.
        -- intros [k Hk]. exists (S k). exact Hk.
        -- intros [[|k] [t' [tls' [Hk [Hty' [Htls' [Hins' Hw]]]]]]].
           ++ injection Hk as <-. congruence.
           ++ exists k, t', tls'. repeat split; assumption.
    + rewrite Hrest. split.
      * intros [k Hk]. exists (S k). exact Hk.
      * intros [[|k] [t' [tls' [Hk [Hty' [Htls' [Hins' Hw]]]]]]].
        -- injection Hk as <-. congruence.
        -- exists k, t', tls'. repeat split; assumption.
Qed.

(** X9.  A profile the validator rejects gets no warnings.  On one it
    accepts, the warnings are those of the key spec followed by the TLS
    warnings: a warning is among them exactly when it names the index, in
    spec.publish, of an HTTP target that sets insecureSkipVerify; targets of
    other types and targets without a TLS block never warn. *)
Theorem validateKeyProfile_warnings (kp : v1alpha1.KeyProfile) :
  let ks := v1alpha1.KeySpec_ (v1alpha1.Spec kp) in
  (accepted (validateKeyProfile kp) = false -> warnings (validateKeyProfile kp) = []) /\
  (accepted (validateKeyProfile kp) = true ->
   exists tls,
     warnings (validateKeyProfile kp) =
       warnings (ValidateKeySpec (v1alpha1.Algorithm ks) (v1alpha1.Params ks)
                   (v1alpha1.AllowLegacyKeySize ks)) ++ tls /\
     forall w,
       w ∈ tls <->
       exists (k : nat) (t : v1alpha1.PublishTarget) (c : v1alpha1.TLSConfig),
         v1alpha1.Publish (v1alpha1.Spec kp) !! k = Some t /\
         v1alpha1.Type_ t = "http" /\ v1alpha1.TLS t = Some c /\
         v1alpha1.InsecureSkipVerify c = true /\
         w = Sprintf "publish[%d]: insecureSkipVerify=true disables TLS verification — not recommended for production"
               [AInt (Z.of_nat k)]).
Proof.
  intros ks. unfold validateKeyProfile, accepted, warnings. fold ks.
  destruct (validation.ValidateNamespaceMatch _ _); [split; [reflexivity|discriminate]|].
  destruct (validation.ValidateRotationPolicy _ _); [split; [reflexivity|discriminate]|].
  destruct (ValidateKeySpec _ _ _) as [ws [err|]]; simpl;
    [split; [reflexivity|discriminate]|].
  split; [discriminate|]. intros _.
  exists (tlsWarnings 0 (v1alpha1.Publish (v1alpha1.Spec kp))).
  split; [reflexivity|]. intros w. apply tlsWarnings_elem.
Qed.

(** Defaulting touches the encoding and the output format only, which the
    validator does not read. *)
Lemma validateKeyProfile_set_Encoding (e : string) (kp : v1alpha1.KeyProfile) :
  validateKeyProfile (set_Encoding e kp) = validateKeyProfile kp.
Proof. reflexivity. Qed.

Lemma validateKeyProfile_set_Format (f : string) (kp : v1alpha1.KeyProfile) :
  validateKeyProfile (set_Format f kp) = validateKeyProfile kp.
Proof. reflexivity. Qed.

(** ** Wiping what was generated *)

(** X11.  On a key pair whose private key is not a nil RSA pointer, [Wipe]
    returns; afterwards the struct holds no key and no buffer, the bytes of
    the old buffer are zero, the private scalar or exponent and the primes
    read zero, and a second [Wipe] changes nothing. *)
Theorem Wipe_erases_private_material (a : loc) (h : Heap) :
  PrivateKey_ (readKeyPair h a) <> rsaPrivateKey None ->
  exists h',
    Wipe (Some a) h = (Returned tt, h') /\
    readKeyPair h' a = wiped (readKeyPair h a) /\
    (forall b n,
       rawPrivateBytes (readKeyPair h a) = sliceOf b n ->
       sliceBytes h' (sliceOf b n) =
         replicate (length (sliceBytes h (sliceOf b n))) Byte.x00) /\
    (forall k d,
       PrivateKey_ (readKeyPair h a) = ecdsaPrivateKey (Some k) ->
       ec_D k = Some d -> readBigInt h' d = 0) /\
    (forall k d,
       PrivateKey_ (readKeyPair h a) = rsaPrivateKey (Some k) ->
       rsa_D k = Some d \/ Some d ∈ rsa_Primes k -> readBigInt h' d = 0) /\
    Wipe (Some a) h' = (Returned tt, h').
Proof.
  intros Hkey.
  destruct (Wipe (Some a) h) as [o h'] eqn:Hw.
  pose proof (Wipe_returns a h Hkey) as Hret. rewrite Hw in Hret. simpl in Hret.
  subst o. exists h'. split; [reflexivity|].
  pose proof (Wipe_zeroes_scalars a h h' Hw) as Hscalars.
  split; [|split; [|split; [|split]]].
  - unfold readKeyPair at 1. rewrite (Wipe_clears a h h' Hw). reflexivity.
  - intros b n Hraw. apply (Wipe_zeroes_buffer a b n h h' Hw Hraw).
  - intros k d Hk Hd. rewrite Hk in Hscalars. apply Hscalars. exact Hd.
  - intros k d Hk Hd. rewrite Hk in Hscalars. apply Hscalars. exact Hd.
  - apply (Wipe_idempotent (Some a) h h' Hw).
Qed.

(** An EC key pair with a three-byte buffer. *)
Lemma Wipe_erases_private_material_witness :
  let k := {| KeyID := "ec-P-256-20260101-0a1b2c";
              PrivateKey_ := ecdsaPrivateKey (Some jwkstandin.ecKey);
              PublicKey_ := ecdsaPublicKey (Some jwkstandin.ecPublic);
              Algorithm := "EC";
              CreatedAt := time.mkTime 1000;
              rawPrivateBytes := sliceOf 1%positive 3 |} in
  let h := writeKeyPair 1%positive k
             (writeBytes 1%positive [Byte.x30; Byte.x77; Byte.x02] jwkstandin.store) in
  exists h',
    Wipe (Some 1%positive) h = (Returned tt, h') /\
    readKeyPair h' 1%positive = wiped k /\
    sliceBytes h' (sliceOf 1%positive 3) = [Byte.x00; Byte.x00; Byte.x00] /\
    readBigInt h' 1%positive = 0.
Proof.
  intros k h.
  destruct (Wipe_erases_private_material 1%positive h) as [h' [Hw [Hk [Hb [Hd _]]]]].
  { discriminate. }
  exists h'. split; [exact Hw|]. split; [exact Hk|]. split.
  - apply (Hb 1%positive 3%nat). reflexivity.
  - apply (Hd jwkstandin.ecKey 1%positive); reflexivity.
Defined.

(** ** What [Generate] returns *)

Section GeneratedKeyPairs.
Context {W : Type} `{!Encodings} `{!Effects W}.

(** The cells of the primes: none is nil, and nothing but [big.Int] cells is
    added to the store. *)
Lemma allocPrimes_returns (ps : list Z) :
  forall s : State W,
  exists cells s',
    allocPrimes ps s = (Returned cells, s') /\
    Forall (fun c => c <> None) cells /\
    length cells = length ps /\
    keyPairs (heap s') = keyPairs (heap s) /\
    byteArrays (heap s') = byteArrays (heap s) /\
    world s' = world s /\ trace s' = trace s.
Proof.
  induction ps as [|p ps IH]; intros s.
  - exists [], s. repeat split; constructor.
  - cbn [allocPrimes]. unfold bind, onHeap, allocBigInt. simpl.
    destruct (IH (mkState (writeBigInt (fresh (dom (bigInts (heap s)))) p (heap s))
                    (world s) (trace s))) as [cells [s' [Hrun [Hall [Hlen [Hk [Hb [Hw Ht]]]]]]]].
    rewrite Hrun. unfold ret. eexists _, _. split; [reflexivity|].
    repeat split; try assumption.
    + constructor; [discriminate | exact Hall].
    + simpl. congruence.
Qed.

(** The key pair behind a successful [Generate]. *)
Lemma Generate_shape (opts : GenerateOptions) (s s' : State W) (kp : option loc) :
  Generate opts s = (Returned (Ok kp), s') ->
  exists a now random b,
    kp = Some a /\
    let k := readKeyPair (heap s') a in
    Algorithm k = opt_Algorithm opts /\
    CreatedAt k = now /\
    rawPrivateBytes k = sliceOf b (length (readBytes (heap s') b)) /\
    ((exists c priv d,
        opt_Algorithm opts = AlgorithmEC /\
        opt_Params opts !! "curve" = Some c /\
        parseCurve c = Ok (ec_Curve (ec_PublicKey priv)) /\
        PrivateKey_ k = ecdsaPrivateKey (Some priv) /\
        PublicKey_ k = ecdsaPublicKey (Some (ec_PublicKey priv)) /\
        ec_D priv = Some d /\
        KeyID k = "ec" +:+ "-" +:+ c +:+ "-" +:+ time_Format "20060102" random.1 +:+
                  "-" +:+ hex_EncodeToString random.2) \/
     (exists sz bits priv d,
        opt_Algorithm opts = AlgorithmRSA /\
        opt_Params opts !! "keySize" = Some sz /\
        strconv.Atoi sz = Ok bits /\
        (bits = 2048 \/ bits = 3072 \/ bits = 4096) /\
        PrivateKey_ k = rsaPrivateKey (Some priv) /\
        PublicKey_ k = rsaPublicKey (Some (rsa_PublicKey_ priv)) /\
        rsa_D priv = Some d /\
        Forall (fun c => c <> None) (rsa_Primes priv) /\
        KeyID k = "rsa" +:+ "-" +:+ sz +:+ "-" +:+ time_Format "20060102" random.1 +:+
                  "-" +:+ hex_EncodeToString random.2)).
Proof.
  unfold Generate.
  destruct ((ValidateKeySpec _ _ _).2) eqn:Hv; [discriminate|].
  unfold ValidateKeySpec in Hv.
  destruct (decide (opt_Algorithm opts = AlgorithmEC)) as [Hec|Hnec].
  - destruct (validateEC_accepted (opt_Params opts)) as [c [Hc Hvalid]].
    { unfold accepted. rewrite Hv. reflexivity. }
    unfold generateEC, call_ecdsa_GenerateKey, generateKeyID, allocKeyPair.
    rewrite Hc. simpl.
    destruct (parseCurve c) as [curve|] eqn:Hcurve; [|discriminate].
    unfold bind, ret, emit, onWorld, onHeap, getHeap. simpl.
    destruct (ecdsa_GenerateKey curve (world s)) as [[[[x y] d]|err] w1]; simpl;
      [|discriminate].
    destruct (x509_MarshalECPrivateKey _ _) as [der|err]; simpl; [|discriminate].
    destruct (rand_Read 3 w1) as [[random|err] w2]; simpl; [|discriminate].
    destruct (time_Now w2) as [date w3]; simpl.
    destruct (time_Now w3) as [now w4]; simpl.
    intros Hgen. injection Hgen as <- <-. simpl.
    eexists _, now, (date, random), _. split; [reflexivity|].
    rewrite readKeyPair_writeKeyPair. simpl.
    split; [symmetry; exact Hec|]. split; [reflexivity|]. split.
    { unfold readBytes. simpl. rewrite lookup_insert_eq. reflexivity. }
    left. eexists c, _, _. repeat split; try reflexivity; try assumption.
  - destruct (decide (opt_Algorithm opts = AlgorithmRSA)) as [Hrsa|Hnrsa]; [|discriminate].
    destruct (validateRSA_accepted (opt_Params opts) (opt_AllowLegacyKeySize opts))
      as [sz [bits [Hsz [Hatoi Hvalid]]]].
    { unfold accepted. rewrite Hv. reflexivity. }
    unfold generateRSA, call_rsa_GenerateKey, generateKeyID, allocKeyPair.
    rewrite Hsz. simpl. rewrite Hatoi.
    unfold bind, ret, emit, onWorld, onHeap, getHeap. simpl.
    destruct (rsa_GenerateKey bits (world s)) as [[[[[n e] d] ps]|err] w1]; simpl;
      [|discriminate].
    match goal with |- context [allocPrimes ps ?st] =>
      destruct (allocPrimes_returns ps st)
        as [cells [s1 [Hrun [Hall [Hlen [Hk [Hb [Hw Ht]]]]]]]] end.
    rewrite Hrun. simpl.
    destruct (rand_Read 3 (world s1)) as [[random|err] w2]; simpl; [|discriminate].
    destruct (time_Now w2) as [date w3]; simpl.
    destruct (time_Now w3) as [now w4]; simpl.
    intros Hgen. injection Hgen as <- <-. simpl.
    eexists _, now, (date, random), _. split; [reflexivity|].
    rewrite readKeyPair_writeKeyPair. simpl.
    split; [symmetry; exact Hrsa|]. split; [reflexivity|]. split.
    { unfold readBytes. simpl. rewrite lookup_insert_eq. reflexivity. }
    right. eexists sz, bits, _, _. repeat split; try reflexivity; try assumption.
Qed.

(** X12.  When [Generate] returns a key pair, the spec was valid, the
    pointer is not nil, and the key pair is complete: its algorithm is the
    requested one, the public key is the public half of the private key, the
    private numbers are not nil, the buffer spans its whole backing array,
    and the key ID is the lower-case algorithm, the curve or key size as
    written in the spec, a date and the hex of the random bytes, joined by
    hyphens. *)
Theorem Generate_returns_a_complete_key_pair (opts : GenerateOptions)
    (s s' : State W) (kp : option loc) :
  Generate opts s = (Returned (Ok kp), s') ->
  accepted (ValidateKeySpec (opt_Algorithm opts) (opt_Params opts)
              (opt_AllowLegacyKeySize opts)) = true /\
  exists a now random b,
    kp = Some a /\
    let k := readKeyPair (heap s') a in
    Algorithm k = opt_Algorithm opts /\
    CreatedAt k = now /\
    rawPrivateBytes k = sliceOf b (length (readBytes (heap s') b)) /\
    ((exists c priv d,
        opt_Algorithm opts = AlgorithmEC /\
        opt_Params opts !! "curve" = Some c /\
        parseCurve c = Ok (ec_Curve (ec_PublicKey priv)) /\
        PrivateKey_ k = ecdsaPrivateKey (Some priv) /\
        PublicKey_ k = ecdsaPublicKey (Some (ec_PublicKey priv)) /\
        ec_D priv = Some d /\
        KeyID k = "ec" +:+ "-" +:+ c +:+ "-" +:+ time_Format "20060102" random.1 +:+
                  "-" +:+ hex_EncodeToString random.2) \/
     (exists sz bits priv d,
        opt_Algorithm opts = AlgorithmRSA /\
        opt_Params opts !! "keySize" = Some sz /\
        strconv.Atoi sz = Ok bits /\
        (bits = 2048 \/ bits = 3072 \/ bits = 4096) /\
        PrivateKey_ k = rsaPrivateKey (Some priv) /\
        PublicKey_ k = rsaPublicKey (Some (rsa_PublicKey_ priv)) /\
        rsa_D priv = Some d /\
        Forall (fun c => c <> None) (rsa_Primes priv) /\
        KeyID k = "rsa" +:+ "-" +:+ sz +:+ "-" +:+ time_Format "20060102" random.1 +:+
                  "-" +:+ hex_EncodeToString random.2)).
Proof.
  intros Hgen. split; [|exact (Generate_shape opts s s' kp Hgen)].
  unfold Generate in Hgen. unfold accepted.
  destruct ((ValidateKeySpec _ _ _).2); [discriminate Hgen | reflexivity].
Qed.


End GeneratedKeyPairs.

(** An RSA-3072 spec under the stand-in libraries. *)
Lemma Generate_returns_a_complete_key_pair_witness :
  let opts := {| opt_Algorithm := "RSA"; opt_Params := {[ "keySize" := "3072" ]};
                 opt_AllowLegacyKeySize := false |} in
  accepted (ValidateKeySpec "RSA" {[ "keySize" := "3072" ]} false) = true /\
  exists a, (Generate opts (standin.state 0)).1 = Returned (Ok (Some a)) /\
    Algorithm (readKeyPair (heap (Generate opts (standin.state 0)).2) a) = "RSA" /\
    KeyID (readKeyPair (heap (Generate opts (standin.state 0)).2) a) =
      "rsa-3072-20260101-000000".
Proof.
  intros opts.
  assert (Hrun : Generate opts (standin.state 0) =
                 (Returned (Ok (Some 1%positive)), (Generate opts (standin.state 0)).2))
    by (vm_compute; reflexivity).
  destruct (Generate_returns_a_complete_key_pair opts (standin.state 0) _ _ Hrun)
    as [Hacc [a [now [random [b [Ha [Halg _]]]]]]].
  split; [exact Hacc|]. exists a. split; [rewrite Hrun, Ha; reflexivity|].
  split; [exact Halg|]. injection Ha as <-. vm_compute. reflexivity.
Defined.


(** ** Runs of [EnsureKey] *)

Section RotationRuns.
Context {W : Type} `{!Encodings} `{!Effects W}.

#[local] Arguments Wipe : simpl never.
#[local] Arguments ComputeFingerprint : simpl never.
#[local] Arguments calculateNextRotation : simpl never.

(** X14.  Whenever the generator handed [EnsureKey] a key pair, the last
    thing the run does is [Wipe] on that key pair, whether it returns or
    panics, and the store it leaves is the one that [Wipe] left from the
    generator's store; nothing else is ever wiped. *)
Theorem EnsureKey_wipes_what_it_generated (m : manager W)
    (profile : v1alpha1.KeyProfile) (s : State W) :
  exists evs,
    trace (EnsureKey m profile s).2 = trace s ++ evs /\
    (forall opts kp,
       EvGenerate opts (Ok kp) ∈ evs ->
       last evs = Some (EvWipe kp) /\
       exists w h1 w1,
         keygen m opts (heap s) w = (Returned (Ok kp), h1, w1) /\
         heap (EnsureKey m profile s).2 = (Wipe kp h1).2) /\
    (forall kp, EvWipe kp ∈ evs -> exists opts, EvGenerate opts (Ok kp) ∈ evs).
Proof.
  destruct (EnsureKey m profile s) as [out s'] eqn:Hrun. simpl. revert Hrun.
  unfold EnsureKey, bind at 1.
  destruct (checkRotationNeeded_frame profile s) as [Hheap [Htrace [d Hd]]].
  destruct (checkRotationNeeded profile s) as [o s0]. simpl in *. subst o.
  destruct d as [needs reason].
  unfold defer, call_Generate, call_PublishAll, call_Write, call_Wipe, derefTime.
  run_paths.
  all: intros Hrun; injection Hrun as <- <-; simpl.
  all: rewrite ?Htrace; rewrite <- ?app_assoc; simpl.
  all: first [ exists []; rewrite app_nil_r; split; [reflexivity|]
             | eexists; split; [reflexivity|] ].
  all: split.
  all: try (intros opts kp Hin;
            repeat (apply elem_of_cons in Hin; destruct Hin as [Hin|Hin];
                    [try discriminate Hin|]);
            try (apply elem_of_nil in Hin; contradiction)).
  all: try (intros kp Hin;
            repeat (apply elem_of_cons in Hin; destruct Hin as [Hin|Hin];
                    [try discriminate Hin|]);
            try (apply elem_of_nil in Hin; contradiction)).
  all: try (injection Hin; intros; subst; split; [reflexivity|];
            eexists _, _, _; split; [rewrite <- Hheap; eassumption|];
            try match goal with Hw : Wipe _ _ = _ |- _ => rewrite Hw end;
            reflexivity).
  all: injection Hin; intros; subst; eexists;
       apply list_elem_of_further, list_elem_of_here.
Qed.



End RotationRuns.

(** ** The renderer *)

Section RenderProperties.
Context {W : Type} `{!Encodings} `{!Effects W}.

(** X16.  A bundle that [Render] returns is one of three: for split-pem the
    private key under tls.key and the PEM of the bare public key under both
    tls.crt and public.pem; for single-pem the two PEM blocks, private
    first, under keypair.pem; for jks, with a password, one entry
    keystore.jks.  The two PEM formats leave the store, the world and the
    trace as they were. *)
Theorem Render_bundles (kp : option loc) (opts : RenderOptions)
    (s s' : State W) (bundle : gmap string (list Byte.byte)) :
  Render kp opts s = (Returned (Ok bundle), s') ->
  exists a privDER pubDER,
    kp = Some a /\
    x509_MarshalPKCS8PrivateKey (heap s) (PrivateKey_ (readKeyPair (heap s) a)) =
      Ok privDER /\
    x509_MarshalPKIXPublicKey (PublicKey_ (readKeyPair (heap s) a)) = Ok pubDER /\
    let privPEM := pem_EncodeToMemory "PRIVATE KEY" privDER in
    let pubPEM := pem_EncodeToMemory "PUBLIC KEY" pubDER in
    ((Format opts = FormatSplitPEM /\ s' = s /\
      bundle = {[ "tls.key" := privPEM; "tls.crt" := pubPEM; "public.pem" := pubPEM ]}) \/
     (Format opts = FormatSinglePEM /\ s' = s /\
      bundle = {[ "keypair.pem" := privPEM ++ pubPEM ]}) \/
     (Format opts = FormatJKS /\ Password opts <> "" /\
      exists buf, bundle = {[ "keystore.jks" := buf ]})).
Proof.
  destruct kp as [a|]; [|discriminate].
  unfold Render. simpl.
  unfold bind, ret, getHeap, liftOutcome. simpl.
  destruct (x509_MarshalPKCS8PrivateKey _ _) as [privDER|err] eqn:Hpriv; simpl;
    [|discriminate].
  destruct (x509_MarshalPKIXPublicKey _) as [pubDER|err] eqn:Hpub; simpl;
    [|discriminate].
  intros Hrun. exists a, privDER, pubDER.
  split; [reflexivity|]. split; [exact Hpriv|]. split; [exact Hpub|]. cbv zeta.
  destruct (decide (Format opts = FormatSplitPEM)) as [Hsplit|Hnsplit].
  { injection Hrun as <- <-. left. auto. }
  destruct (decide (Format opts = FormatSinglePEM)) as [Hsingle|Hnsingle].
  { injection Hrun as <- <-. right; left. auto. }
  destruct (decide (Format opts = FormatJKS)) as [Hjks|Hnjks]; [|discriminate Hrun].
  right; right. split; [exact Hjks|].
  revert Hrun. unfold renderJKS.
  destruct (decide (Password opts = "")) as [Hempty|Hpw]; [discriminate|].
  intros Hrun. split; [exact Hpw|]. revert Hrun.
  unfold generateSelfSignedCert.
  run_paths; intros Hrun; try discriminate Hrun.
  all: try (injection Hrun as <- _; eexists; reflexivity).
Qed.

End RenderProperties.

(** An EC key pair rendered as split-pem under the stand-in libraries, whose
    PEM encoder leaves the DER as it is. *)
Lemma Render_bundles_witness :
  let k := {| KeyID := "ec-P-256-20260101-0a1b2c";
              PrivateKey_ := ecdsaPrivateKey (Some jwkstandin.ecKey);
              PublicKey_ := ecdsaPublicKey (Some jwkstandin.ecPublic);
              Algorithm := "EC";
              CreatedAt := time.mkTime 1000;
              rawPrivateBytes := nilSlice |} in
  let s := mkState (writeKeyPair 1%positive k jwkstandin.store) 0 [] in
  let opts := {| Format := "split-pem"; Password := ""; Alias := "" |} in
  (Render (Some 1%positive) opts s).2 = s /\
  (Render (Some 1%positive) opts s).1 =
    Returned (Ok {[ "tls.key" := [Byte.x30; Byte.x81];
                    "tls.crt" := [Byte.x30; Byte.x59];
                    "public.pem" := [Byte.x30; Byte.x59] ]}).
Proof.
  intros k s opts.
  assert (Hrun : Render (Some 1%positive) opts s =
                 (Returned (Ok {[ "tls.key" := [Byte.x30; Byte.x81];
                                  "tls.crt" := [Byte.x30; Byte.x59];
                                  "public.pem" := [Byte.x30; Byte.x59] ]}),
                  (Render (Some 1%positive) opts s).2))
    by (vm_compute; reflexivity).
  destruct (Render_bundles (Some 1%positive) opts s _ _ Hrun)
    as [a [privDER [pubDER [_ [_ [_ [[_ [Hs _]] | [[Hf _] | [Hf _]]]]]]]]];
    [|discriminate Hf|discriminate Hf].
  split; [exact Hs|]. rewrite Hrun. reflexivity.
Defined.

(** ** The publishers *)

Section PublisherProperties.
Context {W : Type} `{!Encodings} `{!Outside W}.

(** X17.  The HTTP publisher makes no call at all unless the target names
    an endpoint that starts with https:// or sets insecureSkipVerify, and
    the key pair is there and its public key encodes.  What it then sends
    is one POST to the endpoint whose body is the PEM of the public key,
    with the key ID in a header, through the publisher's client or, for a
    target with a TLS block, a client that requires TLS 1.2 and skips
    verification only if the target says so.  It returns nil only after the
    response was read, up to 1 MiB, and closed. *)
Theorem HTTPPublisher_sends_only_the_public_key (p_client : http_Client)
    (target : v1alpha1.PublishTarget) (kp : option loc) (s : State (Logged W)) :
  let run := HTTPPublisher_Publish p_client target kp s in
  exists calls,
    (world run.2).1 = (world s).1 ++ calls /\
    heap run.2 = heap s /\
    (calls = [] /\ run.1 <> Returned None \/
     exists a endpoint pubPEM httpClient,
       kp = Some a /\
       v1alpha1.Config target !! "endpoint" = Some endpoint /\
       (strings_HasPrefix endpoint "https://" = true \/
        exists tls, v1alpha1.TLS target = Some tls /\
                    v1alpha1.InsecureSkipVerify tls = true) /\
       EncodePublic pemEncoder (PublicKey_ (readKeyPair (heap s) a)) =
         Returned (Ok pubPEM) /\
       match v1alpha1.TLS target with
       | None => httpClient = p_client
       | Some tls =>
           httpClient =
             {| Transport :=
                  Some {| MinVersion := tls_VersionTLS12;
                          tls_InsecureSkipVerify := v1alpha1.InsecureSkipVerify tls |};
                Timeout := 10 * time.Second |}
       end /\
       let req :=
         {| req_Method := "POST"; req_URL := endpoint; req_Body := pubPEM;
            req_Header :=
              <["X-Key-ID" := KeyID (readKeyPair (heap s) a)]>
                (<["Content-Type" := "application/x-pem-file"]> ∅) |} in
       (calls = [CallDo httpClient req] /\ run.1 <> Returned None \/
        calls = [CallDo httpClient req; CallCopyBody maxResponseBody; CallCloseBody])).
Proof.
  intros run. subst run. unfold HTTPPublisher_Publish.
  destruct (decide _) as [Hmissing|Hpresent].
  { exists []. rewrite app_nil_r. simpl.
    split; [reflexivity|]. split; [reflexivity|]. left. split; [reflexivity|discriminate]. }
  destruct (v1alpha1.Config target !! "endpoint") as [endpoint|] eqn:Hendpoint;
    [|exfalso; apply Hpresent; left; reflexivity].
  simpl.
  destruct (negb (strings_HasPrefix endpoint "https://") && negb _) eqn:Hscheme.
  { exists []. rewrite app_nil_r. simpl.
    split; [reflexivity|]. split; [reflexivity|]. left. split; [reflexivity|discriminate]. }
  simpl.
  assert (Hok : strings_HasPrefix endpoint "https://" = true \/
                exists tls, v1alpha1.TLS target = Some tls /\
                            v1alpha1.InsecureSkipVerify tls = true).
  { apply andb_false_iff in Hscheme as [Hp|Hi].
    - left. apply negb_false_iff. exact Hp.
    - right. destruct (v1alpha1.TLS target) as [tls|]; [|discriminate Hi].
      exists tls. split; [reflexivity|]. apply negb_false_iff. exact Hi. }
  clear Hscheme.
  destruct kp as [a|].
  2:{ exists []. rewrite app_nil_r. simpl.
      split; [reflexivity|]. split; [reflexivity|]. left. split; [reflexivity|discriminate]. }
  unfold http_NewRequestWithContext, call, defer.
  run_paths.
  all: try (exists []; rewrite app_nil_r;
            split; [reflexivity|];
            split; [reflexivity|left; split; [reflexivity|discriminate]]).
  all: rewrite <- ?app_assoc; simpl.
  all: eexists; split; [reflexivity|]; split; [reflexivity|]; right.
  all: eexists a, endpoint, _, _.
  all: split; [reflexivity|]; split; [reflexivity|]; split; [exact Hok|].
  all: split; [match goal with
                | Hm : x509_MarshalPKIXPublicKey _ = Ok _ |- _ => rewrite Hm
                end; reflexivity|].
  all: split; [reflexivity|].
  all: first [ right; reflexivity
             | left; split; [reflexivity | discriminate] ].
Qed.


End PublisherProperties.

(** ** The secret writer *)

Section RenderWithoutPassword.
Context {W : Type} `{!Encodings} `{!Effects W}.

(** Without a password [Render] changes nothing, and it returns a bundle
    for the two PEM formats only. *)
Lemma Render_without_password (kp : option loc) (opts : RenderOptions) (s : State W) :
  Password opts = "" ->
  (Render kp opts s).2 = s /\
  (forall data, (Render kp opts s).1 = Returned (Ok data) ->
     Format opts = FormatSplitPEM \/ Format opts = FormatSinglePEM).
Proof.
  intros Hpw. destruct kp as [a|]; [|split; [reflexivity|discriminate]].
  unfold Render. simpl. unfold bind, ret, getHeap, liftOutcome. simpl.
  destruct (x509_MarshalPKCS8PrivateKey _ _); simpl; [|split; [reflexivity|discriminate]].
  destruct (x509_MarshalPKIXPublicKey _); simpl; [|split; [reflexivity|discriminate]].
  destruct (decide (Format opts = FormatSplitPEM)); [split; [reflexivity|auto]|].
  destruct (decide (Format opts = FormatSinglePEM)); [split; [reflexivity|auto]|].
  destruct (decide (Format opts = FormatJKS)); [|split; [reflexivity|discriminate]].
  unfold renderJKS. rewrite decide_True by exact Hpw.
  split; [reflexivity|discriminate].
Qed.

End RenderWithoutPassword.

Section WriterProperties.
Context {W : Type} `{!Encodings} `{!Effects W} `{!Cluster W}.
#[local] Existing Instance logged_effects.
#[local] Arguments Render : simpl never.

(** X19.  The writer makes at most one call, [CreateOrUpdate] on the secret
    named in the profile, in the profile's own namespace; it makes it only
    for a profile and a key pair that are not nil and an output format of
    split-pem or single-pem.  For every other format, jks among them since
    the writer passes no password, it returns an error and leaves the
    cluster alone.  Rendering leaves the store and the trace as they
    were. *)
Theorem Write_applies_one_secret (profile : option v1alpha1.KeyProfile)
    (kp : option loc) (s : State (Logged W)) :
  let run := defaultWriter profile kp s in
  exists calls,
    (world run.2).1 = (world s).1 ++ calls /\
    heap run.2 = heap s /\ trace run.2 = trace s /\
    (calls = [] /\ run.1 <> Returned None /\ world run.2 = world s \/
     exists p a data,
       profile = Some p /\ kp = Some a /\
       let format := v1alpha1.Format (v1alpha1.Output (v1alpha1.Spec p)) in
       (format = FormatSplitPEM \/ format = FormatSinglePEM) /\
       Render kp {| Format := format; Password := ""; Alias := "" |} s =
         (Returned (Ok data), s) /\
       calls =
         [CallCreateOrUpdate
            {| secret_Name := v1alpha1.SecretName (v1alpha1.Output (v1alpha1.Spec p));
               secret_Namespace := v1alpha1.Namespace p;
               secret_OwnerReferences := [];
               secret_Labels := None;
               secret_Annotations := None;
               secret_Data := ∅;
               secret_Type := "" |}]).
Proof.
  intros run. subst run.
  destruct (defaultWriter profile kp s) as [o s'] eqn:Hrun. simpl. revert Hrun.
  unfold defaultWriter, Write.
  destruct profile as [p|].
  2:{ intros Hrun. injection Hrun as <- <-. exists []. rewrite app_nil_r.
      split; [reflexivity|]. split; [reflexivity|]. split; [reflexivity|].
      left. split; [reflexivity|]. split; [discriminate|reflexivity]. }
  destruct kp as [a|].
  2:{ intros Hrun. injection Hrun as <- <-. exists []. rewrite app_nil_r.
      split; [reflexivity|]. split; [reflexivity|]. split; [reflexivity|].
      left. split; [reflexivity|]. split; [discriminate|reflexivity]. }
  unfold bind at 1.
  destruct (Render_without_password (Some a)
              {| Format := v1alpha1.Format (v1alpha1.Output (v1alpha1.Spec p));
                 Password := ""; Alias := "" |} s eq_refl) as [Hstate Hformat].
  destruct (Render (Some a) _ s) as [[r|] s1] eqn:Hrender; simpl in Hstate; subst s1.
  2:{ intros Hrun. injection Hrun as <- <-. exists []. rewrite app_nil_r.
      split; [reflexivity|]. split; [reflexivity|]. split; [reflexivity|].
      left. split; [reflexivity|]. split; [discriminate|reflexivity]. }
  destruct r as [data|err].
  2:{ intros Hrun. injection Hrun as <- <-. exists []. rewrite app_nil_r.
      split; [reflexivity|]. split; [reflexivity|]. split; [reflexivity|].
      left. split; [reflexivity|]. split; [discriminate|reflexivity]. }
  specialize (Hformat data eq_refl). simpl in Hformat.
  unfold call. run_paths.
  all: intros Hrun; injection Hrun as <- <-; simpl.
  all: eexists; split; [reflexivity|]; split; [reflexivity|]; split; [reflexivity|].
  all: right; exists p, a, data; repeat split; try reflexivity; try exact Hformat; try exact Hrender.
Qed.

End WriterProperties.

Section MutateProperties.
Context {W : Type} `{!Encodings} `{!Cluster W}.

(** X20.  When the function handed to [CreateOrUpdate] returns nil, the
    secret carries the two management labels with the program's values,
    whatever the profile's labels or the secret's old labels say under those
    names; every other label is the profile's if the profile has one and the
    secret's old one otherwise.  The data is the rendered bundle, the type
    is kubernetes.io/tls exactly for split-pem and Opaque otherwise, the
    three annotations describe the key pair, other annotations, the name and
    the namespace are kept.  When it returns an error the secret is
    unchanged. *)
Theorem Write_mutate_enforces_management_labels (profile : v1alpha1.KeyProfile)
    (k : KeyPair) (data : gmap string (list Byte.byte)) (secret : Secret) :
  let secret' := (Write_mutate (W := W) profile k data secret).1 in
  match (Write_mutate (W := W) profile k data secret).2 with
  | Some _ => secret' = secret
  | None =>
      exists labels annotations,
        secret_Labels secret' = Some labels /\
        secret_Annotations secret' = Some annotations /\
        labels !! "app.kubernetes.io/managed-by" = Some "openukr" /\
        labels !! "openukr.io/key-profile" = Some (v1alpha1.Name profile) /\
        (forall key,
           key <> "app.kubernetes.io/managed-by" -> key <> "openukr.io/key-profile" ->
           labels !! key =
             match v1alpha1.Labels (v1alpha1.Output (v1alpha1.Spec profile)) !! key with
             | Some v => Some v
             | None => default ∅ (secret_Labels secret) !! key
             end) /\
        annotations !! "openukr.io/last-rotation" =
          Some (time_Format time_RFC3339 (CreatedAt k)) /\
        annotations !! "openukr.io/key-id" = Some (KeyID k) /\
        annotations !! "openukr.io/algorithm" = Some (Algorithm k) /\
        (forall key,
           key <> "openukr.io/last-rotation" -> key <> "openukr.io/key-id" ->
           key <> "openukr.io/algorithm" ->
           annotations !! key = default ∅ (secret_Annotations secret) !! key) /\
        secret_Data secret' = data /\
        secret_Type secret' =
          (if decide (v1alpha1.Format (v1alpha1.Output (v1alpha1.Spec profile)) =
                      "split-pem")
           then "kubernetes.io/tls" else "Opaque") /\
        secret_Name secret' = secret_Name secret /\
        secret_Namespace secret' = secret_Namespace secret
  end.
Proof.
  unfold Write_mutate.
  destruct (ctrl_SetControllerReference profile secret) as [refs|e];
    [|reflexivity].
  cbv zeta. cbn [fst snd].
  eexists _, _. split; [reflexivity|]. split; [reflexivity|]. simpl.
  split. { rewrite lookup_insert_ne by discriminate. apply lookup_insert_eq. }
  split. { apply lookup_insert_eq. }
  split.
  { intros key Hk1 Hk2. rewrite !lookup_insert_ne by congruence.
    rewrite lookup_union.
    destruct (v1alpha1.Labels _ !! key) as [v|];
      destruct (default ∅ (secret_Labels secret) !! key); reflexivity. }
  split. { rewrite !lookup_insert_ne by discriminate. apply lookup_insert_eq. }
  split. { rewrite lookup_insert_ne by discriminate. apply lookup_insert_eq. }
  split. { apply lookup_insert_eq. }
  split. { intros key Hk1 Hk2 Hk3. rewrite !lookup_insert_ne by congruence. reflexivity. }
  repeat split.
Qed.

End MutateProperties.

(** ** The reconciler *)

Lemma time_Sub_range (t u : time.Time) :
  - 2 ^ 63 <= time_Sub t u <= 2 ^ 63 - 1.
Proof.
  unfold time_Sub.
  destruct (Z.ltb_spec (time.instant t - time.instant u) (- 2 ^ 63)); [lia|].
  destruct (Z.ltb_spec (2 ^ 63 - 1) (time.instant t - time.instant u)); lia.
Qed.

Lemma needsStatusUpdate_set_Status (profile : v1alpha1.KeyProfile)
    (res : rotation.RotationResult) :
  needsStatusUpdate (set_Status res profile) res = false.
Proof.
  unfold needsStatusUpdate, set_Status. simpl.
  destruct (decide (rotation.KeyID res <> rotation.KeyID res)) as [Hne|_];
    [contradiction|].
  destruct (decide (rotation.Fingerprint res <> rotation.Fingerprint res)) as [Hne|_];
    [contradiction|].
  unfold time.Equal. rewrite !Z.eqb_refl. reflexivity.
Qed.

Section ReconcileProperties.
Context {W : Type} `{!Effects W} `{!Cluster W}.
#[local] Existing Instance logged_effects.

(** X21.  Whatever the rotation manager does, [Reconcile] never asks for a
    negative requeue delay, and it asks for none when it returns an error.
    When the profile cannot be fetched the rotation manager is not run at
    all, and the error is returned unless it says the profile is gone. *)
Theorem Reconcile_requeue_not_negative
    (rotationManager : v1alpha1.KeyProfile ->
                       M (Logged W) (Result rotation.RotationResult))
    (req : NamespacedName) (s s' : State (Logged W))
    (result : ctrl_Result) (err : option error) :
  Reconcile rotationManager req s = (Returned (result, err), s') ->
  0 <= RequeueAfter result <= 2 ^ 63 - 1 /\
  (err <> None -> RequeueAfter result = 0) /\
  (forall e w,
     client_Get req (world s).2 = (Err e, w) ->
     result = {| RequeueAfter := 0 |} /\ err = client_IgnoreNotFound e /\
     s' = mkState (heap s) ((world s).1 ++ [CallGet req], w) (trace s)).
Proof.
  unfold Reconcile, scheduleRequeue, time_Until, logError, logInfo, call.
  run_paths.
  all: intros Hrun; try discriminate Hrun; injection Hrun as <- <- <-; simpl.
  all: split; [|split; [|intros e' w' Hget; try congruence]].
  all: try (intros Herr; try reflexivity; contradiction).
  all: try (unfold time.Second; lia).
  all: try match goal with
           | Hlt : (time_Sub ?x ?y <? 0) = false |- _ =>
               apply Z.ltb_ge in Hlt; pose proof (time_Sub_range x y); lia
           end.
  injection Hget as <- <-. repeat split.
Qed.

(** X22.  Once the rotation manager has returned a result, [Reconcile]
    writes the status exactly when the fetched profile disagrees with the
    result, and only once.  What it writes is the fetched profile with the
    phase Active and the result's key ID, fingerprint, rotation time and next
    rotation; the spec and the previous key ID and fingerprint are as
    fetched.  The written profile agrees with the result, so reconciling it
    again with the same result writes nothing. *)
Theorem Reconcile_writes_a_settled_status
    (rotationManager : v1alpha1.KeyProfile ->
                       M (Logged W) (Result rotation.RotationResult))
    (req : NamespacedName) (s s2 : State (Logged W))
    (profile : v1alpha1.KeyProfile) (w1 : W) (res : rotation.RotationResult) :
  client_Get req (world s).2 = (Ok profile, w1) ->
  rotationManager profile
    (mkState (W := Logged W) (heap s) ((world s).1 ++ [CallGet req], w1) (trace s)) =
    (Returned (Ok res), s2) ->
  let run := Reconcile rotationManager req s in
  exists logs,
    (world run.2).1 =
      (world s2).1 ++
      (if needsStatusUpdate profile res
       then [CallStatusUpdate (set_Status res profile)] else []) ++ logs /\
    Forall is_log logs /\
    heap run.2 = heap s2 /\ trace run.2 = trace s2 /\
    let p := set_Status res profile in
    needsStatusUpdate p res = false /\
    v1alpha1.Spec p = v1alpha1.Spec profile /\
    v1alpha1.PreviousKeyID (v1alpha1.Status p) =
      v1alpha1.PreviousKeyID (v1alpha1.Status profile) /\
    v1alpha1.PreviousKeyFingerprint (v1alpha1.Status p) =
      v1alpha1.PreviousKeyFingerprint (v1alpha1.Status profile).
Proof.
  intros Hget Hrm run. subst run.
  destruct (Reconcile rotationManager req s) as [o s'] eqn:Hrun. simpl. revert Hrun.
  unfold Reconcile, bind at 1, call, onWorld at 1. simpl. rewrite Hget. simpl.
  unfold bind. cbv beta. rewrite Hrm.
  unfold scheduleRequeue, time_Until, logError, logInfo, call.
  destruct (needsStatusUpdate profile res); run_paths.
  all: intros Hrun; injection Hrun as <- <-; simpl.
  all: rewrite <- ?app_assoc; simpl.
  all: first [ exists []; rewrite ?app_nil_r; split; [reflexivity|]
             | eexists; split; [reflexivity|] ].
  all: split; [repeat constructor|].
  all: split; [reflexivity|]; split; [reflexivity|].
  all: split; [apply needsStatusUpdate_set_Status | repeat split].
Qed.

End ReconcileProperties.

Section SteadyState.
Context {W : Type} `{!Encodings} `{!Effects W} `{!Cluster W}.
#[local] Existing Instance logged_effects.

#[local] Arguments calculateNextRotation : simpl never.

(** Reading the clock leaves the log as it is. *)
Lemma checkRotationNeeded_log (profile : v1alpha1.KeyProfile) (s : State (Logged W)) :
  (world (checkRotationNeeded profile s).2).1 = (world s).1.
Proof.
  unfold checkRotationNeeded.
  destruct (bool_decide _ || metav1.IsZero _); [reflexivity|].
  destruct (_ =? 0); [reflexivity|].
  unfold bind, onWorld, derefTime, ret. simpl.
  destruct (time_Now (world s).2) as [now w]. simpl.
  destruct (v1alpha1.LastRotation _); simpl; [|reflexivity].
  destruct (time.After _ _); reflexivity.
Qed.

(** X23.  Steady state.  When the fetched profile has a key that is not
    yet due and its status already shows that key's next rotation and a
    phase, [Reconcile] over [EnsureKey] only reads: after fetching the
    profile it generates nothing, publishes nothing, writes neither secret
    nor status, and returns without error; it logs the requeue unless
    rotation is disabled, in which case it asks for no requeue. *)
Theorem Reconcile_steady_state_is_read_only (m : manager (Logged W))
    (req : NamespacedName) (s : State (Logged W))
    (profile : v1alpha1.KeyProfile) (w1 : W) (reason : gostring) :
  let status := v1alpha1.Status profile in
  let interval := v1alpha1.Interval (v1alpha1.Rotation (v1alpha1.Spec profile)) in
  client_Get req (world s).2 = (Ok profile, w1) ->
  (checkRotationNeeded profile
     (mkState (W := Logged W) (heap s) ((world s).1 ++ [CallGet req], w1) (trace s))).1 =
    Returned (false, reason) ->
  (forall last, v1alpha1.LastRotation status = Some last ->
     v1alpha1.NextRotation status = Some (calculateNextRotation last interval)) ->
  v1alpha1.Phase status <> "" ->
  let run := Reconcile (EnsureKey m) req s in
  exists result logs,
    run.1 = Returned (result, None) /\
    0 <= RequeueAfter result /\
    (interval = 0 -> result = {| RequeueAfter := 0 |} /\ logs = []) /\
    (world run.2).1 = (world s).1 ++ CallGet req :: logs /\
    Forall is_log logs /\
    heap run.2 = heap s /\ trace run.2 = trace s.
Proof.
  intros status interval Hget Hdec Hnext Hphase run. subst run status interval.
  set (s1 := mkState (W := Logged W) (heap s) ((world s).1 ++ [CallGet req], w1) (trace s)) in *.
  destruct (checkRotationNeeded_false profile s1 reason Hdec)
    as [last [Hid [Hlast [Hnz Hdue]]]].
  destruct (checkRotationNeeded_frame profile s1) as [Hheap [Htrace _]].
  pose proof (checkRotationNeeded_log profile s1) as Hlog.
  assert (Hrun : EnsureKey m profile s1 =
    (Returned (Ok {| rotation.Rotated := false;
                     rotation.KeyID := v1alpha1.CurrentKeyID (v1alpha1.Status profile);
                     rotation.RotationTime := last;
                     rotation.NextRotation :=
                       calculateNextRotation last
                         (v1alpha1.Interval (v1alpha1.Rotation (v1alpha1.Spec profile)));
                     rotation.Fingerprint :=
                       v1alpha1.CurrentKeyFingerprint (v1alpha1.Status profile) |}),
     (checkRotationNeeded profile s1).2)).
  { unfold EnsureKey, bind at 1.
    destruct (checkRotationNeeded profile s1) as [o s2]. simpl in Hdec. subst o.
    simpl. rewrite Hlast. reflexivity. }
  set (res := {| rotation.Rotated := false;
                 rotation.KeyID := v1alpha1.CurrentKeyID (v1alpha1.Status profile);
                 rotation.RotationTime := last;
                 rotation.NextRotation :=
                   calculateNextRotation last
                     (v1alpha1.Interval (v1alpha1.Rotation (v1alpha1.Spec profile)));
                 rotation.Fingerprint :=
                   v1alpha1.CurrentKeyFingerprint (v1alpha1.Status profile) |}) in *.
  assert (Hsettled : needsStatusUpdate profile res = false).
  { unfold needsStatusUpdate, res. simpl.
    destruct (decide (v1alpha1.CurrentKeyID (v1alpha1.Status profile) <>
                      v1alpha1.CurrentKeyID (v1alpha1.Status profile))) as [Hne|_];
      [contradiction|].
    destruct (decide (v1alpha1.CurrentKeyFingerprint (v1alpha1.Status profile) <>
                      v1alpha1.CurrentKeyFingerprint (v1alpha1.Status profile)))
      as [Hne|_]; [contradiction|].
    rewrite Hlast, (Hnext last Hlast). unfold time.Equal. rewrite !Z.eqb_refl. simpl.
    rewrite decide_False by exact Hphase. reflexivity. }
  destruct (Reconcile (EnsureKey m) req s) as [o s'] eqn:Hrec. simpl. revert Hrec.
  unfold Reconcile, bind at 1, call, onWorld at 1. simpl. rewrite Hget. simpl.
  fold s1. unfold bind at 1. rewrite Hrun. rewrite Hsettled.
  unfold scheduleRequeue, time_Until, logInfo, call.
  clear Hrun. remember (checkRotationNeeded profile s1).2 as s2 eqn:Hs2. clear Hs2.
  destruct (time.IsZero (rotation.NextRotation res)) eqn:Hzero; simpl.
  - intros Hrec. injection Hrec as <- <-.
    exists {| RequeueAfter := 0 |}, []. simpl.
    split; [reflexivity|]. split; [lia|]. split; [auto|].
    split; [rewrite Hlog; reflexivity|]. split; [constructor|].
    split; [exact Hheap | exact Htrace].
  - unfold bind, onWorld, ret. simpl.
    destruct (time_Now (world s2).2) as [now w2]. simpl.
    intros Hrec. injection Hrec as <- <-. simpl.
    eexists _, [CallLogInfo 1 "Requeue scheduled"]. simpl.
    split; [reflexivity|]. split.
    { cbn [RequeueAfter].
      match goal with
      | |- context [?d <? 0] => destruct (Z.ltb_spec d 0) as [Hlt|Hge]
      end; [unfold time.Second; lia | exact Hge]. }
    split.
    { intros Hint. exfalso. unfold res, calculateNextRotation in Hzero.
      simpl in Hzero. rewrite Hint in Hzero. discriminate Hzero. }
    split; [rewrite Hlog; simpl; rewrite <- app_assoc; reflexivity|].
    split; [repeat constructor|]. split; [exact Hheap | exact Htrace].
Qed.
End SteadyState.

(** A request for a profile the stand-in API server does not hold. *)
Lemma Reconcile_requeue_not_negative_witness :
  let req := {| nn_Namespace := "finance"; nn_Name := "gone" |} in
  let run :=
    Reconcile (W := Z) (fun _ => ret (Ok clusterstandin.result)) req
      clusterstandin.state in
  run.1 = Returned ({| RequeueAfter := 0 |}, None) /\
  (world run.2).1 = [CallGet req].
Proof.
  intros req run.
  assert (Hrun : run = (Returned ({| RequeueAfter := 0 |}, None), run.2))
    by (vm_compute; reflexivity).
  assert (Hget : client_Get req (world clusterstandin.state).2 =
                 (Err (errors_New "not found"), 0)) by (vm_compute; reflexivity).
  destruct (Reconcile_requeue_not_negative _ _ _ _ _ _ Hrun) as [_ [_ Hgone]].
  destruct (Hgone (errors_New "not found") 0 Hget) as [_ [_ Hstate]].
  split; [rewrite Hrun; reflexivity|]. rewrite Hstate. reflexivity.
Defined.

(** A rotation manager that reports a new key for the settled profile. *)
Lemma Reconcile_writes_a_settled_status_witness :
  let res := {| rotation.Rotated := true;
                rotation.KeyID := "rsa-4096-20260102-0a0b0c";
                rotation.RotationTime := time.mkTime 900;
                rotation.NextRotation := time.mkTime (900 + 24 * time.Hour);
                rotation.Fingerprint := "SHA256:MII" |} in
  let req := {| nn_Namespace := "finance"; nn_Name := "billing" |} in
  let run := Reconcile (W := Z) (fun _ => ret (Ok res)) req clusterstandin.state in
  exists logs,
    (world run.2).1 =
      [CallGet req] ++
      (if needsStatusUpdate clusterstandin.settled res
       then [CallStatusUpdate (set_Status res clusterstandin.settled)] else []) ++ logs /\
    Forall is_log logs /\
    needsStatusUpdate clusterstandin.settled res = true.
Proof.
  intros res req run.
  assert (Hget : client_Get req (world clusterstandin.state).2 =
                 (Ok clusterstandin.settled, 0)) by (vm_compute; reflexivity).
  assert (Hneeds : needsStatusUpdate clusterstandin.settled res = true)
    by (vm_compute; reflexivity).
  destruct (Reconcile_writes_a_settled_status (W := Z) (fun _ => ret (Ok res)) req
              clusterstandin.state
              (mkState (W := Logged Z) emptyHeap ([CallGet req], 0) [])
              clusterstandin.settled 0 res Hget eq_refl)
    as [logs [Hlog [Hlogs _]]].
  exists logs. split; [exact Hlog|]. split; [exact Hlogs | exact Hneeds].
Defined.

Section SteadyStateRun.
#[local] Existing Instance logged_effects.

(** The settled profile, fetched before its key is due. *)
Lemma Reconcile_steady_state_is_read_only_witness :
  let req := {| nn_Namespace := "finance"; nn_Name := "billing" |} in
  let run := Reconcile (W := Z) (EnsureKey clusterstandin.idle) req clusterstandin.state in
  exists result logs,
    run.1 = Returned (result, None) /\
    0 <= RequeueAfter result /\
    (world run.2).1 = [] ++ CallGet req :: logs /\
    Forall is_log logs /\
    heap run.2 = emptyHeap /\ trace run.2 = [].
Proof.
  intros req run.
  assert (Hget : client_Get req (world clusterstandin.state).2 =
                 (Ok clusterstandin.settled, 0)) by (vm_compute; reflexivity).
  assert (Hdec :
    (checkRotationNeeded clusterstandin.settled
       (mkState (W := Logged Z) (heap clusterstandin.state)
          ((world clusterstandin.state).1 ++ [CallGet req], 0)
          (trace clusterstandin.state))).1 = Returned (false, Lit ""))
    by (vm_compute; reflexivity).
  assert (Hphase : v1alpha1.Phase (v1alpha1.Status clusterstandin.settled) <> "")
    by discriminate.
  assert (Hnext : forall last,
    v1alpha1.LastRotation (v1alpha1.Status clusterstandin.settled) = Some last ->
    v1alpha1.NextRotation (v1alpha1.Status clusterstandin.settled) =
      Some (calculateNextRotation last
              (v1alpha1.Interval (v1alpha1.Rotation
                 (v1alpha1.Spec clusterstandin.settled))))).
  { intros last Hlast. injection Hlast as <-. vm_compute. reflexivity. }
  destruct (Reconcile_steady_state_is_read_only (W := Z) clusterstandin.idle req
              clusterstandin.state clusterstandin.settled 0 (Lit "")
              Hget Hdec Hnext Hphase)
    as [result [logs [Hres [Hpos [_ [Hlog [Hlogs [Hheap Htrace]]]]]]]].
  exists result, logs. repeat split; assumption.
Defined.

End SteadyStateRun.

(** ** Rotation with the repository's writer *)

Section PersistFormats.
Context {W : Type} `{!Encodings} `{!Effects W} `{!Cluster W}.
#[local] Existing Instance logged_effects.

#[local] Arguments Wipe : simpl never.
#[local] Arguments ComputeFingerprint : simpl never.
#[local] Arguments calculateNextRotation : simpl never.
#[local] Arguments Render : simpl never.



End PersistFormats.

Section JksRun.
#[local] Existing Instance logged_effects.


End JksRun.
